(** * PrismHR MCP server: the session authenticator and the endpoint relay

    A shallow embedding of [server/prismhr_mcp_server.py] (and of its
    four-tool sibling [server/small_prismhr_mcp_server.py], which has the
    same [authenticate_prismhr], [get_employee_list] and [test_connection]).

    Python strings are modelled by [string] (their UTF-8 bytes), the
    process environment [os.environ] by a [gmap string string], a Python
    [dict] whose iteration order matters by an association list, and the
    two blocking network calls by a state-and-exception monad over an
    abstract upstream. *)

From Stdlib Require Import String Ascii List Bool Arith ZArith Lia PrimFloat.
From stdpp Require Import base option gmap strings pretty.

Import ListNotations.
Local Open Scope string_scope.
Local Open Scope list_scope.

(** ** Python values *)

(** What [json.loads] can return. *)
#[warnings="-register-all"]
Inductive pyval : Type :=
| PyNone
| PyBool (b : bool)
| PyInt (n : Z)
| PyFloat (x : float)
| PyStr (s : string)
| PyList (l : list pyval)
| PyDict (d : list (string * pyval)).

(** [bool(v)], the test behind [if v:] and [not v]. *)
Definition truthy (v : pyval) : bool :=
  match v with
  | PyNone => false
  | PyBool b => b
  | PyInt n => negb (Z.eqb n 0)
  | PyFloat x => negb (PrimFloat.eqb x PrimFloat.zero)
  | PyStr s => negb (String.eqb s "")
  | PyList l => match l with [] => false | _ :: _ => true end
  | PyDict d => match d with [] => false | _ :: _ => true end
  end.

(** [type(v).__name__], as it appears in an [AttributeError] message. *)
Definition type_name (v : pyval) : string :=
  match v with
  | PyNone => "NoneType"
  | PyBool _ => "bool"
  | PyInt _ => "int"
  | PyFloat _ => "float"
  | PyStr _ => "str"
  | PyList _ => "list"
  | PyDict _ => "dict"
  end.

(** [v == s] for a string literal [s]: only a [str] compares equal. *)
Definition eq_str (v : pyval) (s : string) : bool :=
  match v with
  | PyStr t => String.eqb t s
  | _ => false
  end.

(** Lookup in a [dict] given as an association list. *)
Fixpoint assoc {A : Type} (k : string) (d : list (string * A)) : option A :=
  match d with
  | [] => None
  | (k', v) :: d' => if String.eqb k' k then Some v else assoc k d'
  end.

(** [params[k] = v]: an existing key keeps its position and takes the new
    value, a new key goes to the end. *)
Fixpoint dict_set {A : Type} (k : string) (v : A) (d : list (string * A))
  : list (string * A) :=
  match d with
  | [] => [(k, v)]
  | (k', v') :: d' =>
      if String.eqb k' k then (k, v) :: d' else (k', v') :: dict_set k v d'
  end.

(** ** Exceptions *)

Inductive exn_class : Type :=
| HTTPError | URLError | TimeoutError | OSError
| ValueError | JSONDecodeError | UnicodeDecodeError
| AttributeError | TypeError | RuntimeError
| KeyboardInterrupt | SystemExit.

(** An exception object: its class and [str(e)]. *)
Record exn : Type := Exn { exn_class_of : exn_class; exn_str : string }.

(** [isinstance(e, Exception)]: what an [except Exception] clause catches.
    [KeyboardInterrupt] and [SystemExit] derive from [BaseException] only. *)
Definition isinstance_Exception (e : exn) : bool :=
  match exn_class_of e with
  | KeyboardInterrupt | SystemExit => false
  | _ => true
  end.

(** ** [urllib.parse]: [quote_plus] and [urlencode] *)

Definition is_unreserved (c : ascii) : bool :=
  let n := nat_of_ascii c in
  (Nat.leb 65 n && Nat.leb n 90) || (Nat.leb 97 n && Nat.leb n 122)
  || (Nat.leb 48 n && Nat.leb n 57)
  || Ascii.eqb c "_" || Ascii.eqb c "." || Ascii.eqb c "-" || Ascii.eqb c "~".

Definition hex_digit (n : nat) : ascii :=
  match n with
  | 0 => "0" | 1 => "1" | 2 => "2" | 3 => "3" | 4 => "4" | 5 => "5"
  | 6 => "6" | 7 => "7" | 8 => "8" | 9 => "9" | 10 => "A" | 11 => "B"
  | 12 => "C" | 13 => "D" | 14 => "E" | _ => "F"
  end%char.

(** One byte of [quote_plus(s)] with the default [safe='']. *)
Definition quote_plus_byte (c : ascii) : string :=
  if Ascii.eqb c " " then "+"
  else if is_unreserved c then String c ""
  else String "%" (String (hex_digit (nat_of_ascii c / 16))
                     (String (hex_digit (nat_of_ascii c mod 16)) "")).

Fixpoint quote_plus (s : string) : string :=
  match s with
  | EmptyString => ""
  | String c s' => quote_plus_byte c +:+ quote_plus s'
  end.

(** ['&'.join(l)] *)
Fixpoint join (sep : string) (l : list string) : string :=
  match l with
  | [] => ""
  | [x] => x
  | x :: l' => x +:+ sep +:+ join sep l'
  end.

(** The values the tools store in [params]. *)
Inductive qval : Type :=
| QNone
| QStr (s : string)
| QBool (b : bool)
| QList (l : list string).

(** ** The interpreter and the network

    What the tools take from outside this repository: Python's [repr],
    the constructor of [urllib.request.Request], the upstream behind
    [urllib.request.urlopen], and [json.loads]. *)

(** [urllib.request.Request(url, data=..., headers=...)] *)
Record request : Type := mkRequest {
  full_url : string;
  data : option string;
  headers : list (string * pyval)
}.

(** The outcome of evaluating an expression: it raises or it has a value. *)
Inductive outcome (A : Type) : Type :=
| Raised (e : exn)
| Value (a : A).
Arguments Raised {A} e.
Arguments Value {A} a.

Class Platform : Type := {
  (** [repr(s)] of a [str] *)
  py_repr : string -> string;
  (** [str(e)] of the [ValueError] that [Request(url, ...)] raises when it
      rejects [url] (a URL without a scheme, "unknown url type") *)
  Request_rejects : string -> option string;
  (** the state of the upstream and of the connection to it *)
  World : Type;
  (** [with urlopen(request, timeout=30) as response: response.read()]:
      the bytes of the body, or the exception of the failed call *)
  urlopen_read : request -> World -> outcome string * World;
  (** [json.loads(body.decode('utf-8'))]: the parsed value, or [str(e)] of
      the [UnicodeDecodeError] or [JSONDecodeError] raised, both of them
      kinds of [ValueError] *)
  json_loads : string -> string + pyval
}.

(** A record written by [logger.error]: a finished message, or an f-string
    whose hole holds a JSON value. *)
Inductive log_record : Type :=
| LogError (msg : string)
| LogErrorValue (prefix : string) (v : pyval).

Section Server.

Context {P : Platform}.

(** [str(v)] *)
Definition py_str (v : qval) : string :=
  match v with
  | QNone => "None"
  | QStr s => s
  | QBool true => "True"
  | QBool false => "False"
  | QList l => "[" +:+ join ", " (map py_repr l) +:+ "]"
  end.

(** The pieces that [urlencode] appends to its list [l] for one item of
    the query: one [key=value] per appended pair. *)
Definition urlencode_item (doseq : bool) (kv : string * qval) : list string :=
  let k := quote_plus (fst kv) in
  let v := snd kv in
  if doseq then
    match v with
    | QStr s => [k +:+ "=" +:+ quote_plus s]
    | QList elts => map (fun elt => k +:+ "=" +:+ quote_plus elt) elts
    | _ => [k +:+ "=" +:+ quote_plus (py_str v)]
    end
  else [k +:+ "=" +:+ quote_plus (py_str v)].

Definition urlencode_pieces (doseq : bool) (query : list (string * qval))
  : list string :=
  concat (map (urlencode_item doseq) query).

(** [urllib.parse.urlencode(query, doseq=doseq)] *)
Definition urlencode (doseq : bool) (query : list (string * qval)) : string :=
  join "&" (urlencode_pieces doseq query).

(** *** The monad of a tool call

    A computation runs from a state (the upstream, the requests sent so
    far, the log) to an outcome and a new state. *)

Record state : Type := mkState {
  net : World;
  trace : list request;
  log : list log_record
}.

Definition M (A : Type) : Type := state -> outcome A * state.

Definition ret {A} (a : A) : M A := fun s => (Value a, s).

Definition raise {A} (e : exn) : M A := fun s => (Raised e, s).

Definition bind {A B} (m : M A) (k : A -> M B) : M B :=
  fun s =>
    match m s with
    | (Raised e, s') => (Raised e, s')
    | (Value a, s') => k a s'
    end.

(** [try: body / except Exception as e: handler] *)
Definition try_except {A} (body : M A) (handler : exn -> M A) : M A :=
  fun s =>
    match body s with
    | (Raised e, s') =>
        if isinstance_Exception e then handler e s' else (Raised e, s')
    | (Value a, s') => (Value a, s')
    end.

Definition logger_error (r : log_record) : M unit :=
  fun s => (Value tt, mkState (net s) (trace s) (log s ++ [r])).

(** [urllib.request.Request(url, data=data, headers=headers)] *)
Definition Request (url : string) (data : option string)
    (headers : list (string * pyval)) : M request :=
  match Request_rejects url with
  | Some msg => raise (Exn ValueError msg)
  | None => ret (mkRequest url data headers)
  end.

(** The request goes on the wire: it is recorded in the trace, and the
    upstream answers or the call fails. *)
Definition urlopen (req : request) : M string :=
  fun s =>
    let (r, w) := urlopen_read req (net s) in
    (r, mkState w (trace s ++ [req]) (log s)).

Definition loads (body : string) : M pyval :=
  match json_loads body with
  | inl msg => raise (Exn ValueError msg)
  | inr v => ret v
  end.

(** [d.get(key)] and [d.get(key, default)]: a method of [dict] only. *)
Definition py_get (d : pyval) (key : string) (dflt : pyval) : M pyval :=
  match d with
  | PyDict items => ret (default dflt (assoc key items))
  | _ => raise (Exn AttributeError
                  ("'" +:+ type_name d +:+ "' object has no attribute 'get'"))
  end.

Declare Scope py_scope.
Delimit Scope py_scope with py.
Notation "x <- m ;; k" := (bind m (fun x => k))
  (at level 100, m at next level, right associativity) : py_scope.
Notation "m ;; k" := (bind m (fun _ => k))
  (at level 100, right associativity) : py_scope.
Local Open Scope py_scope.

(** A tool call starts with nothing sent and nothing logged. *)
Definition run {A} (m : M A) (w : World) : outcome A * state :=
  m (mkState w [] []).

(** *** [authenticate_prismhr] *)

Definition default_base_url : string :=
  "https://salesdemoapi.prismhr.com/prismhr-api".

(** A value read by [os.getenv]: [None] or a [str]. *)
Definition of_opt (o : option string) : qval :=
  match o with
  | None => QNone
  | Some s => QStr s
  end.

(** [bool(o)] for such a value. *)
Definition opt_truthy (o : option string) : bool :=
  match o with
  | None => false
  | Some s => negb (String.eqb s "")
  end.

Definition auth_url (base_url : string) : string :=
  base_url +:+ "/services/rest/login/v1/createPeoSession".

Definition auth_headers : list (string * pyval) :=
  [("Content-Type", PyStr "application/x-www-form-urlencoded");
   ("Accept", PyStr "application/json")].

Definition auth_data (username password peo_id : option string) : string :=
  urlencode false [("username", of_opt username);
                   ("password", of_opt password);
                   ("peoId", of_opt peo_id)].

(** The request is built before the [try]; the [try] covers [urlopen],
    the parse and the test of the error code. *)
Definition authenticate_prismhr (username password peo_id : option string)
    (base_url : string) : M pyval :=
  auth_request <- Request (auth_url base_url)
                    (Some (auth_data username password peo_id))
                    auth_headers ;;
  try_except
    (body <- urlopen auth_request ;;
     auth_result <- loads body ;;
     code <- py_get auth_result "errorCode" PyNone ;;
     if eq_str code "0" then py_get auth_result "sessionId" PyNone
     else
       msg <- py_get auth_result "errorMessage" (PyStr "Unknown error") ;;
       logger_error (LogErrorValue "Authentication failed: " msg) ;;
       ret PyNone)
    (fun e =>
       logger_error (LogError ("Authentication failed: " +:+ exn_str e)) ;;
       ret PyNone).

(** *** The relay

    The 253 relay tools of [prismhr_mcp_server.py] have the same text
    around the lines that build their URL: the body is one [try] with one
    [except Exception] clause; it reads the four environment variables,
    tests the three credentials, authenticates, tests the token, builds
    the URL, sends one [Request] with the [sessionId] and [Accept]
    headers, parses the body and returns it. [relay] is that text;
    [label] is the name in the tool's messages and [endpoint] maps
    [base_url] to the URL the tool requests. *)

Definition error_dict (msg : string) : pyval := PyDict [("error", PyStr msg)].

Definition relay (label : string) (endpoint : string -> string)
    (environ : gmap string string) : M pyval :=
  try_except
    (let username := environ !! "PRISMHR_USERNAME" in
     let password := environ !! "PRISMHR_PASSWORD" in
     let peo_id := environ !! "PRISMHR_PEO_ID" in
     let base_url := default default_base_url (environ !! "PRISMHR_BASE_URL") in
     if negb (forallb opt_truthy [username; password; peo_id]) then
       ret (error_dict "Missing PrismHR credentials")
     else
       session_id <- authenticate_prismhr username password peo_id base_url ;;
       if negb (truthy session_id) then
         ret (error_dict "Authentication failed")
       else
         request <- Request (endpoint base_url) None
                      [("sessionId", session_id);
                       ("Accept", PyStr "application/json")] ;;
         body <- urlopen request ;;
         result <- loads body ;;
         ret result)
    (fun e =>
       logger_error (LogError (label +:+ " failed: " +:+ exn_str e)) ;;
       ret (error_dict (label +:+ " failed: " +:+ exn_str e))).

(** [if v: params[key] = v] for an optional string parameter. *)
Definition set_if_truthy (key : string) (v : option string)
    (params : list (string * qval)) : list (string * qval) :=
  if opt_truthy v then dict_set key (of_opt v) params else params.

Definition lower_byte (c : ascii) : ascii :=
  let n := nat_of_ascii c in
  if Nat.leb 65 n && Nat.leb n 90 then ascii_of_nat (n + 32) else c.

(** [s.lower()] on ASCII text. *)
Fixpoint lower (s : string) : string :=
  match s with
  | EmptyString => ""
  | String c s' => String (lower_byte c) (lower s')
  end.

(** [if b is not None: params[key] = str(b).lower()] for an optional
    boolean parameter. *)
Definition set_if_not_None (key : string) (b : option bool)
    (params : list (string * qval)) : list (string * qval) :=
  match b with
  | Some b => dict_set key (QStr (lower (py_str (QBool b)))) params
  | None => params
  end.

(** [get_employee_list(client_id, status_class=None, type_class=None)] *)
Definition get_employee_list_params (client_id : string)
    (status_class type_class : option string) : list (string * qval) :=
  let params := [("clientId", QStr client_id)] in
  let params := set_if_truthy "statusClass" status_class params in
  let params := set_if_truthy "typeClass" type_class params in
  params.

Definition get_employee_list_url (client_id : string)
    (status_class type_class : option string) (base_url : string) : string :=
  let url := base_url +:+ "/services/rest/employee/v1/getEmployeeList" in
  let params := get_employee_list_params client_id status_class type_class in
  let query_string := urlencode false params in
  url +:+ "?" +:+ query_string.

Definition get_employee_list (client_id : string)
    (status_class type_class : option string) : gmap string string -> M pyval :=
  relay "Get employee list"
    (get_employee_list_url client_id status_class type_class).

(** [get_absence_journal(client_id, journal_id)], [journal_id] a list *)
Definition get_absence_journal_params (client_id : string)
    (journal_id : list string) : list (string * qval) :=
  [("clientId", QStr client_id); ("journalId", QList journal_id)].

Definition get_absence_journal_url (client_id : string)
    (journal_id : list string) (base_url : string) : string :=
  let url := base_url +:+ "/services/rest/benefits/v1/getAbsenceJournal" in
  let params := get_absence_journal_params client_id journal_id in
  let query_string := urlencode true params in
  url +:+ "?" +:+ query_string.

Definition get_absence_journal (client_id : string)
    (journal_id : list string) : gmap string string -> M pyval :=
  relay "Get absence journal" (get_absence_journal_url client_id journal_id).

(** [get_retirement_plan(client_id, employee_id, effective_date=None,
    is_active=None)] *)
Definition get_retirement_plan_params (client_id employee_id : string)
    (effective_date : option string) (is_active : option bool)
    : list (string * qval) :=
  let params := [("clientId", QStr client_id);
                 ("employeeId", QStr employee_id)] in
  let params := set_if_truthy "effectiveDate" effective_date params in
  let params := set_if_not_None "isActive" is_active params in
  params.

Definition get_retirement_plan_url (client_id employee_id : string)
    (effective_date : option string) (is_active : option bool)
    (base_url : string) : string :=
  let url := base_url +:+ "/services/rest/benefits/v1/getRetirementPlan" in
  let params :=
    get_retirement_plan_params client_id employee_id effective_date is_active in
  let query_string := urlencode false params in
  url +:+ "?" +:+ query_string.

Definition get_retirement_plan (client_id employee_id : string)
    (effective_date : option string) (is_active : option bool)
    : gmap string string -> M pyval :=
  relay "Get retirement plan"
    (get_retirement_plan_url client_id employee_id effective_date is_active).

(** The f-string [f"{key}[{i}]"] *)
Definition indexed_key (key : string) (i : nat) : string :=
  key +:+ "[" +:+ pretty i +:+ "]".

(** [for i, x in enumerate(xs): params[f"{key}[{i}]"] = x], counting
    from [i]. *)
Fixpoint set_indexed (key : string) (i : nat) (xs : list string)
    (params : list (string * qval)) : list (string * qval) :=
  match xs with
  | [] => params
  | x :: xs' =>
      set_indexed key (S i) xs' (dict_set (indexed_key key i) (QStr x) params)
  end.

(** [reprint_1099(client_id, employee_id, year)], [employee_id] a list *)
Definition reprint_1099_params (client_id : string)
    (employee_id : list string) (year : string) : list (string * qval) :=
  let params := [("clientId", QStr client_id); ("year", QStr year)] in
  let params := set_indexed "employeeId" 0 employee_id params in
  params.

Definition reprint_1099_url (client_id : string) (employee_id : list string)
    (year : string) (base_url : string) : string :=
  let url := base_url +:+ "/services/rest/employee/v1/reprint1099" in
  let params := reprint_1099_params client_id employee_id year in
  let query_string := urlencode false params in
  url +:+ "?" +:+ query_string.

Definition reprint_1099 (client_id : string) (employee_id : list string)
    (year : string) : gmap string string -> M pyval :=
  relay "Reprint 1099" (reprint_1099_url client_id employee_id year).

(** *** [test_connection] *)

Definition test_connection (environ : gmap string string) : M pyval :=
  try_except
    (let username := environ !! "PRISMHR_USERNAME" in
     let password := environ !! "PRISMHR_PASSWORD" in
     let peo_id := environ !! "PRISMHR_PEO_ID" in
     let base_url := default default_base_url (environ !! "PRISMHR_BASE_URL") in
     if negb (forallb opt_truthy [username; password; peo_id]) then
       ret (PyDict
              [("success", PyBool false);
               ("error", PyStr "Missing PrismHR credentials. Please set PRISMHR_USERNAME, PRISMHR_PASSWORD, and PRISMHR_PEO_ID environment variables.");
               ("credentials_status",
                PyDict [("username", PyBool (opt_truthy username));
                        ("password", PyBool (opt_truthy password));
                        ("peo_id", PyBool (opt_truthy peo_id))])])
     else
       session_id <- authenticate_prismhr username password peo_id base_url ;;
       if truthy session_id then
         ret (PyDict [("success", PyBool true);
                      ("message", PyStr "Connection test successful");
                      ("session_id", session_id);
                      ("base_url", PyStr base_url)])
       else
         ret (PyDict [("success", PyBool false);
                      ("error", PyStr "Authentication failed - check credentials");
                      ("base_url", PyStr base_url)]))
    (fun e =>
       logger_error (LogError ("Connection test failed: " +:+ exn_str e)) ;;
       ret (PyDict [("success", PyBool false);
                    ("error", PyStr ("Connection test failed: " +:+ exn_str e))])).

(** *** More relay tools

    The statements that other tools use to fill [params]. *)

(** [bool(xs)] for an optional list: [None] and the empty list are falsy. *)
Definition list_truthy (xs : option (list string)) : bool :=
  match xs with
  | Some (_ :: _) => true
  | _ => false
  end.

(** [for x in xs: params[key] = x] *)
Fixpoint set_each (key : string) (xs : list string)
    (params : list (string * qval)) : list (string * qval) :=
  match xs with
  | [] => params
  | x :: xs' => set_each key xs' (dict_set key (QStr x) params)
  end.

(** [if xs: for x in xs: params[key] = x] *)
Definition set_each_if_truthy (key : string) (xs : option (list string))
    (params : list (string * qval)) : list (string * qval) :=
  match xs with
  | Some l => if list_truthy xs then set_each key l params else params
  | None => params
  end.

(** [if xs: params[key] = xs], the list stored as it is *)
Definition set_list_if_truthy (key : string) (xs : option (list string))
    (params : list (string * qval)) : list (string * qval) :=
  match xs with
  | Some l => if list_truthy xs then dict_set key (QList l) params else params
  | None => params
  end.

(** [if xs: for i, x in enumerate(xs): params[f"{key}[{i}]"] = x] *)
Definition set_indexed_if_truthy (key : string) (xs : option (list string))
    (params : list (string * qval)) : list (string * qval) :=
  match xs with
  | Some l => if list_truthy xs then set_indexed key 0 l params else params
  | None => params
  end.

(** [if b is not None: params[key] = b], the boolean stored as it is *)
Definition set_bool_if_not_None (key : string) (b : option bool)
    (params : list (string * qval)) : list (string * qval) :=
  match b with
  | Some b => dict_set key (QBool b) params
  | None => params
  end.

(** [get_employee(client_id, employee_id, options=None)] *)
Definition get_employee_params (client_id employee_id : string)
    (options : option string) : list (string * qval) :=
  let params := [("clientId", QStr client_id);
                 ("employeeId", QStr employee_id)] in
  let params := set_if_truthy "options" options params in
  params.

Definition get_employee_url (client_id employee_id : string)
    (options : option string) (base_url : string) : string :=
  let url := base_url +:+ "/services/rest/employee/v1/getEmployee" in
  let params := get_employee_params client_id employee_id options in
  let query_string := urlencode false params in
  url +:+ "?" +:+ query_string.

Definition get_employee (client_id employee_id : string)
    (options : option string) : gmap string string -> M pyval :=
  relay "Get employee" (get_employee_url client_id employee_id options).

(** [get_benefit_plan_list()]: the request goes to [url] itself *)
Definition get_benefit_plan_list_url (base_url : string) : string :=
  base_url +:+ "/services/rest/benefits/v1/getBenefitPlanList".

Definition get_benefit_plan_list : gmap string string -> M pyval :=
  relay "Get benefit plan list" get_benefit_plan_list_url.

(** [get_benefit_plans(client_id, employee_id, plan_id=None)], [plan_id]
    a list *)
Definition get_benefit_plans_params (client_id employee_id : string)
    (plan_id : option (list string)) : list (string * qval) :=
  let params := [("clientId", QStr client_id);
                 ("employeeId", QStr employee_id)] in
  let params := set_list_if_truthy "planId" plan_id params in
  params.

Definition get_benefit_plans_url (client_id employee_id : string)
    (plan_id : option (list string)) (base_url : string) : string :=
  let url := base_url +:+ "/services/rest/benefits/v1/getBenefitPlans" in
  let params := get_benefit_plans_params client_id employee_id plan_id in
  let query_string := urlencode true params in
  url +:+ "?" +:+ query_string.

Definition get_benefit_plans (client_id employee_id : string)
    (plan_id : option (list string)) : gmap string string -> M pyval :=
  relay "Get benefit plans" (get_benefit_plans_url client_id employee_id plan_id).

(** [get_client_list(in_active=None)]: no [?] before an empty query *)
Definition get_client_list_params (in_active : option bool)
  : list (string * qval) :=
  let params := [] in
  let params := set_if_not_None "inActive" in_active params in
  params.

Definition get_client_list_url (in_active : option bool) (base_url : string)
  : string :=
  let url := base_url +:+ "/services/rest/clientMaster/v1/getClientList" in
  let params := get_client_list_params in_active in
  let query_string := urlencode false params in
  if negb (String.eqb query_string "") then url +:+ "?" +:+ query_string
  else url.

Definition get_client_list (in_active : option bool)
  : gmap string string -> M pyval :=
  relay "Get client list" (get_client_list_url in_active).

(** [get_document_types(document_type_id=None)], [document_type_id] a
    list *)
Definition get_document_types_params (document_type_id : option (list string))
  : list (string * qval) :=
  let params := [] in
  let params := set_each_if_truthy "documentTypeId" document_type_id params in
  params.

Definition get_document_types_url (document_type_id : option (list string))
    (base_url : string) : string :=
  let url := base_url +:+ "/services/rest/documentService/v1/getDocumentTypes" in
  let params := get_document_types_params document_type_id in
  let query_string := urlencode false params in
  url +:+ "?" +:+ query_string.

Definition get_document_types (document_type_id : option (list string))
  : gmap string string -> M pyval :=
  relay "Get document types" (get_document_types_url document_type_id).

(** [download_w2(client_id, employee_id, year)], [employee_id] a list *)
Definition download_w2_params (client_id : string) (employee_id : list string)
    (year : string) : list (string * qval) :=
  let params := [("clientId", QStr client_id); ("year", QStr year)] in
  let params := set_each "employeeId" employee_id params in
  params.

Definition download_w2_url (client_id : string) (employee_id : list string)
    (year : string) (base_url : string) : string :=
  let url := base_url +:+ "/services/rest/employee/v1/downloadW2" in
  let params := download_w2_params client_id employee_id year in
  let query_string := urlencode false params in
  url +:+ "?" +:+ query_string.

Definition download_w2 (client_id : string) (employee_id : list string)
    (year : string) : gmap string string -> M pyval :=
  relay "Download W2" (download_w2_url client_id employee_id year).

(** [get_history(client_id, employee_id, type=None)], [type] a list *)
Definition get_history_params (client_id employee_id : string)
    (type : option (list string)) : list (string * qval) :=
  let params := [("clientId", QStr client_id);
                 ("employeeId", QStr employee_id)] in
  let params := set_each_if_truthy "type" type params in
  params.

Definition get_history_url (client_id employee_id : string)
    (type : option (list string)) (base_url : string) : string :=
  let url := base_url +:+ "/services/rest/employee/v1/getHistory" in
  let params := get_history_params client_id employee_id type in
  let query_string := urlencode false params in
  url +:+ "?" +:+ query_string.

Definition get_history (client_id employee_id : string)
    (type : option (list string)) : gmap string string -> M pyval :=
  relay "Get history" (get_history_url client_id employee_id type).

(** [get_gl_detail_download(download_id=None, batch_id=None,
    start_date=None, end_date=None, client_id=None, employer_id=None,
    gl_account=None, gl_cost_center=None, gl_detail_code_type=None,
    gl_detail_code=None, voucher_id=None, check_number=None,
    employee_id=None)], the last nine of them lists *)
Definition get_gl_detail_download_params
    (download_id batch_id start_date end_date : option string)
    (client_id employer_id gl_account gl_cost_center gl_detail_code_type
       gl_detail_code voucher_id check_number employee_id : option (list string))
  : list (string * qval) :=
  let params := [] in
  let params := set_if_truthy "downloadId" download_id params in
  let params := set_if_truthy "batchId" batch_id params in
  let params := set_if_truthy "startDate" start_date params in
  let params := set_if_truthy "endDate" end_date params in
  let params := set_indexed_if_truthy "clientId" client_id params in
  let params := set_indexed_if_truthy "employerId" employer_id params in
  let params := set_indexed_if_truthy "glAccount" gl_account params in
  let params := set_indexed_if_truthy "glCostCenter" gl_cost_center params in
  let params := set_indexed_if_truthy "glDetailCodeType" gl_detail_code_type params in
  let params := set_indexed_if_truthy "glDetailCode" gl_detail_code params in
  let params := set_indexed_if_truthy "voucherId" voucher_id params in
  let params := set_indexed_if_truthy "checkNumber" check_number params in
  let params := set_indexed_if_truthy "employeeId" employee_id params in
  params.

Definition get_gl_detail_download_url
    (download_id batch_id start_date end_date : option string)
    (client_id employer_id gl_account gl_cost_center gl_detail_code_type
       gl_detail_code voucher_id check_number employee_id : option (list string))
    (base_url : string) : string :=
  let url := base_url +:+ "/services/rest/generalLedger/v1/getGLDetailDownload" in
  let params :=
    get_gl_detail_download_params download_id batch_id start_date end_date
      client_id employer_id gl_account gl_cost_center gl_detail_code_type
      gl_detail_code voucher_id check_number employee_id in
  let query_string := urlencode false params in
  url +:+ "?" +:+ query_string.

Definition get_gl_detail_download
    (download_id batch_id start_date end_date : option string)
    (client_id employer_id gl_account gl_cost_center gl_detail_code_type
       gl_detail_code voucher_id check_number employee_id : option (list string))
  : gmap string string -> M pyval :=
  relay "Get GL detail download"
    (get_gl_detail_download_url download_id batch_id start_date end_date
       client_id employer_id gl_account gl_cost_center gl_detail_code_type
       gl_detail_code voucher_id check_number employee_id).

(** [get_payroll_summary(client_id, year=None, batch_type=None,
    batch_id=None, include_details=None, sort=None)] *)
Definition get_payroll_summary_params (client_id : string)
    (year batch_type batch_id : option string) (include_details : option bool)
    (sort : option string) : list (string * qval) :=
  let params := [("clientId", QStr client_id)] in
  let params := set_if_truthy "year" year params in
  let params := set_if_truthy "batchType" batch_type params in
  let params := set_if_truthy "batchId" batch_id params in
  let params := set_bool_if_not_None "includeDetails" include_details params in
  let params := set_if_truthy "sort" sort params in
  params.

Definition get_payroll_summary_url (client_id : string)
    (year batch_type batch_id : option string) (include_details : option bool)
    (sort : option string) (base_url : string) : string :=
  let url := base_url +:+ "/services/rest/payroll/v1/getPayrollSummary" in
  let params :=
    get_payroll_summary_params client_id year batch_type batch_id
      include_details sort in
  let query_string := urlencode false params in
  url +:+ "?" +:+ query_string.

Definition get_payroll_summary (client_id : string)
    (year batch_type batch_id : option string) (include_details : option bool)
    (sort : option string) : gmap string string -> M pyval :=
  relay "Get payroll summary"
    (get_payroll_summary_url client_id year batch_type batch_id
       include_details sort).

(** [get_data(schema_name, class_name, download_id=None, client_id=None)],
    [client_id] a list *)
Definition get_data_params (schema_name class_name : string)
    (download_id : option string) (client_id : option (list string))
  : list (string * qval) :=
  let params := [("schemaName", QStr schema_name);
                 ("className", QStr class_name)] in
  let params := set_if_truthy "downloadId" download_id params in
  let params := set_list_if_truthy "clientId" client_id params in
  params.

Definition get_data_url (schema_name class_name : string)
    (download_id : option string) (client_id : option (list string))
    (base_url : string) : string :=
  let url := base_url +:+ "/services/rest/system/v1/getData" in
  let params := get_data_params schema_name class_name download_id client_id in
  let query_string := urlencode false params in
  url +:+ "?" +:+ query_string.

Definition get_data (schema_name class_name : string)
    (download_id : option string) (client_id : option (list string))
  : gmap string string -> M pyval :=
  relay "Get data" (get_data_url schema_name class_name download_id client_id).

(** [get_benefit_workflow_grid(client_id=None, download_id=None,
    workflow_eff_date=None, workflow_level=None, oe_start_date=None,
    oe_end_date=None)]: no [?] before an empty query *)
Definition get_benefit_workflow_grid_params
    (client_id download_id workflow_eff_date workflow_level oe_start_date
       oe_end_date : option string) : list (string * qval) :=
  let params := [] in
  let params := set_if_truthy "clientId" client_id params in
  let params := set_if_truthy "downloadId" download_id params in
  let params := set_if_truthy "workflowEffDate" workflow_eff_date params in
  let params := set_if_truthy "workflowLevel" workflow_level params in
  let params := set_if_truthy "oeStartDate" oe_start_date params in
  let params := set_if_truthy "oeEndDate" oe_end_date params in
  params.

Definition get_benefit_workflow_grid_url
    (client_id download_id workflow_eff_date workflow_level oe_start_date
       oe_end_date : option string) (base_url : string) : string :=
  let url := base_url +:+ "/services/rest/benefits/v1/getBenefitWorkflowGrid" in
  let params :=
    get_benefit_workflow_grid_params client_id download_id workflow_eff_date
      workflow_level oe_start_date oe_end_date in
  let query_string := urlencode false params in
  if negb (String.eqb query_string "") then url +:+ "?" +:+ query_string
  else url.

Definition get_benefit_workflow_grid
    (client_id download_id workflow_eff_date workflow_level oe_start_date
       oe_end_date : option string) : gmap string string -> M pyval :=
  relay "Get benefit workflow grid"
    (get_benefit_workflow_grid_url client_id download_id workflow_eff_date
       workflow_level oe_start_date oe_end_date).

(** *** The relay tools as one table

    Every relay tool fills [params] in the same way: a dictionary literal
    that holds the required parameters, then one statement per remaining
    parameter, in the order of the source. The statements are of eight
    kinds. *)

Inductive statement : Type :=
(** [if v: params[key] = v], [v] an optional string *)
| IfTruthy (key : string) (v : option string)
(** [if xs: params[key] = xs], [xs] an optional list *)
| IfTruthyList (key : string) (xs : option (list string))
(** [if b is not None: params[key] = str(b).lower()] *)
| IfNotNoneLower (key : string) (b : option bool)
(** [if b is not None: params[key] = b] *)
| IfNotNone (key : string) (b : option bool)
(** [if xs: for i, x in enumerate(xs): params[f"{key}[{i}]"] = x] *)
| IfTruthyEnumerate (key : string) (xs : option (list string))
(** [for i, x in enumerate(xs): params[f"{key}[{i}]"] = x] *)
| Enumerate (key : string) (xs : list string)
(** [if xs: for x in xs: params[key] = x] *)
| IfTruthyEach (key : string) (xs : option (list string))
(** [for x in xs: params[key] = x] *)
| Each (key : string) (xs : list string).

Definition exec (st : statement) (params : list (string * qval))
  : list (string * qval) :=
  match st with
  | IfTruthy key v => set_if_truthy key v params
  | IfTruthyList key xs => set_list_if_truthy key xs params
  | IfNotNoneLower key b => set_if_not_None key b params
  | IfNotNone key b => set_bool_if_not_None key b params
  | IfTruthyEnumerate key xs => set_indexed_if_truthy key xs params
  | Enumerate key xs => set_indexed key 0 xs params
  | IfTruthyEach key xs => set_each_if_truthy key xs params
  | Each key xs => set_each key xs params
  end.

(** How a tool builds the URL it requests. *)
Inductive form : Type :=
(** the request goes to [url], the tool has no [params] *)
| NoQuery
(** [full_url = f"{url}?{query_string}"], with
    [query_string = urlencode(params)] or [urlencode(params, doseq=True)] *)
| Query (doseq : bool)
(** [full_url = f"{url}?{query_string}" if query_string else url] *)
| QueryIfAny (doseq : bool).

(** One tool, at the arguments of a call: the label of its messages, the
    path after [base_url], the dictionary literal, the statements after it
    and the form of the URL. *)
Record tool : Type := mkTool {
  tool_label : string;
  tool_path : string;
  tool_literal : list (string * qval);
  tool_statements : list statement;
  tool_form : form
}.

Definition tool_params (t : tool) : list (string * qval) :=
  fold_left (fun params st => exec st params) (tool_statements t)
    (tool_literal t).

Definition tool_url (t : tool) (base_url : string) : string :=
  let url := base_url +:+ tool_path t in
  match tool_form t with
  | NoQuery => url
  | Query doseq =>
      let query_string := urlencode doseq (tool_params t) in
      url +:+ "?" +:+ query_string
  | QueryIfAny doseq =>
      let query_string := urlencode doseq (tool_params t) in
      if negb (String.eqb query_string "") then url +:+ "?" +:+ query_string
      else url
  end.

(** The call of the tool [t]. *)
Definition relay_call (t : tool) : gmap string string -> M pyval :=
  relay (tool_label t) (tool_url t).

End Server.

(** ** The table of the relay tools

    One row per function of [prismhr_mcp_server.py] that is registered
    with [@mcp.tool()] and relays a request, [test_connection] apart: the
    row of a tool holds, for the arguments of a call, what the body of the
    tool does between the authentication and the request. The parameters
    of a row are the parameters of the function, in the order and with the
    types of its signature ([str], [List[str]], [Optional[str]],
    [Optional[bool]], [Optional[List[str]]]; [None] is the default of every
    optional parameter). *)

Module Table.

Inductive relay_tool : tool -> Prop :=
(** [get_employee_list], lines 176-230 *)
| get_employee_list (client_id : string)
    (status_class type_class : option string) :
    relay_tool
      {| tool_label := "Get employee list";
         tool_path := "/services/rest/employee/v1/getEmployeeList";
         tool_literal := [("clientId", QStr client_id)];
         tool_statements := [IfTruthy "statusClass" status_class;
             IfTruthy "typeClass" type_class];
         tool_form := Query false |}
(** [get_employee], lines 233-286 *)
| get_employee (client_id employee_id : string) (options : option string) :
    relay_tool
      {| tool_label := "Get employee";
         tool_path := "/services/rest/employee/v1/getEmployee";
         tool_literal := [("clientId", QStr client_id);
             ("employeeId", QStr employee_id)];
         tool_statements := [IfTruthy "options" options];
         tool_form := Query false |}
(** [get_job_applicant_list], lines 291-358 *)
| get_job_applicant_list (client_id : string)
    (applicant_id apply_date last_name count startpage : option string) :
    relay_tool
      {| tool_label := "Get job applicant list";
         tool_path := "/services/rest/applicant/v1/getJobApplicantList";
         tool_literal := [("clientId", QStr client_id)];
         tool_statements := [IfTruthy "applicantId" applicant_id;
             IfTruthy "applyDate" apply_date; IfTruthy "lastName" last_name;
             IfTruthy "count" count; IfTruthy "startpage" startpage];
         tool_form := Query false |}
(** [get_job_applicants], lines 361-409 *)
| get_job_applicants (client_id : string) (applicant_id : option string) :
    relay_tool
      {| tool_label := "Get job applicants";
         tool_path := "/services/rest/applicant/v1/getJobApplicants";
         tool_literal := [("clientId", QStr client_id)];
         tool_statements := [IfTruthy "id" applicant_id];
         tool_form := Query false |}
(** [get_benefit_enrollment_status], lines 412-475 *)
| get_benefit_enrollment_status (client_id : string)
    (employee_id enrollment_type count startpage : option string) :
    relay_tool
      {| tool_label := "Get benefit enrollment status";
         tool_path := "/services/rest/benefits/v1/benefitEnrollmentStatus";
         tool_literal := [("clientId", QStr client_id)];
         tool_statements := [IfTruthy "employeeId" employee_id;
             IfTruthy "enrollmentType" enrollment_type;
             IfTruthy "count" count; IfTruthy "startpage" startpage];
         tool_form := Query false |}
(** [get_401k_match_rules], lines 478-532 *)
| get_401k_match_rules
    (client_id benefit_group_id retirement_plan_id : string) :
    relay_tool
      {| tool_label := "Get 401k match rules";
         tool_path := "/services/rest/benefits/v1/get401KMatchRules";
         tool_literal := [("clientId", QStr client_id);
             ("benefitGroupId", QStr benefit_group_id);
             ("retirementPlanId", QStr retirement_plan_id)];
         tool_statements := [];
         tool_form := Query false |}
(** [get_aca_offered_employees], lines 535-594 *)
| get_aca_offered_employees (client_id : string)
    (employee_id count startpage : option string) :
    relay_tool
      {| tool_label := "Get ACA offered employees";
         tool_path := "/services/rest/benefits/v1/getACAOfferedEmployees";
         tool_literal := [("clientId", QStr client_id)];
         tool_statements := [IfTruthy "employeeId" employee_id;
             IfTruthy "count" count; IfTruthy "startpage" startpage];
         tool_form := Query false |}
(** [get_absence_journal], lines 599-650 *)
| get_absence_journal (client_id : string) (journal_id : list string) :
    relay_tool
      {| tool_label := "Get absence journal";
         tool_path := "/services/rest/benefits/v1/getAbsenceJournal";
         tool_literal := [("clientId", QStr client_id);
             ("journalId", QList journal_id)];
         tool_statements := [];
         tool_form := Query true |}
(** [get_absence_journal_by_date], lines 653-720 *)
| get_absence_journal_by_date
    (client_id journal_date_start journal_date_end : string)
    (employee_id count startpage : option string) :
    relay_tool
      {| tool_label := "Get absence journal by date";
         tool_path := "/services/rest/benefits/v1/getAbsenceJournalByDate";
         tool_literal := [("clientId", QStr client_id);
             ("journalDateStart", QStr journal_date_start);
             ("journalDateEnd", QStr journal_date_end)];
         tool_statements := [IfTruthy "employeeId" employee_id;
             IfTruthy "count" count; IfTruthy "startpage" startpage];
         tool_form := Query false |}
(** [get_active_benefit_plans], lines 723-783 *)
| get_active_benefit_plans (client_id employee_id : string)
    (plan_id : option (list string)) (effective_date : option string) :
    relay_tool
      {| tool_label := "Get active benefit plans";
         tool_path := "/services/rest/benefits/v1/getActiveBenefitPlans";
         tool_literal := [("clientId", QStr client_id);
             ("employeeId", QStr employee_id)];
         tool_statements := [IfTruthyList "planId" plan_id;
             IfTruthy "effectiveDate" effective_date];
         tool_form := Query true |}
(** [get_available_benefit_plans], lines 786-837 *)
| get_available_benefit_plans (client_id employee_id : string) :
    relay_tool
      {| tool_label := "Get available benefit plans";
         tool_path := "/services/rest/benefits/v1/getAvailableBenefitPlans";
         tool_literal := [("clientId", QStr client_id);
             ("employeeId", QStr employee_id)];
         tool_statements := [];
         tool_form := Query false |}
(** [get_benefit_adjustments], lines 840-891 *)
| get_benefit_adjustments (client_id employee_id : string) :
    relay_tool
      {| tool_label := "Get benefit adjustments";
         tool_path := "/services/rest/benefits/v1/getBenefitAdjustments";
         tool_literal := [("clientId", QStr client_id);
             ("employeeId", QStr employee_id)];
         tool_statements := [];
         tool_form := Query false |}
(** [get_benefit_confirmation_data], lines 896-955 *)
| get_benefit_confirmation_data (client_id employee_id confirm_num : string)
    (download_id : option string) :
    relay_tool
      {| tool_label := "Get benefit confirmation data";
         tool_path := "/services/rest/benefits/v1/getBenefitConfirmationData";
         tool_literal := [("clientId", QStr client_id);
             ("employeeId", QStr employee_id);
             ("confirmNum", QStr confirm_num)];
         tool_statements := [IfTruthy "downloadId" download_id];
         tool_form := Query false |}
(** [get_benefit_confirmation_list], lines 958-1014 *)
| get_benefit_confirmation_list (client_id employee_id : string)
    (year : option string) :
    relay_tool
      {| tool_label := "Get benefit confirmation list";
         tool_path := "/services/rest/benefits/v1/getBenefitConfirmationList";
         tool_literal := [("clientId", QStr client_id);
             ("employeeId", QStr employee_id)];
         tool_statements := [IfTruthy "year" year];
         tool_form := Query false |}
(** [get_benefit_plan_list], lines 1017-1054 *)
| get_benefit_plan_list :
    relay_tool
      {| tool_label := "Get benefit plan list";
         tool_path := "/services/rest/benefits/v1/getBenefitPlanList";
         tool_literal := [];
         tool_statements := [];
         tool_form := NoQuery |}
(** [get_benefit_plans], lines 1057-1113 *)
| get_benefit_plans (client_id employee_id : string)
    (plan_id : option (list string)) :
    relay_tool
      {| tool_label := "Get benefit plans";
         tool_path := "/services/rest/benefits/v1/getBenefitPlans";
         tool_literal := [("clientId", QStr client_id);
             ("employeeId", QStr employee_id)];
         tool_statements := [IfTruthyList "planId" plan_id];
         tool_form := Query true |}
(** [get_benefit_rule], lines 1116-1179 *)
| get_benefit_rule (client_id : string)
    (group_plan_id plan_id effective_date : option string)
    (use_actual_effective_date : option bool) :
    relay_tool
      {| tool_label := "Get benefit rule";
         tool_path := "/services/rest/benefits/v1/getBenefitRule";
         tool_literal := [("clientId", QStr client_id)];
         tool_statements := [IfTruthy "groupPlanId" group_plan_id;
             IfTruthy "planId" plan_id;
             IfTruthy "effectiveDate" effective_date;
             IfNotNoneLower "useActualEffectiveDate" use_actual_effective_date];
         tool_form := Query false |}
(** [get_benefit_workflow_grid], lines 1184-1253 *)
| get_benefit_workflow_grid (client_id download_id workflow_eff_date
     workflow_level oe_start_date oe_end_date : option string) :
    relay_tool
      {| tool_label := "Get benefit workflow grid";
         tool_path := "/services/rest/benefits/v1/getBenefitWorkflowGrid";
         tool_literal := [];
         tool_statements := [IfTruthy "clientId" client_id;
             IfTruthy "downloadId" download_id;
             IfTruthy "workflowEffDate" workflow_eff_date;
             IfTruthy "workflowLevel" workflow_level;
             IfTruthy "oeStartDate" oe_start_date;
             IfTruthy "oeEndDate" oe_end_date];
         tool_form := QueryIfAny false |}
(** [get_benefits_enrollment_trace], lines 1256-1307 *)
| get_benefits_enrollment_trace (client_id employee_id : string) :
    relay_tool
      {| tool_label := "Get benefits enrollment trace";
         tool_path := "/services/rest/benefits/v1/getBenefitsEnrollmentTrace";
         tool_literal := [("clientId", QStr client_id);
             ("employeeId", QStr employee_id)];
         tool_statements := [];
         tool_form := Query false |}
(** [get_client_benefit_plan_setup_details], lines 1310-1364 *)
| get_client_benefit_plan_setup_details
    (client_id plan_id plan_class : string) :
    relay_tool
      {| tool_label := "Get client benefit plan setup details";
         tool_path := "/services/rest/benefits/v1/getClientBenefitPlanSetupDetails";
         tool_literal := [("clientId", QStr client_id);
             ("planId", QStr plan_id); ("planClass", QStr plan_class)];
         tool_statements := [];
         tool_form := Query false |}
(** [get_client_benefit_plans], lines 1367-1413 *)
| get_client_benefit_plans (client_id : string) :
    relay_tool
      {| tool_label := "Get client benefit plans";
         tool_path := "/services/rest/benefits/v1/getClientBenefitPlans";
         tool_literal := [("clientId", QStr client_id)];
         tool_statements := [];
         tool_form := Query false |}
(** [get_cobra_codes], lines 1416-1453 *)
| get_cobra_codes :
    relay_tool
      {| tool_label := "Get cobra codes";
         tool_path := "/services/rest/benefits/v1/getCobraCodes";
         tool_literal := [];
         tool_statements := [];
         tool_form := NoQuery |}
(** [get_cobra_employee], lines 1458-1504 *)
| get_cobra_employee (employee_id : string) :
    relay_tool
      {| tool_label := "Get cobra employee";
         tool_path := "/services/rest/benefits/v1/getCobraEmployee";
         tool_literal := [("employeeId", QStr employee_id)];
         tool_statements := [];
         tool_form := Query false |}
(** [get_dependents], lines 1507-1567 *)
| get_dependents (client_id employee_id : string)
    (dependent_id only_active : option string) :
    relay_tool
      {| tool_label := "Get dependents";
         tool_path := "/services/rest/benefits/v1/getDependents";
         tool_literal := [("clientId", QStr client_id);
             ("employeeId", QStr employee_id)];
         tool_statements := [IfTruthy "dependentId" dependent_id;
             IfTruthy "onlyActive" only_active];
         tool_form := Query false |}
(** [get_disability_plan_enrollment_details], lines 1570-1625 *)
| get_disability_plan_enrollment_details (group_benefit_plan_id : string)
    (effective_date from_date : option string) :
    relay_tool
      {| tool_label := "Get disability plan enrollment details";
         tool_path := "/services/rest/benefits/v1/getDisabilityPlanEnrollmentDetails";
         tool_literal := [("groupBenefitPlanId", QStr group_benefit_plan_id)];
         tool_statements := [IfTruthy "effectiveDate" effective_date;
             IfTruthy "fromDate" from_date];
         tool_form := Query false |}
(** [get_eligible_flex_spending_plans], lines 1628-1684 *)
| get_eligible_flex_spending_plans (client_id employee_id : string)
    (as_of_date : option string) :
    relay_tool
      {| tool_label := "Get eligible flex spending plans";
         tool_path := "/services/rest/benefits/v1/getEligibleFlexSpendingPlans";
         tool_literal := [("clientId", QStr client_id);
             ("employeeId", QStr employee_id)];
         tool_statements := [IfTruthy "asOfDate" as_of_date];
         tool_form := Query false |}
(** [get_eligible_zip_codes], lines 1687-1733 *)
| get_eligible_zip_codes (plan_id : string) :
    relay_tool
      {| tool_label := "Get eligible zip codes";
         tool_path := "/services/rest/benefits/v1/getEligibleZipCodes";
         tool_literal := [("planId", QStr plan_id)];
         tool_statements := [];
         tool_form := Query false |}
(** [get_employee_premium], lines 1738-1800 *)
| get_employee_premium
    (client_id employee_id effective_date plan_id : string)
    (options : option string) :
    relay_tool
      {| tool_label := "Get employee premium";
         tool_path := "/services/rest/benefits/v1/getEmployeePremium";
         tool_literal := [("clientId", QStr client_id);
             ("employeeId", QStr employee_id);
             ("effectiveDate", QStr effective_date);
             ("planId", QStr plan_id)];
         tool_statements := [IfTruthy "options" options];
         tool_form := Query false |}
(** [get_employee_retirement_summary], lines 1803-1860 *)
| get_employee_retirement_summary
    (client_id employee_id plan_id plan_year : string) :
    relay_tool
      {| tool_label := "Get employee retirement summary";
         tool_path := "/services/rest/benefits/v1/getEmployeeRetirementSummary";
         tool_literal := [("clientId", QStr client_id);
             ("employeeId", QStr employee_id); ("planId", QStr plan_id);
             ("planYear", QStr plan_year)];
         tool_statements := [];
         tool_form := Query false |}
(** [get_enroll_input_list], lines 1863-1917 *)
| get_enroll_input_list (client_id employee_id plan_id : string) :
    relay_tool
      {| tool_label := "Get enroll input list";
         tool_path := "/services/rest/benefits/v1/getEnrollInputList";
         tool_literal := [("clientId", QStr client_id);
             ("employeeId", QStr employee_id); ("planId", QStr plan_id)];
         tool_statements := [];
         tool_form := Query false |}
(** [get_enrollment_plan_details], lines 1920-1976 *)
| get_enrollment_plan_details (plan_id offer_type : string)
    (effective_date : option string) :
    relay_tool
      {| tool_label := "Get enrollment plan details";
         tool_path := "/services/rest/benefits/v1/getEnrollmentPlanDetails";
         tool_literal := [("planId", QStr plan_id);
             ("offerType", QStr offer_type)];
         tool_statements := [IfTruthy "effectiveDate" effective_date];
         tool_form := Query false |}
(** [get_fsa_reimbursements], lines 1979-2043 *)
| get_fsa_reimbursements (client_id employee_id : string)
    (plan_year account_type ref_number : option string) :
    relay_tool
      {| tool_label := "Get FSA reimbursements";
         tool_path := "/services/rest/benefits/v1/getFSAReimbursements";
         tool_literal := [("clientId", QStr client_id);
             ("employeeId", QStr employee_id)];
         tool_statements := [IfTruthy "planYear" plan_year;
             IfTruthy "accountType" account_type;
             IfTruthy "refNumber" ref_number];
         tool_form := Query false |}
(** [get_flex_plans], lines 2048-2099 *)
| get_flex_plans (client_id employee_id : string) :
    relay_tool
      {| tool_label := "Get flex plans";
         tool_path := "/services/rest/benefits/v1/getFlexPlans";
         tool_literal := [("clientId", QStr client_id);
             ("employeeId", QStr employee_id)];
         tool_statements := [];
         tool_form := Query false |}
(** [get_group_benefit_plan], lines 2102-2148 *)
| get_group_benefit_plan (plan_id : string) :
    relay_tool
      {| tool_label := "Get group benefit plan";
         tool_path := "/services/rest/benefits/v1/getGroupBenefitPlan";
         tool_literal := [("planId", QStr plan_id)];
         tool_statements := [];
         tool_form := Query false |}
(** [get_group_benefit_rates], lines 2151-2218 *)
| get_group_benefit_rates (plan_id : string)
    (date rate_group network_id plan_type options : option string) :
    relay_tool
      {| tool_label := "Get group benefit rates";
         tool_path := "/services/rest/benefits/v1/getGroupBenefitRates";
         tool_literal := [("planId", QStr plan_id)];
         tool_statements := [IfTruthy "date" date;
             IfTruthy "rateGroup" rate_group; IfTruthy "networkId" network_id;
             IfTruthy "planType" plan_type; IfTruthy "options" options];
         tool_form := Query false |}
(** [get_group_benefit_types], lines 2221-2270 *)
| get_group_benefit_types (type_code : option string) :
    relay_tool
      {| tool_label := "Get group benefit types";
         tool_path := "/services/rest/benefits/v1/getGroupBenefitTypes";
         tool_literal := [];
         tool_statements := [IfTruthy "typeCode" type_code];
         tool_form := QueryIfAny false |}
(** [get_life_event_code_details], lines 2273-2324 *)
| get_life_event_code_details (client_id : string)
    (life_event_code : option string) :
    relay_tool
      {| tool_label := "Get life event code details";
         tool_path := "/services/rest/benefits/v1/getLifeEventCodeDetails";
         tool_literal := [("clientId", QStr client_id)];
         tool_statements := [IfTruthy "lifeEventCode" life_event_code];
         tool_form := Query false |}
(** [get_monthly_aca_info], lines 2329-2380 *)
| get_monthly_aca_info (client_id : string) (employee_id : list string) :
    relay_tool
      {| tool_label := "Get monthly ACA info";
         tool_path := "/services/rest/benefits/v1/getMonthlyACAInfo";
         tool_literal := [("clientId", QStr client_id);
             ("employeeId", QList employee_id)];
         tool_statements := [];
         tool_form := Query true |}
(** [get_pto_requests_list], lines 2383-2446 *)
| get_pto_requests_list (client_id : string)
    (employee_id : option (list string))
    (statuses leave_type pto_starts_after_date : option string) :
    relay_tool
      {| tool_label := "Get PTO requests list";
         tool_path := "/services/rest/benefits/v1/getPTORequestsList";
         tool_literal := [("clientId", QStr client_id)];
         tool_statements := [IfTruthyList "employeeId" employee_id;
             IfTruthy "statuses" statuses; IfTruthy "leaveType" leave_type;
             IfTruthy "ptoStartsAfterDate" pto_starts_after_date];
         tool_form := Query true |}
(** [get_paid_time_off], lines 2449-2500 *)
| get_paid_time_off (client_id employee_id : string) :
    relay_tool
      {| tool_label := "Get paid time off";
         tool_path := "/services/rest/benefits/v1/getPaidTimeOff";
         tool_literal := [("clientId", QStr client_id);
             ("employeeId", QStr employee_id)];
         tool_statements := [];
         tool_form := Query false |}
(** [get_paid_time_off_plans], lines 2503-2549 *)
| get_paid_time_off_plans (client_id : string) :
    relay_tool
      {| tool_label := "Get paid time off plans";
         tool_path := "/services/rest/benefits/v1/getPaidTimeOffPlans";
         tool_literal := [("clientId", QStr client_id)];
         tool_statements := [];
         tool_form := Query false |}
(** [get_plan_year_info], lines 2552-2609 *)
| get_plan_year_info (plan_type plan_year plan_id : option string) :
    relay_tool
      {| tool_label := "Get plan year info";
         tool_path := "/services/rest/benefits/v1/getPlanYearInfo";
         tool_literal := [];
         tool_statements := [IfTruthy "planType" plan_type;
             IfTruthy "planYear" plan_year; IfTruthy "planId" plan_id];
         tool_form := QueryIfAny false |}
(** [get_pto_absence_codes], lines 2614-2665 *)
| get_pto_absence_codes (client_id : string) (absence_code : option string) :
    relay_tool
      {| tool_label := "Get PTO absence codes";
         tool_path := "/services/rest/benefits/v1/getPtoAbsenceCodes";
         tool_literal := [("clientId", QStr client_id)];
         tool_statements := [IfTruthy "absenceCode" absence_code];
         tool_form := Query false |}
(** [get_pto_auto_enroll_rules], lines 2668-2714 *)
| get_pto_auto_enroll_rules (client_id : string) :
    relay_tool
      {| tool_label := "Get PTO auto enroll rules";
         tool_path := "/services/rest/benefits/v1/getPtoAutoEnrollRules";
         tool_literal := [("clientId", QStr client_id)];
         tool_statements := [];
         tool_form := Query false |}
(** [get_pto_classes], lines 2717-2763 *)
| get_pto_classes (client_id : string) :
    relay_tool
      {| tool_label := "Get PTO classes";
         tool_path := "/services/rest/benefits/v1/getPtoClasses";
         tool_literal := [("clientId", QStr client_id)];
         tool_statements := [];
         tool_form := Query false |}
(** [get_pto_plan_details], lines 2766-2817 *)
| get_pto_plan_details (client_id pto_plan_id : string) :
    relay_tool
      {| tool_label := "Get PTO plan details";
         tool_path := "/services/rest/benefits/v1/getPtoPlanDetails";
         tool_literal := [("clientId", QStr client_id);
             ("ptoPlanId", QStr pto_plan_id)];
         tool_statements := [];
         tool_form := Query false |}
(** [get_pto_register_types], lines 2820-2871 *)
| get_pto_register_types (client_id : string)
    (pto_type_code : option string) :
    relay_tool
      {| tool_label := "Get PTO register types";
         tool_path := "/services/rest/benefits/v1/getPtoRegisterTypes";
         tool_literal := [("clientId", QStr client_id)];
         tool_statements := [IfTruthy "ptoTypeCode" pto_type_code];
         tool_form := Query false |}
(** [get_retirement_loans], lines 2876-2927 *)
| get_retirement_loans (client_id : string) (employee_id : option string) :
    relay_tool
      {| tool_label := "Get retirement loans";
         tool_path := "/services/rest/benefits/v1/getRetirementLoans";
         tool_literal := [("clientId", QStr client_id)];
         tool_statements := [IfTruthy "employeeId" employee_id];
         tool_form := Query false |}
(** [get_retirement_plan], lines 2930-2990 *)
| get_retirement_plan (client_id employee_id : string)
    (effective_date : option string) (is_active : option bool) :
    relay_tool
      {| tool_label := "Get retirement plan";
         tool_path := "/services/rest/benefits/v1/getRetirementPlan";
         tool_literal := [("clientId", QStr client_id);
             ("employeeId", QStr employee_id)];
         tool_statements := [IfTruthy "effectiveDate" effective_date;
             IfNotNoneLower "isActive" is_active];
         tool_form := Query false |}
(** [get_section125_plans], lines 2993-3052 *)
| get_section125_plans (plan_type : string)
    (plan_id count startpage : option string) :
    relay_tool
      {| tool_label := "Get section 125 plans";
         tool_path := "/services/rest/benefits/v1/getSection125Plans";
         tool_literal := [("planType", QStr plan_type)];
         tool_statements := [IfTruthy "planId" plan_id;
             IfTruthy "count" count; IfTruthy "startpage" startpage];
         tool_form := Query false |}
(** [get_retirement_census_export], lines 3055-3131 *)
| get_retirement_census_export (report_format plan_id : string) (client_id
     download_id start_date end_date count startpage : option string) :
    relay_tool
      {| tool_label := "Get retirement census export";
         tool_path := "/services/rest/benefits/v1/retirementCensusExport";
         tool_literal := [("reportFormat", QStr report_format);
             ("planId", QStr plan_id)];
         tool_statements := [IfTruthy "clientId" client_id;
             IfTruthy "downloadId" download_id;
             IfTruthy "startDate" start_date; IfTruthy "endDate" end_date;
             IfTruthy "count" count; IfTruthy "startpage" startpage];
         tool_form := Query false |}
(** [get_aca_large_employer], lines 3134-3189 *)
| get_aca_large_employer (client_id : string)
    (count startpage : option string) :
    relay_tool
      {| tool_label := "Get ACA large employer";
         tool_path := "/services/rest/clientMaster/v1/getACALargeEmployer";
         tool_literal := [("clientId", QStr client_id)];
         tool_statements := [IfTruthy "count" count;
             IfTruthy "startpage" startpage];
         tool_form := Query false |}
(** [get_active_employee_count_by_entity], lines 3194-3254 *)
| get_active_employee_count_by_entity (client_id entity_type : string)
    (include_obsolete : option bool) (download_id : option string) :
    relay_tool
      {| tool_label := "Get active employee count by entity";
         tool_path := "/services/rest/clientMaster/v1/getActiveEmployeeCountByEntity";
         tool_literal := [("clientId", QStr client_id);
             ("entityType", QStr entity_type)];
         tool_statements := [IfNotNoneLower "includeObsolete" include_obsolete;
             IfTruthy "downloadId" download_id];
         tool_form := Query false |}
(** [get_all_prism_client_contacts], lines 3257-3303 *)
| get_all_prism_client_contacts (client_id : string) :
    relay_tool
      {| tool_label := "Get all Prism client contacts";
         tool_path := "/services/rest/clientMaster/v1/getAllPrismClientContacts";
         tool_literal := [("clientId", QStr client_id)];
         tool_statements := [];
         tool_form := Query false |}
(** [get_backup_assignments], lines 3306-3352 *)
| get_backup_assignments (client_id : string) :
    relay_tool
      {| tool_label := "Get backup assignments";
         tool_path := "/services/rest/clientMaster/v1/getBackupAssignments";
         tool_literal := [("clientId", QStr client_id)];
         tool_statements := [];
         tool_form := Query false |}
(** [get_benefit_group], lines 3355-3406 *)
| get_benefit_group (client_id : string) (group_id : list string) :
    relay_tool
      {| tool_label := "Get benefit group";
         tool_path := "/services/rest/clientMaster/v1/getBenefitGroup";
         tool_literal := [("clientId", QStr client_id);
             ("groupId", QList group_id)];
         tool_statements := [];
         tool_form := Query true |}
(** [get_bill_pending], lines 3409-3472 *)
| get_bill_pending (client_id : string)
    (status start_bill_date end_bill_date event : option string) :
    relay_tool
      {| tool_label := "Get bill pending";
         tool_path := "/services/rest/clientMaster/v1/getBillPending";
         tool_literal := [("clientId", QStr client_id)];
         tool_statements := [IfTruthy "status" status;
             IfTruthy "startBillDate" start_bill_date;
             IfTruthy "endBillDate" end_bill_date; IfTruthy "event" event];
         tool_form := Query false |}
(** [get_bundled_billing_rule], lines 3477-3536 *)
| get_bundled_billing_rule (client_id : string)
    (billing_rule wc_code state : option string) :
    relay_tool
      {| tool_label := "Get bundled billing rule";
         tool_path := "/services/rest/clientMaster/v1/getBundledBillingRule";
         tool_literal := [("clientId", QStr client_id)];
         tool_statements := [IfTruthy "billingRule" billing_rule;
             IfTruthy "wcCode" wc_code; IfTruthy "state" state];
         tool_form := Query false |}
(** [get_client_billing_bank_account], lines 3539-3585 *)
| get_client_billing_bank_account (client_id : string) :
    relay_tool
      {| tool_label := "Get client billing bank account";
         tool_path := "/services/rest/clientMaster/v1/getClientBillingBankAccount";
         tool_literal := [("clientId", QStr client_id)];
         tool_statements := [];
         tool_form := Query false |}
(** [get_client_codes], lines 3588-3652 *)
| get_client_codes (client_id options : string)
    (exclude_obsolete : option bool) (count startpage : option string) :
    relay_tool
      {| tool_label := "Get client codes";
         tool_path := "/services/rest/clientMaster/v1/getClientCodes";
         tool_literal := [("clientId", QStr client_id);
             ("options", QStr options)];
         tool_statements := [IfNotNoneLower "excludeObsolete" exclude_obsolete;
             IfTruthy "count" count; IfTruthy "startpage" startpage];
         tool_form := Query false |}
(** [get_client_events], lines 3655-3714 *)
| get_client_events (client_id : string)
    (organizer from_date thru_date : option string) :
    relay_tool
      {| tool_label := "Get client events";
         tool_path := "/services/rest/clientMaster/v1/getClientEvents";
         tool_literal := [("clientId", QStr client_id)];
         tool_statements := [IfTruthy "organizer" organizer;
             IfTruthy "fromDate" from_date; IfTruthy "thruDate" thru_date];
         tool_form := Query false |}
(** [get_client_list], lines 3717-3766 *)
| get_client_list (in_active : option bool) :
    relay_tool
      {| tool_label := "Get client list";
         tool_path := "/services/rest/clientMaster/v1/getClientList";
         tool_literal := [];
         tool_statements := [IfNotNoneLower "inActive" in_active];
         tool_form := QueryIfAny false |}
(** [get_client_location_details], lines 3771-3822 *)
| get_client_location_details (client_id location_id : string) :
    relay_tool
      {| tool_label := "Get client location details";
         tool_path := "/services/rest/clientMaster/v1/getClientLocationDetails";
         tool_literal := [("clientId", QStr client_id);
             ("locationId", QStr location_id)];
         tool_statements := [];
         tool_form := Query false |}
(** [get_client_master], lines 3825-3871 *)
| get_client_master (client_id : string) :
    relay_tool
      {| tool_label := "Get client master";
         tool_path := "/services/rest/clientMaster/v1/getClientMaster";
         tool_literal := [("clientId", QStr client_id)];
         tool_statements := [];
         tool_form := Query false |}
(** [get_client_ownership], lines 3874-3920 *)
| get_client_ownership (client_id : string) :
    relay_tool
      {| tool_label := "Get client ownership";
         tool_path := "/services/rest/clientMaster/v1/getClientOwnership";
         tool_literal := [("clientId", QStr client_id)];
         tool_statements := [];
         tool_form := Query false |}
(** [get_doc_expirations], lines 3923-3982 *)
| get_doc_expirations (client_id doc_types days_out : string)
    (employee_id : option string) :
    relay_tool
      {| tool_label := "Get doc expirations";
         tool_path := "/services/rest/clientMaster/v1/getDocExpirations";
         tool_literal := [("clientId", QStr client_id);
             ("docTypes", QStr doc_types); ("daysOut", QStr days_out)];
         tool_statements := [IfTruthy "employeeId" employee_id];
         tool_form := Query false |}
(** [get_employee_list_by_entity], lines 3985-4044 *)
| get_employee_list_by_entity (client_id entity_type entity_id : string)
    (status_class : option string) :
    relay_tool
      {| tool_label := "Get employee list by entity";
         tool_path := "/services/rest/clientMaster/v1/getEmployeeListByEntity";
         tool_literal := [("clientId", QStr client_id);
             ("entityType", QStr entity_type); ("entityId", QStr entity_id)];
         tool_statements := [IfTruthy "statusClass" status_class];
         tool_form := Query false |}
(** [get_employees_in_pay_group], lines 4049-4100 *)
| get_employees_in_pay_group (client_id pay_group : string) :
    relay_tool
      {| tool_label := "Get employees in pay group";
         tool_path := "/services/rest/clientMaster/v1/getEmployeesInPayGroup";
         tool_literal := [("clientId", QStr client_id);
             ("payGroup", QStr pay_group)];
         tool_statements := [];
         tool_form := Query false |}
(** [get_gl_cutback_check_post], lines 4103-4154 *)
| get_gl_cutback_check_post (gl_company tran_date : string) :
    relay_tool
      {| tool_label := "Get GL cutback check post";
         tool_path := "/services/rest/clientMaster/v1/getGLCutbackCheckPost";
         tool_literal := [("glCompany", QStr gl_company);
             ("tranDate", QStr tran_date)];
         tool_statements := [];
         tool_form := Query false |}
(** [get_gl_data], lines 4157-4203 *)
| get_gl_data (type : string) :
    relay_tool
      {| tool_label := "Get GL data";
         tool_path := "/services/rest/clientMaster/v1/getGLData";
         tool_literal := [("type", QStr type)];
         tool_statements := [];
         tool_form := Query false |}
(** [get_gl_invoice_post], lines 4206-4257 *)
| get_gl_invoice_post (gl_company inv_date : string) :
    relay_tool
      {| tool_label := "Get GL invoice post";
         tool_path := "/services/rest/clientMaster/v1/getGLInvoicePost";
         tool_literal := [("glCompany", QStr gl_company);
             ("invDate", QStr inv_date)];
         tool_statements := [];
         tool_form := Query false |}
(** [get_gl_journal_post], lines 4260-4311 *)
| get_gl_journal_post (gl_company tran_date : string) :
    relay_tool
      {| tool_label := "Get GL journal post";
         tool_path := "/services/rest/clientMaster/v1/getGLJournalPost";
         tool_literal := [("glCompany", QStr gl_company);
             ("tranDate", QStr tran_date)];
         tool_statements := [];
         tool_form := Query false |}
(** [get_geo_locations], lines 4316-4362 *)
| get_geo_locations (zip_code : string) :
    relay_tool
      {| tool_label := "Get geo locations";
         tool_path := "/services/rest/clientMaster/v1/getGeoLocations";
         tool_literal := [("zipCode", QStr zip_code)];
         tool_statements := [];
         tool_form := Query false |}
(** [get_labor_allocations], lines 4365-4416 *)
| get_labor_allocations (client_id : string) (template_id : option string) :
    relay_tool
      {| tool_label := "Get labor allocations";
         tool_path := "/services/rest/clientMaster/v1/getLaborAllocations";
         tool_literal := [("clientId", QStr client_id)];
         tool_statements := [IfTruthy "templateId" template_id];
         tool_form := Query false |}
(** [get_labor_union_details], lines 4419-4470 *)
| get_labor_union_details (client_id union_code : string) :
    relay_tool
      {| tool_label := "Get labor union details";
         tool_path := "/services/rest/clientMaster/v1/getLaborUnionDetails";
         tool_literal := [("clientId", QStr client_id);
             ("unionCode", QStr union_code)];
         tool_statements := [];
         tool_form := Query false |}
(** [get_message_list], lines 4473-4532 *)
| get_message_list (user_id : string) (from_date to_date : option string)
    (un_read_only : option bool) :
    relay_tool
      {| tool_label := "Get message list";
         tool_path := "/services/rest/clientMaster/v1/getMessageList";
         tool_literal := [("userId", QStr user_id)];
         tool_statements := [IfTruthy "fromDate" from_date;
             IfTruthy "toDate" to_date;
             IfNotNoneLower "unReadOnly" un_read_only];
         tool_form := Query false |}
(** [get_messages], lines 4535-4586 *)
| get_messages (user_id : string) (message_id : list string) :
    relay_tool
      {| tool_label := "Get messages";
         tool_path := "/services/rest/clientMaster/v1/getMessages";
         tool_literal := [("userId", QStr user_id);
             ("messageId", QList message_id)];
         tool_statements := [];
         tool_form := Query true |}
(** [get_osha_300a_stats], lines 4591-4647 *)
| get_osha_300a_stats (client_id report_year : string)
    (location_code : option string) :
    relay_tool
      {| tool_label := "Get OSHA 300A stats";
         tool_path := "/services/rest/clientMaster/v1/getOSHA300Astats";
         tool_literal := [("clientId", QStr client_id);
             ("reportYear", QStr report_year)];
         tool_statements := [IfTruthy "locationCode" location_code];
         tool_form := Query false |}
(** [get_pay_day_rules], lines 4650-4696 *)
| get_pay_day_rules (client_id : string) :
    relay_tool
      {| tool_label := "Get pay day rules";
         tool_path := "/services/rest/clientMaster/v1/getPayDayRules";
         tool_literal := [("clientId", QStr client_id)];
         tool_statements := [];
         tool_form := Query false |}
(** [get_pay_group_details], lines 4699-4750 *)
| get_pay_group_details (client_id pay_group_code : string) :
    relay_tool
      {| tool_label := "Get pay group details";
         tool_path := "/services/rest/clientMaster/v1/getPayGroupDetails";
         tool_literal := [("clientId", QStr client_id);
             ("payGroupCode", QStr pay_group_code)];
         tool_statements := [];
         tool_form := Query false |}
(** [get_payroll_schedule], lines 4753-4799 *)
| get_payroll_schedule (client_id : string) :
    relay_tool
      {| tool_label := "Get payroll schedule";
         tool_path := "/services/rest/clientMaster/v1/getPayrollSchedule";
         tool_literal := [("clientId", QStr client_id)];
         tool_statements := [];
         tool_form := Query false |}
(** [get_prism_client_contact], lines 4802-4853 *)
| get_prism_client_contact (client_id contact_id : string) :
    relay_tool
      {| tool_label := "Get prism client contact";
         tool_path := "/services/rest/clientMaster/v1/getPrismClientContact";
         tool_literal := [("clientId", QStr client_id);
             ("contactId", QStr contact_id)];
         tool_statements := [];
         tool_form := Query false |}
(** [get_retirement_plan_list], lines 4858-4913 *)
| get_retirement_plan_list (client_id : string)
    (count startpage : option string) :
    relay_tool
      {| tool_label := "Get retirement plan list";
         tool_path := "/services/rest/clientMaster/v1/getRetirementPlanList";
         tool_literal := [("clientId", QStr client_id)];
         tool_statements := [IfTruthy "count" count;
             IfTruthy "startpage" startpage];
         tool_form := Query false |}
(** [get_suta_billing_rates], lines 4916-4975 *)
| get_suta_billing_rates (client_id state_code effective_date : string)
    (location_code : option string) :
    relay_tool
      {| tool_label := "Get SUTA billing rates";
         tool_path := "/services/rest/clientMaster/v1/getSutaBillingRates";
         tool_literal := [("clientId", QStr client_id);
             ("stateCode", QStr state_code);
             ("effectiveDate", QStr effective_date)];
         tool_statements := [IfTruthy "locationCode" location_code];
         tool_form := Query false |}
(** [get_suta_rates], lines 4978-5049 *)
| get_suta_rates (state : string) (client_id employer_id effective_date
     from_date count startpage : option string) :
    relay_tool
      {| tool_label := "Get SUTA rates";
         tool_path := "/services/rest/clientMaster/v1/getSutaRates";
         tool_literal := [("state", QStr state)];
         tool_statements := [IfTruthy "clientId" client_id;
             IfTruthy "employerId" employer_id;
             IfTruthy "effectiveDate" effective_date;
             IfTruthy "fromDate" from_date; IfTruthy "count" count;
             IfTruthy "startpage" startpage];
         tool_form := Query false |}
(** [get_unbundled_billing_rules], lines 5052-5111 *)
| get_unbundled_billing_rules (client_id : string)
    (rule_id count startpage : option string) :
    relay_tool
      {| tool_label := "Get unbundled billing rules";
         tool_path := "/services/rest/clientMaster/v1/getUnbundledBillingRules";
         tool_literal := [("clientId", QStr client_id)];
         tool_statements := [IfTruthy "ruleId" rule_id;
             IfTruthy "count" count; IfTruthy "startpage" startpage];
         tool_form := Query false |}
(** [get_wc_accrual_modifiers], lines 5114-5169 *)
| get_wc_accrual_modifiers (client_id : string)
    (state_code effective_date : option string) :
    relay_tool
      {| tool_label := "Get WC accrual modifiers";
         tool_path := "/services/rest/clientMaster/v1/getWCAccrualModifiers";
         tool_literal := [("clientId", QStr client_id)];
         tool_statements := [IfTruthy "stateCode" state_code;
             IfTruthy "effectiveDate" effective_date];
         tool_form := Query false |}
(** [get_wc_billing_modifiers], lines 5174-5234 *)
| get_wc_billing_modifiers (client_id state_code : string)
    (location_code existing_effective_date : option string) :
    relay_tool
      {| tool_label := "Get WC billing modifiers";
         tool_path := "/services/rest/clientMaster/v1/getWCBillingModifiers";
         tool_literal := [("clientId", QStr client_id);
             ("stateCode", QStr state_code)];
         tool_statements := [IfTruthy "locationCode" location_code;
             IfTruthy "existingEffectiveDate" existing_effective_date];
         tool_form := Query false |}
(** [get_client_location_details_v2], lines 5237-5288 *)
| get_client_location_details_v2 (client_id location_id : string) :
    relay_tool
      {| tool_label := "Get client location details V2";
         tool_path := "/services/rest/clientMaster/v2/getClientLocationDetails";
         tool_literal := [("clientId", QStr client_id);
             ("locationId", QStr location_id)];
         tool_statements := [];
         tool_form := Query false |}
(** [get_suta_billing_rates_v2], lines 5291-5363 *)
| get_suta_billing_rates_v2 (client_id state_code : string) (location_code
     effective_date from_date count startpage : option string) :
    relay_tool
      {| tool_label := "Get SUTA billing rates V2";
         tool_path := "/services/rest/clientMaster/v2/getSutaBillingRates";
         tool_literal := [("clientId", QStr client_id);
             ("stateCode", QStr state_code)];
         tool_statements := [IfTruthy "locationCode" location_code;
             IfTruthy "effectiveDate" effective_date;
             IfTruthy "fromDate" from_date; IfTruthy "count" count;
             IfTruthy "startpage" startpage];
         tool_form := Query false |}
(** [get_billing_code], lines 5366-5427 *)
| get_billing_code
    (billing_code only_active count startpage : option string) :
    relay_tool
      {| tool_label := "Get billing code";
         tool_path := "/services/rest/codeFiles/v1/getBillingCode";
         tool_literal := [];
         tool_statements := [IfTruthy "billingCode" billing_code;
             IfTruthy "onlyActive" only_active; IfTruthy "count" count;
             IfTruthy "startpage" startpage];
         tool_form := Query false |}
(** [get_client_category_list], lines 5430-5487 *)
| get_client_category_list
    (client_category_id count startpage : option string) :
    relay_tool
      {| tool_label := "Get client category list";
         tool_path := "/services/rest/codeFiles/v1/getClientCategoryList";
         tool_literal := [];
         tool_statements := [IfTruthy "clientCategoryId" client_category_id;
             IfTruthy "count" count; IfTruthy "startpage" startpage];
         tool_form := Query false |}
(** [get_contact_type_list], lines 5492-5532 *)
| get_contact_type_list :
    relay_tool
      {| tool_label := "Get contact type list";
         tool_path := "/services/rest/codeFiles/v1/getContactTypeList";
         tool_literal := [];
         tool_statements := [];
         tool_form := NoQuery |}
(** [get_course_codes_list], lines 5535-5586 *)
| get_course_codes_list (client_id : string)
    (course_code_id : option string) :
    relay_tool
      {| tool_label := "Get course codes list";
         tool_path := "/services/rest/codeFiles/v1/getCourseCodesList";
         tool_literal := [("clientId", QStr client_id)];
         tool_statements := [IfTruthy "courseCodeId" course_code_id];
         tool_form := Query false |}
(** [get_deduction_code_details], lines 5589-5635 *)
| get_deduction_code_details (deduction_code : string) :
    relay_tool
      {| tool_label := "Get deduction code details";
         tool_path := "/services/rest/codeFiles/v1/getDeductionCodeDetails";
         tool_literal := [("deductionCode", QStr deduction_code)];
         tool_statements := [];
         tool_form := Query false |}
(** [get_department_code], lines 5638-5689 *)
| get_department_code (client_id department_code : string) :
    relay_tool
      {| tool_label := "Get department code";
         tool_path := "/services/rest/codeFiles/v1/getDepartmentCode";
         tool_literal := [("clientId", QStr client_id);
             ("departmentCode", QStr department_code)];
         tool_statements := [];
         tool_form := Query false |}
(** [get_division_code], lines 5692-5743 *)
| get_division_code (client_id division_code : string) :
    relay_tool
      {| tool_label := "Get division code";
         tool_path := "/services/rest/codeFiles/v1/getDivisionCode";
         tool_literal := [("clientId", QStr client_id);
             ("divisionCode", QStr division_code)];
         tool_statements := [];
         tool_form := Query false |}
(** [get_eeo_codes], lines 5748-5799 *)
| get_eeo_codes (eeo_code_type : string) (eeo_code : option string) :
    relay_tool
      {| tool_label := "Get EEO codes";
         tool_path := "/services/rest/codeFiles/v1/getEeoCodes";
         tool_literal := [("eeoCodeType", QStr eeo_code_type)];
         tool_statements := [IfTruthy "eeoCode" eeo_code];
         tool_form := Query false |}
(** [get_event_codes], lines 5802-5848 *)
| get_event_codes (client_id : string) :
    relay_tool
      {| tool_label := "Get event codes";
         tool_path := "/services/rest/codeFiles/v1/getEventCodes";
         tool_literal := [("clientId", QStr client_id)];
         tool_statements := [];
         tool_form := Query false |}
(** [get_holiday_code_list], lines 5851-5900 *)
| get_holiday_code_list (year : option string) :
    relay_tool
      {| tool_label := "Get holiday code list";
         tool_path := "/services/rest/codeFiles/v1/getHolidayCodeList";
         tool_literal := [];
         tool_statements := [IfTruthy "year" year];
         tool_form := Query false |}
(** [get_naics_code_list], lines 5903-5960 *)
| get_naics_code_list (naics_code count startpage : option string) :
    relay_tool
      {| tool_label := "Get NAICS code list";
         tool_path := "/services/rest/codeFiles/v1/getNAICSCodeList";
         tool_literal := [];
         tool_statements := [IfTruthy "naicsCode" naics_code;
             IfTruthy "count" count; IfTruthy "startpage" startpage];
         tool_form := Query false |}
(** [get_pay_grades], lines 5963-6014 *)
| get_pay_grades (client_id : string) (pay_grade_code : option string) :
    relay_tool
      {| tool_label := "Get pay grades";
         tool_path := "/services/rest/codeFiles/v1/getPayGrades";
         tool_literal := [("clientId", QStr client_id)];
         tool_statements := [IfTruthy "payGradeCode" pay_grade_code];
         tool_form := Query false |}
(** [get_paycode_details], lines 6019-6065 *)
| get_paycode_details (paycode_id : string) :
    relay_tool
      {| tool_label := "Get paycode details";
         tool_path := "/services/rest/codeFiles/v1/getPaycodeDetails";
         tool_literal := [("paycodeId", QStr paycode_id)];
         tool_statements := [];
         tool_form := Query false |}
(** [get_position_classifications], lines 6068-6117 *)
| get_position_classifications (position_class : option string) :
    relay_tool
      {| tool_label := "Get position classifications";
         tool_path := "/services/rest/codeFiles/v1/getPositionClassifications";
         tool_literal := [];
         tool_statements := [IfTruthy "positionClass" position_class];
         tool_form := Query false |}
(** [get_position_code], lines 6120-6171 *)
| get_position_code (client_id position_code : string) :
    relay_tool
      {| tool_label := "Get position code";
         tool_path := "/services/rest/codeFiles/v1/getPositionCode";
         tool_literal := [("clientId", QStr client_id);
             ("positionCode", QStr position_code)];
         tool_statements := [];
         tool_form := Query false |}
(** [get_project_code], lines 6174-6225 *)
| get_project_code (client_id project_code : string) :
    relay_tool
      {| tool_label := "Get project code";
         tool_path := "/services/rest/codeFiles/v1/getProjectCode";
         tool_literal := [("clientId", QStr client_id);
             ("projectCode", QStr project_code)];
         tool_statements := [];
         tool_form := Query false |}
(** [get_project_phase], lines 6228-6283 *)
| get_project_phase (client_id : string)
    (class_code project_phase_code : option string) :
    relay_tool
      {| tool_label := "Get project phase";
         tool_path := "/services/rest/codeFiles/v1/getProjectPhase";
         tool_literal := [("clientId", QStr client_id)];
         tool_statements := [IfTruthy "classCode" class_code;
             IfTruthy "projectPhaseCode" project_phase_code];
         tool_form := Query false |}
(** [get_rating_code], lines 6288-6339 *)
| get_rating_code (client_id : string) (rating_code_id : option string) :
    relay_tool
      {| tool_label := "Get rating code";
         tool_path := "/services/rest/codeFiles/v1/getRatingCode";
         tool_literal := [("clientId", QStr client_id)];
         tool_statements := [IfTruthy "ratingCodeId" rating_code_id];
         tool_form := Query false |}
(** [get_shift_code], lines 6342-6393 *)
| get_shift_code (client_id shift_code : string) :
    relay_tool
      {| tool_label := "Get shift code";
         tool_path := "/services/rest/codeFiles/v1/getShiftCode";
         tool_literal := [("clientId", QStr client_id);
             ("shiftCode", QStr shift_code)];
         tool_statements := [];
         tool_form := Query false |}
(** [get_skill_code], lines 6396-6447 *)
| get_skill_code (client_id skill_code : string) :
    relay_tool
      {| tool_label := "Get skill code";
         tool_path := "/services/rest/codeFiles/v1/getSkillCode";
         tool_literal := [("clientId", QStr client_id);
             ("skillCode", QStr skill_code)];
         tool_statements := [];
         tool_form := Query false |}
(** [get_user_defined_fields], lines 6450-6507 *)
| get_user_defined_fields (client_id field_type : string)
    (type_id : option (list string)) :
    relay_tool
      {| tool_label := "Get user defined fields";
         tool_path := "/services/rest/codeFiles/v1/getUserDefinedFields";
         tool_literal := [("clientId", QStr client_id);
             ("fieldType", QStr field_type)];
         tool_statements := [IfTruthyEach "typeId" type_id];
         tool_form := Query false |}
(** [get_deduction_arrears], lines 6510-6566 *)
| get_deduction_arrears (client_id employee_id : string)
    (options : option string) :
    relay_tool
      {| tool_label := "Get deduction arrears";
         tool_path := "/services/rest/deductions/v1/getDeductionArrears";
         tool_literal := [("clientId", QStr client_id);
             ("employeeId", QStr employee_id)];
         tool_statements := [IfTruthy "options" options];
         tool_form := Query false |}
(** [get_deductions], lines 6571-6627 *)
| get_deductions (client_id employee_id : string) (options : option string) :
    relay_tool
      {| tool_label := "Get deductions";
         tool_path := "/services/rest/deductions/v1/getDeductions";
         tool_literal := [("clientId", QStr client_id);
             ("employeeId", QStr employee_id)];
         tool_statements := [IfTruthy "options" options];
         tool_form := Query false |}
(** [get_employee_loans], lines 6630-6686 *)
| get_employee_loans (client_id employee_id : string)
    (loan_id : option string) :
    relay_tool
      {| tool_label := "Get employee loans";
         tool_path := "/services/rest/deductions/v1/getEmployeeLoans";
         tool_literal := [("clientId", QStr client_id);
             ("employeeId", QStr employee_id)];
         tool_statements := [IfTruthy "loanId" loan_id];
         tool_form := Query false |}
(** [get_garnishment_details], lines 6689-6749 *)
| get_garnishment_details (client_id employee_id : string)
    (docket_number garnishment_type : option string) :
    relay_tool
      {| tool_label := "Get garnishment details";
         tool_path := "/services/rest/deductions/v1/getGarnishmentDetails";
         tool_literal := [("clientId", QStr client_id);
             ("employeeId", QStr employee_id)];
         tool_statements := [IfTruthy "docketNumber" docket_number;
             IfTruthy "garnishmentType" garnishment_type];
         tool_form := Query false |}
(** [get_garnishment_payment_history], lines 6752-6808 *)
| get_garnishment_payment_history (client_id employee_id : string)
    (docket_number : option string) :
    relay_tool
      {| tool_label := "Get garnishment payment history";
         tool_path := "/services/rest/deductions/v1/getGarnishmentPaymentHistory";
         tool_literal := [("clientId", QStr client_id);
             ("employeeId", QStr employee_id)];
         tool_statements := [IfTruthy "docketNumber" docket_number];
         tool_form := Query false |}
(** [get_voluntary_recurring_deductions], lines 6811-6862 *)
| get_voluntary_recurring_deductions (client_id employee_id : string) :
    relay_tool
      {| tool_label := "Get voluntary recurring deductions";
         tool_path := "/services/rest/deductions/v1/getVoluntaryRecurringDeductions";
         tool_literal := [("clientId", QStr client_id);
             ("employeeId", QStr employee_id)];
         tool_statements := [];
         tool_form := Query false |}
(** [get_document_types], lines 6867-6917 *)
| get_document_types (document_type_id : option (list string)) :
    relay_tool
      {| tool_label := "Get document types";
         tool_path := "/services/rest/documentService/v1/getDocumentTypes";
         tool_literal := [];
         tool_statements := [IfTruthyEach "documentTypeId" document_type_id];
         tool_form := Query false |}
(** [get_ruleset], lines 6920-6977 *)
| get_ruleset (user_id client_id user_type context : string) :
    relay_tool
      {| tool_label := "Get ruleset";
         tool_path := "/services/rest/documentService/v1/getRuleset";
         tool_literal := [("userId", QStr user_id);
             ("clientId", QStr client_id); ("userType", QStr user_type);
             ("context", QStr context)];
         tool_statements := [];
         tool_form := Query false |}
(** [check_for_garnishments], lines 6980-7031 *)
| check_for_garnishments (client_id employee_id : string) :
    relay_tool
      {| tool_label := "Check for garnishments";
         tool_path := "/services/rest/employee/v1/checkForGarnishments";
         tool_literal := [("clientId", QStr client_id);
             ("employeeId", QStr employee_id)];
         tool_statements := [];
         tool_form := Query false |}
(** [download_1095c], lines 7034-7090 *)
| download_1095c (client_id : string) (employee_id : list string)
    (year : string) :
    relay_tool
      {| tool_label := "Download 1095C";
         tool_path := "/services/rest/employee/v1/download1095C";
         tool_literal := [("clientId", QStr client_id); ("year", QStr year)];
         tool_statements := [Each "employeeId" employee_id];
         tool_form := Query false |}
(** [download_w2], lines 7093-7149 *)
| download_w2 (client_id : string) (employee_id : list string)
    (year : string) :
    relay_tool
      {| tool_label := "Download W2";
         tool_path := "/services/rest/employee/v1/downloadW2";
         tool_literal := [("clientId", QStr client_id); ("year", QStr year)];
         tool_statements := [Each "employeeId" employee_id];
         tool_form := Query false |}
(** [get_1095c_years], lines 7154-7205 *)
| get_1095c_years (client_id employee_id : string) :
    relay_tool
      {| tool_label := "Get 1095C years";
         tool_path := "/services/rest/employee/v1/get1095CYears";
         tool_literal := [("clientId", QStr client_id);
             ("employeeId", QStr employee_id)];
         tool_statements := [];
         tool_form := Query false |}
(** [get_1099_years], lines 7208-7259 *)
| get_1099_years (client_id employee_id : string) :
    relay_tool
      {| tool_label := "Get 1099 years";
         tool_path := "/services/rest/employee/v1/get1099Years";
         tool_literal := [("clientId", QStr client_id);
             ("employeeId", QStr employee_id)];
         tool_statements := [];
         tool_form := Query false |}
(** [get_ach_deductions], lines 7262-7313 *)
| get_ach_deductions (client_id employee_id : string) :
    relay_tool
      {| tool_label := "Get ACH deductions";
         tool_path := "/services/rest/employee/v1/getACHDeductions";
         tool_literal := [("clientId", QStr client_id);
             ("employeeId", QStr employee_id)];
         tool_statements := [];
         tool_form := Query false |}
(** [get_address_info], lines 7316-7367 *)
| get_address_info (client_id employee_id : string) :
    relay_tool
      {| tool_label := "Get address info";
         tool_path := "/services/rest/employee/v1/getAddressInfo";
         tool_literal := [("clientId", QStr client_id);
             ("employeeId", QStr employee_id)];
         tool_statements := [];
         tool_form := Query false |}
(** [get_employee_events], lines 7372-7423 *)
| get_employee_events (employee_id client_id : string) :
    relay_tool
      {| tool_label := "Get employee events";
         tool_path := "/services/rest/employee/v1/getEmployeeEvents";
         tool_literal := [("employeeId", QStr employee_id);
             ("clientId", QStr client_id)];
         tool_statements := [];
         tool_form := Query false |}
(** [get_employee_ssn_list], lines 7426-7474 *)
| get_employee_ssn_list (client_id : string) :
    relay_tool
      {| tool_label := "Get employee SSN list";
         tool_path := "/services/rest/employee/v1/getEmployeeSSNList";
         tool_literal := [("clientId", QStr client_id)];
         tool_statements := [];
         tool_form := Query false |}
(** [get_employees_ready_for_everify], lines 7477-7514 *)
| get_employees_ready_for_everify :
    relay_tool
      {| tool_label := "Get employees ready for everify";
         tool_path := "/services/rest/employee/v1/getEmployeesReadyForEverify";
         tool_literal := [];
         tool_statements := [];
         tool_form := NoQuery |}
(** [get_employers_info], lines 7517-7568 *)
| get_employers_info (employee_id client_id : string) :
    relay_tool
      {| tool_label := "Get employers info";
         tool_path := "/services/rest/employee/v1/getEmployersInfo";
         tool_literal := [("employeeId", QStr employee_id);
             ("clientId", QStr client_id)];
         tool_statements := [];
         tool_form := Query false |}
(** [get_everify_status], lines 7573-7624 *)
| get_everify_status (client_id employee_id : string) :
    relay_tool
      {| tool_label := "Get everify status";
         tool_path := "/services/rest/employee/v1/getEverifyStatus";
         tool_literal := [("clientId", QStr client_id);
             ("employeeId", QStr employee_id)];
         tool_statements := [];
         tool_form := Query false |}
(** [get_future_ee_change], lines 7627-7675 *)
| get_future_ee_change (event_object_id : string) :
    relay_tool
      {| tool_label := "Get future ee change";
         tool_path := "/services/rest/employee/v1/getFutureEeChange";
         tool_literal := [("eventObjectId", QStr event_object_id)];
         tool_statements := [];
         tool_form := Query false |}
(** [get_garnishment_employee], lines 7678-7729 *)
| get_garnishment_employee (client_id garnishment_id : string) :
    relay_tool
      {| tool_label := "Get garnishment employee";
         tool_path := "/services/rest/employee/v1/getGarnishmentEmployee";
         tool_literal := [("clientId", QStr client_id);
             ("garnishmentId", QStr garnishment_id)];
         tool_statements := [];
         tool_form := Query false |}
(** [get_history], lines 7732-7789 *)
| get_history (client_id employee_id : string) (type : option (list string)) :
    relay_tool
      {| tool_label := "Get history";
         tool_path := "/services/rest/employee/v1/getHistory";
         tool_literal := [("clientId", QStr client_id);
             ("employeeId", QStr employee_id)];
         tool_statements := [IfTruthyEach "type" type];
         tool_form := Query false |}
(** [get_i9_data], lines 7792-7848 *)
| get_i9_data (client_id employee_id : string) (options : option string) :
    relay_tool
      {| tool_label := "Get I9 data";
         tool_path := "/services/rest/employee/v1/getI9Data";
         tool_literal := [("clientId", QStr client_id);
             ("employeeId", QStr employee_id)];
         tool_statements := [IfTruthy "options" options];
         tool_form := Query false |}
(** [get_leave_requests], lines 7853-7904 *)
| get_leave_requests (client_id leave_id : string) :
    relay_tool
      {| tool_label := "Get leave requests";
         tool_path := "/services/rest/employee/v1/getLeaveRequests";
         tool_literal := [("clientId", QStr client_id);
             ("leaveId", QStr leave_id)];
         tool_statements := [];
         tool_form := Query false |}
(** [get_life_event], lines 7907-7958 *)
| get_life_event (client_id employee_id : string) :
    relay_tool
      {| tool_label := "Get life event";
         tool_path := "/services/rest/employee/v1/getLifeEvent";
         tool_literal := [("clientId", QStr client_id);
             ("employeeId", QStr employee_id)];
         tool_statements := [];
         tool_form := Query false |}
(** [get_osha], lines 7961-8012 *)
| get_osha (client_id case_number : string) :
    relay_tool
      {| tool_label := "Get OSHA";
         tool_path := "/services/rest/employee/v1/getOSHA";
         tool_literal := [("clientId", QStr client_id);
             ("caseNumber", QStr case_number)];
         tool_statements := [];
         tool_form := Query false |}
(** [get_pay_card_employees], lines 8015-8066 *)
| get_pay_card_employees (client_id transit_number : string) :
    relay_tool
      {| tool_label := "Get pay card employees";
         tool_path := "/services/rest/employee/v1/getPayCardEmployees";
         tool_literal := [("clientId", QStr client_id);
             ("transitNumber", QStr transit_number)];
         tool_statements := [];
         tool_form := Query false |}
(** [get_pay_rate_history], lines 8069-8120 *)
| get_pay_rate_history (client_id employee_id : string) :
    relay_tool
      {| tool_label := "Get pay rate history";
         tool_path := "/services/rest/employee/v1/getPayRateHistory";
         tool_literal := [("clientId", QStr client_id);
             ("employeeId", QStr employee_id)];
         tool_statements := [];
         tool_form := Query false |}
(** [get_pending_approval], lines 8125-8182 *)
| get_pending_approval (client_id : string)
    (type employee_id : option string) :
    relay_tool
      {| tool_label := "Get pending approval";
         tool_path := "/services/rest/employee/v1/getPendingApproval";
         tool_literal := [("clientId", QStr client_id)];
         tool_statements := [IfTruthy "type" type;
             IfTruthy "employeeId" employee_id];
         tool_form := Query false |}
(** [get_position_rate], lines 8185-8236 *)
| get_position_rate (client_id employee_id : string) :
    relay_tool
      {| tool_label := "Get position rate";
         tool_path := "/services/rest/employee/v1/getPositionRate";
         tool_literal := [("clientId", QStr client_id);
             ("employeeId", QStr employee_id)];
         tool_statements := [];
         tool_form := Query false |}
(** [get_scheduled_deductions], lines 8239-8290 *)
| get_scheduled_deductions (client_id employee_id : string) :
    relay_tool
      {| tool_label := "Get scheduled deductions";
         tool_path := "/services/rest/employee/v1/getScheduledDeductions";
         tool_literal := [("clientId", QStr client_id);
             ("employeeId", QStr employee_id)];
         tool_statements := [];
         tool_form := Query false |}
(** [get_status_history_for_adjustment], lines 8293-8344 *)
| get_status_history_for_adjustment (client_id employee_id : string) :
    relay_tool
      {| tool_label := "Get status history for adjustment";
         tool_path := "/services/rest/employee/v1/getStatusHistoryForAdjustment";
         tool_literal := [("clientId", QStr client_id);
             ("employeeId", QStr employee_id)];
         tool_statements := [];
         tool_form := Query false |}
(** [get_termination_date_range], lines 8347-8398 *)
| get_termination_date_range (client_id employee_id : string) :
    relay_tool
      {| tool_label := "Get termination date range";
         tool_path := "/services/rest/employee/v1/getTerminationDateRange";
         tool_literal := [("clientId", QStr client_id);
             ("employeeId", QStr employee_id)];
         tool_statements := [];
         tool_form := Query false |}
(** [get_w2_years], lines 8403-8454 *)
| get_w2_years (client_id employee_id : string) :
    relay_tool
      {| tool_label := "Get W2 years";
         tool_path := "/services/rest/employee/v1/getW2Years";
         tool_literal := [("clientId", QStr client_id);
             ("employeeId", QStr employee_id)];
         tool_statements := [];
         tool_form := Query false |}
(** [reprint_1099], lines 8457-8514 *)
| reprint_1099 (client_id : string) (employee_id : list string)
    (year : string) :
    relay_tool
      {| tool_label := "Reprint 1099";
         tool_path := "/services/rest/employee/v1/reprint1099";
         tool_literal := [("clientId", QStr client_id); ("year", QStr year)];
         tool_statements := [Enumerate "employeeId" employee_id];
         tool_form := Query false |}
(** [reprint_w2c], lines 8517-8571 *)
| reprint_w2c (client_id employee_id year : string) :
    relay_tool
      {| tool_label := "Reprint W2C";
         tool_path := "/services/rest/employee/v1/reprintW2C";
         tool_literal := [("clientId", QStr client_id);
             ("employeeId", QStr employee_id); ("year", QStr year)];
         tool_statements := [];
         tool_form := Query false |}
(** [get_bulk_outstanding_invoices], lines 8574-8627 *)
| get_bulk_outstanding_invoices (client_id download_id : option string) :
    relay_tool
      {| tool_label := "Get bulk outstanding invoices";
         tool_path := "/services/rest/generalLedger/v1/getBulkOutstandingInvoices";
         tool_literal := [];
         tool_statements := [IfTruthy "clientId" client_id;
             IfTruthy "downloadId" download_id];
         tool_form := Query false |}
(** [get_client_accounting_template], lines 8630-8678 *)
| get_client_accounting_template (client_id : string) :
    relay_tool
      {| tool_label := "Get client accounting template";
         tool_path := "/services/rest/generalLedger/v1/getClientAccountingTemplate";
         tool_literal := [("clientId", QStr client_id)];
         tool_statements := [];
         tool_form := Query false |}
(** [get_client_gl_data], lines 8683-8756 *)
| get_client_gl_data (client_id : string) (download_id pay_date_start
     pay_date_end post_date_start post_date_end batch_id : option string) :
    relay_tool
      {| tool_label := "Get client GL data";
         tool_path := "/services/rest/generalLedger/v1/getClientGLData";
         tool_literal := [("clientId", QStr client_id)];
         tool_statements := [IfTruthy "downloadId" download_id;
             IfTruthy "payDateStart" pay_date_start;
             IfTruthy "payDateEnd" pay_date_end;
             IfTruthy "postDateStart" post_date_start;
             IfTruthy "postDateEnd" post_date_end;
             IfTruthy "batchId" batch_id];
         tool_form := Query false |}
(** [get_gl_codes], lines 8759-8808 *)
| get_gl_codes (gl_code : option string) :
    relay_tool
      {| tool_label := "Get GL codes";
         tool_path := "/services/rest/generalLedger/v1/getGLCodes";
         tool_literal := [];
         tool_statements := [IfTruthy "glCode" gl_code];
         tool_form := Query false |}
(** [get_gl_detail_download], lines 8811-8919 *)
| get_gl_detail_download
    (download_id batch_id start_date end_date : option string) (client_id
     employer_id gl_account gl_cost_center gl_detail_code_type
     gl_detail_code voucher_id check_number employee_id
     : option (list string)) :
    relay_tool
      {| tool_label := "Get GL detail download";
         tool_path := "/services/rest/generalLedger/v1/getGLDetailDownload";
         tool_literal := [];
         tool_statements := [IfTruthy "downloadId" download_id;
             IfTruthy "batchId" batch_id; IfTruthy "startDate" start_date;
             IfTruthy "endDate" end_date;
             IfTruthyEnumerate "clientId" client_id;
             IfTruthyEnumerate "employerId" employer_id;
             IfTruthyEnumerate "glAccount" gl_account;
             IfTruthyEnumerate "glCostCenter" gl_cost_center;
             IfTruthyEnumerate "glDetailCodeType" gl_detail_code_type;
             IfTruthyEnumerate "glDetailCode" gl_detail_code;
             IfTruthyEnumerate "voucherId" voucher_id;
             IfTruthyEnumerate "checkNumber" check_number;
             IfTruthyEnumerate "employeeId" employee_id];
         tool_form := Query false |}
(** [get_gl_invoice_detail], lines 8922-8978 *)
| get_gl_invoice_detail (gl_company inv_date : string)
    (include_posted : option string) :
    relay_tool
      {| tool_label := "Get GL invoice detail";
         tool_path := "/services/rest/generalLedger/v1/getGLInvoiceDetail";
         tool_literal := [("glCompany", QStr gl_company);
             ("invDate", QStr inv_date)];
         tool_statements := [IfTruthy "includePosted" include_posted];
         tool_form := Query false |}
(** [get_gl_setup], lines 8981-9041 *)
| get_gl_setup (gl_template gl_type : string)
    (gl_object_id state : option string) :
    relay_tool
      {| tool_label := "Get GL setup";
         tool_path := "/services/rest/generalLedger/v1/getGLSetup";
         tool_literal := [("glTemplate", QStr gl_template);
             ("glType", QStr gl_type)];
         tool_statements := [IfTruthy "glObjectId" gl_object_id;
             IfTruthy "state" state];
         tool_form := Query false |}
(** [get_outstanding_invoices], lines 9046-9099 *)
| get_outstanding_invoices (client_id : string)
    (show_only_deposit_match : option string) :
    relay_tool
      {| tool_label := "Get outstanding invoices";
         tool_path := "/services/rest/generalLedger/v1/getOutstandingInvoices";
         tool_literal := [("clientId", QStr client_id)];
         tool_statements := [IfTruthy "showOnlyDepositMatch" show_only_deposit_match];
         tool_form := Query false |}
(** [get_pending_cash_receipts], lines 9102-9167 *)
| get_pending_cash_receipts (cash_receipt_batch_id : string) (
     include_post_type include_deposit_type count startpage : option string) :
    relay_tool
      {| tool_label := "Get pending cash receipts";
         tool_path := "/services/rest/generalLedger/v1/getPendingCashReceipts";
         tool_literal := [("cashReceiptBatchId", QStr cash_receipt_batch_id)];
         tool_statements := [IfTruthy "includePostType" include_post_type;
             IfTruthy "includeDepositType" include_deposit_type;
             IfTruthy "count" count; IfTruthy "startpage" startpage];
         tool_form := Query false |}
(** [get_client_gl_data_v2], lines 9170-9239 *)
| get_client_gl_data_v2 (client_id : string) (pay_date_start pay_date_end
     post_date_start post_date_end batch_id : option string) :
    relay_tool
      {| tool_label := "Get client GL data v2";
         tool_path := "/services/rest/generalLedger/v2/getClientGLData";
         tool_literal := [("clientId", QStr client_id)];
         tool_statements := [IfTruthy "payDateStart" pay_date_start;
             IfTruthy "payDateEnd" pay_date_end;
             IfTruthy "postDateStart" post_date_start;
             IfTruthy "postDateEnd" post_date_end;
             IfTruthy "batchId" batch_id];
         tool_form := Query false |}
(** [get_assigned_pending_approvals], lines 9242-9295 *)
| get_assigned_pending_approvals (prism_user_id : string)
    (client_id : option string) :
    relay_tool
      {| tool_label := "Get assigned pending approvals";
         tool_path := "/services/rest/humanResources/v1/getAssignedPendingApprovals";
         tool_literal := [("prismUserId", QStr prism_user_id)];
         tool_statements := [IfTruthy "clientId" client_id];
         tool_form := Query false |}
(** [get_onboard_tasks], lines 9298-9359 *)
| get_onboard_tasks (download_id client_list from_date task : option string) :
    relay_tool
      {| tool_label := "Get onboard tasks";
         tool_path := "/services/rest/humanResources/v1/getOnboardTasks";
         tool_literal := [];
         tool_statements := [IfTruthy "downloadId" download_id;
             IfTruthy "clientList" client_list; IfTruthy "fromDate" from_date;
             IfTruthy "task" task];
         tool_form := Query false |}
(** [get_staffing_placement], lines 9364-9418 *)
| get_staffing_placement (vendor_id staffing_client placement_id : string) :
    relay_tool
      {| tool_label := "Get staffing placement";
         tool_path := "/services/rest/humanResources/v1/getStaffingPlacement";
         tool_literal := [("vendorId", QStr vendor_id);
             ("staffingClient", QStr staffing_client);
             ("placementId", QStr placement_id)];
         tool_statements := [];
         tool_form := Query false |}
(** [get_staffing_placement_list], lines 9421-9482 *)
| get_staffing_placement_list (employee_id : string)
    (client_id count startpage : option string) :
    relay_tool
      {| tool_label := "Get staffing placement list";
         tool_path := "/services/rest/humanResources/v1/getStaffingPlacementList";
         tool_literal := [("employeeId", QStr employee_id)];
         tool_statements := [IfTruthy "clientId" client_id;
             IfTruthy "count" count; IfTruthy "startpage" startpage];
         tool_form := Query false |}
(** [check_permissions_request_status], lines 9485-9533 *)
| check_permissions_request_status (web_service_user : string) :
    relay_tool
      {| tool_label := "Check permissions request status";
         tool_path := "/services/rest/login/v1/checkPermissionsRequestStatus";
         tool_literal := [("webServiceUser", QStr web_service_user)];
         tool_statements := [];
         tool_form := Query false |}
(** [get_api_permissions], lines 9536-9573 *)
| get_api_permissions :
    relay_tool
      {| tool_label := "Get API permissions";
         tool_path := "/services/rest/login/v1/getAPIPermissions";
         tool_literal := [];
         tool_statements := [];
         tool_form := NoQuery |}
(** [get_new_hire_questions], lines 9576-9624 *)
| get_new_hire_questions (state_code : string) :
    relay_tool
      {| tool_label := "Get new hire questions";
         tool_path := "/services/rest/newHire/v1/getNewHireQuestions";
         tool_literal := [("stateCode", QStr state_code)];
         tool_statements := [];
         tool_form := Query false |}
(** [get_new_hire_required_fields], lines 9629-9677 *)
| get_new_hire_required_fields (client_id : string) :
    relay_tool
      {| tool_label := "Get new hire required fields";
         tool_path := "/services/rest/newHire/v1/getNewHireRequiredFields";
         tool_literal := [("clientId", QStr client_id)];
         tool_statements := [];
         tool_form := Query false |}
(** [check_initialization_status], lines 9680-9731 *)
| check_initialization_status (client_id batch_id : string) :
    relay_tool
      {| tool_label := "Check initialization status";
         tool_path := "/services/rest/payroll/v1/checkInitializationStatus";
         tool_literal := [("clientId", QStr client_id);
             ("batchId", QStr batch_id)];
         tool_statements := [];
         tool_form := Query false |}
(** [get_approval_summary], lines 9734-9790 *)
| get_approval_summary (client_id batch_id : string)
    (options : option string) :
    relay_tool
      {| tool_label := "Get approval summary";
         tool_path := "/services/rest/payroll/v1/getApprovalSummary";
         tool_literal := [("clientId", QStr client_id);
             ("batchId", QStr batch_id)];
         tool_statements := [IfTruthy "options" options];
         tool_form := Query false |}
(** [get_batch_info], lines 9793-9844 *)
| get_batch_info (client_id batch_id : string) :
    relay_tool
      {| tool_label := "Get batch info";
         tool_path := "/services/rest/payroll/v1/getBatchInfo";
         tool_literal := [("clientId", QStr client_id);
             ("batchId", QStr batch_id)];
         tool_statements := [];
         tool_form := Query false |}
(** [get_batch_list_by_date], lines 9847-9909 *)
| get_batch_list_by_date (client_id start_date end_date date_type : string)
    (pay_group : option string) :
    relay_tool
      {| tool_label := "Get batch list by date";
         tool_path := "/services/rest/payroll/v1/getBatchListByDate";
         tool_literal := [("clientId", QStr client_id);
             ("startDate", QStr start_date); ("endDate", QStr end_date);
             ("dateType", QStr date_type)];
         tool_statements := [IfTruthy "payGroup" pay_group];
         tool_form := Query false |}
(** [get_batch_list_for_approval], lines 9914-9962 *)
| get_batch_list_for_approval (client_id : string) :
    relay_tool
      {| tool_label := "Get batch list for approval";
         tool_path := "/services/rest/payroll/v1/getBatchListForApproval";
         tool_literal := [("clientId", QStr client_id)];
         tool_statements := [];
         tool_form := Query false |}
(** [get_batch_list_for_initialization], lines 9965-10013 *)
| get_batch_list_for_initialization (client_id : string) :
    relay_tool
      {| tool_label := "Get batch list for initialization";
         tool_path := "/services/rest/payroll/v1/getBatchListForInitialization";
         tool_literal := [("clientId", QStr client_id)];
         tool_statements := [];
         tool_form := Query false |}
(** [get_batch_payments], lines 10016-10067 *)
| get_batch_payments (client_id payroll_number : string) :
    relay_tool
      {| tool_label := "Get batch payments";
         tool_path := "/services/rest/payroll/v1/getBatchPayments";
         tool_literal := [("clientId", QStr client_id);
             ("payrollNumber", QStr payroll_number)];
         tool_statements := [];
         tool_form := Query false |}
(** [get_batch_status], lines 10070-10121 *)
| get_batch_status (client_id batch_ids : string) :
    relay_tool
      {| tool_label := "Get batch status";
         tool_path := "/services/rest/payroll/v1/getBatchStatus";
         tool_literal := [("clientId", QStr client_id);
             ("batchIds", QStr batch_ids)];
         tool_statements := [];
         tool_form := Query false |}
(** [get_billing_code_totals_by_pay_group], lines 10124-10178 *)
| get_billing_code_totals_by_pay_group (client_id batch_id options : string) :
    relay_tool
      {| tool_label := "Get billing code totals by pay group";
         tool_path := "/services/rest/payroll/v1/getBillingCodeTotalsByPayGroup";
         tool_literal := [("clientId", QStr client_id);
             ("batchId", QStr batch_id); ("options", QStr options)];
         tool_statements := [];
         tool_form := Query false |}
(** [get_billing_code_totals_for_batch], lines 10183-10234 *)
| get_billing_code_totals_for_batch (client_id batch_id : string) :
    relay_tool
      {| tool_label := "Get billing code totals for batch";
         tool_path := "/services/rest/payroll/v1/getBillingCodeTotalsForBatch";
         tool_literal := [("clientId", QStr client_id);
             ("batchId", QStr batch_id)];
         tool_statements := [];
         tool_form := Query false |}
(** [get_billing_code_totals_with_costs], lines 10237-10288 *)
| get_billing_code_totals_with_costs (client_id batch_id : string) :
    relay_tool
      {| tool_label := "Get billing code totals with costs";
         tool_path := "/services/rest/payroll/v1/getBillingCodeTotalsWithCosts";
         tool_literal := [("clientId", QStr client_id);
             ("batchId", QStr batch_id)];
         tool_statements := [];
         tool_form := Query false |}
(** [get_billing_rule_unbundled], lines 10291-10342 *)
| get_billing_rule_unbundled (client_id billing_rule_num : string) :
    relay_tool
      {| tool_label := "Get billing rule unbundled";
         tool_path := "/services/rest/payroll/v1/getBillingRuleUnbundled";
         tool_literal := [("clientId", QStr client_id);
             ("billingRuleNum", QStr billing_rule_num)];
         tool_statements := [];
         tool_form := Query false |}
(** [get_billing_vouchers], lines 10345-10416 *)
| get_billing_vouchers (client_id pay_date_start pay_date_end : string)
    (bill_type : option (list string)) (count startpage : option string)
    (options : option (list string)) :
    relay_tool
      {| tool_label := "Get billing vouchers";
         tool_path := "/services/rest/payroll/v1/getBillingVouchers";
         tool_literal := [("clientId", QStr client_id);
             ("payDateStart", QStr pay_date_start);
             ("payDateEnd", QStr pay_date_end)];
         tool_statements := [IfTruthyList "billType" bill_type;
             IfTruthy "count" count; IfTruthy "startpage" startpage;
             IfTruthyList "options" options];
         tool_form := Query true |}
(** [get_billing_vouchers_by_batch], lines 10419-10487 *)
| get_billing_vouchers_by_batch (client_id batch_id : string)
    (bill_type : option (list string)) (count startpage : option string)
    (options : option (list string)) :
    relay_tool
      {| tool_label := "Get billing vouchers by batch";
         tool_path := "/services/rest/payroll/v1/getBillingVouchersByBatch";
         tool_literal := [("clientId", QStr client_id);
             ("batchId", QStr batch_id)];
         tool_statements := [IfTruthyList "billType" bill_type;
             IfTruthy "count" count; IfTruthy "startpage" startpage;
             IfTruthyList "options" options];
         tool_form := Query true |}
(** [get_bulk_year_to_date_values], lines 10492-10557 *)
| get_bulk_year_to_date_values (download_id client_id employee_id
     voucher_id as_of_date : option string) :
    relay_tool
      {| tool_label := "Get bulk year to date values";
         tool_path := "/services/rest/payroll/v1/getBulkYearToDateValues";
         tool_literal := [];
         tool_statements := [IfTruthy "downloadId" download_id;
             IfTruthy "clientId" client_id; IfTruthy "employeeId" employee_id;
             IfTruthy "voucherId" voucher_id; IfTruthy "asOfDate" as_of_date];
         tool_form := Query false |}
(** [get_clients_with_vouchers], lines 10560-10611 *)
| get_clients_with_vouchers (pay_date_start pay_date_end : string) :
    relay_tool
      {| tool_label := "Get clients with vouchers";
         tool_path := "/services/rest/payroll/v1/getClientsWithVouchers";
         tool_literal := [("payDateStart", QStr pay_date_start);
             ("payDateEnd", QStr pay_date_end)];
         tool_statements := [];
         tool_form := Query false |}
(** [get_employee_401k_contributions_by_date], lines 10614-10677 *)
| get_employee_401k_contributions_by_date
    (client_id start_date end_date : string)
    (retirement_plan_id options : option string) :
    relay_tool
      {| tool_label := "Get employee 401K contributions by date";
         tool_path := "/services/rest/payroll/v1/getEmployee401KContributionsByDate";
         tool_literal := [("clientId", QStr client_id);
             ("startDate", QStr start_date); ("endDate", QStr end_date)];
         tool_statements := [IfTruthy "retirementPlanId" retirement_plan_id;
             IfTruthy "options" options];
         tool_form := Query false |}
(** [get_employee_for_batch], lines 10680-10731 *)
| get_employee_for_batch (client_id batch_id : string) :
    relay_tool
      {| tool_label := "Get employee for batch";
         tool_path := "/services/rest/payroll/v1/getEmployeeForBatch";
         tool_literal := [("clientId", QStr client_id);
             ("batchId", QStr batch_id)];
         tool_statements := [];
         tool_form := Query false |}
(** [get_employee_override_rates], lines 10734-10785 *)
| get_employee_override_rates (client_id employee_id : string) :
    relay_tool
      {| tool_label := "Get employee override rates";
         tool_path := "/services/rest/payroll/v1/getEmployeeOverrideRates";
         tool_literal := [("clientId", QStr client_id);
             ("employeeId", QStr employee_id)];
         tool_statements := [];
         tool_form := Query false |}
(** [get_employee_payroll_summary], lines 10790-10844 *)
| get_employee_payroll_summary (client_id employee_id year : string) :
    relay_tool
      {| tool_label := "Get employee payroll summary";
         tool_path := "/services/rest/payroll/v1/getEmployeePayrollSummary";
         tool_literal := [("clientId", QStr client_id);
             ("employeeId", QStr employee_id); ("year", QStr year)];
         tool_statements := [];
         tool_form := Query false |}
(** [get_external_pto_balance], lines 10847-10903 *)
| get_external_pto_balance (client_id batch_id : string)
    (include_history : option string) :
    relay_tool
      {| tool_label := "Get external PTO balance";
         tool_path := "/services/rest/payroll/v1/getExternalPtoBalance";
         tool_literal := [("clientId", QStr client_id);
             ("batchId", QStr batch_id)];
         tool_statements := [IfTruthy "includeHistory" include_history];
         tool_form := Query false |}
(** [get_manual_checks], lines 10906-10971 *)
| get_manual_checks (client_id : string)
    (reference employee_id check_date check_status : option string) :
    relay_tool
      {| tool_label := "Get manual checks";
         tool_path := "/services/rest/payroll/v1/getManualChecks";
         tool_literal := [("clientId", QStr client_id)];
         tool_statements := [IfTruthy "reference" reference;
             IfTruthy "employeeId" employee_id;
             IfTruthy "checkDate" check_date;
             IfTruthy "checkStatus" check_status];
         tool_form := Query false |}
(** [get_payroll_approval], lines 10974-11025 *)
| get_payroll_approval (client_id batch_id : string) :
    relay_tool
      {| tool_label := "Get payroll approval";
         tool_path := "/services/rest/payroll/v1/getPayrollApproval";
         tool_literal := [("clientId", QStr client_id);
             ("batchId", QStr batch_id)];
         tool_statements := [];
         tool_form := Query false |}
(** [get_payroll_batch_with_options], lines 11028-11079 *)
| get_payroll_batch_with_options (client_id batch_id : string) :
    relay_tool
      {| tool_label := "Get payroll batch with options";
         tool_path := "/services/rest/payroll/v1/getPayrollBatchWithOptions";
         tool_literal := [("clientId", QStr client_id);
             ("batchId", QStr batch_id)];
         tool_statements := [];
         tool_form := Query false |}
(** [get_payroll_notes], lines 11084-11132 *)
| get_payroll_notes (client_id : string) :
    relay_tool
      {| tool_label := "Get payroll notes";
         tool_path := "/services/rest/payroll/v1/getPayrollNotes";
         tool_literal := [("clientId", QStr client_id)];
         tool_statements := [];
         tool_form := Query false |}
(** [get_payroll_schedule], lines 11135-11183,
    the second definition of this name in the module *)
| get_payroll_schedule' (schedule_code : string) :
    relay_tool
      {| tool_label := "Get payroll schedule";
         tool_path := "/services/rest/payroll/v1/getPayrollSchedule";
         tool_literal := [("scheduleCode", QStr schedule_code)];
         tool_statements := [];
         tool_form := Query false |}
(** [get_payroll_schedule_codes], lines 11186-11223 *)
| get_payroll_schedule_codes :
    relay_tool
      {| tool_label := "Get payroll schedule codes";
         tool_path := "/services/rest/payroll/v1/getPayrollScheduleCodes";
         tool_literal := [];
         tool_statements := [];
         tool_form := NoQuery |}
(** [get_payroll_summary], lines 11226-11295 *)
| get_payroll_summary (client_id : string)
    (year batch_type batch_id : option string)
    (include_details : option bool) (sort : option string) :
    relay_tool
      {| tool_label := "Get payroll summary";
         tool_path := "/services/rest/payroll/v1/getPayrollSummary";
         tool_literal := [("clientId", QStr client_id)];
         tool_statements := [IfTruthy "year" year;
             IfTruthy "batchType" batch_type; IfTruthy "batchId" batch_id;
             IfNotNone "includeDetails" include_details;
             IfTruthy "sort" sort];
         tool_form := Query false |}
(** [get_payroll_voucher_by_id], lines 11298-11354 *)
| get_payroll_voucher_by_id (client_id voucher_id : string)
    (options : option string) :
    relay_tool
      {| tool_label := "Get payroll voucher by id";
         tool_path := "/services/rest/payroll/v1/getPayrollVoucherById";
         tool_literal := [("clientId", QStr client_id);
             ("voucherId", QStr voucher_id)];
         tool_statements := [IfTruthy "options" options];
         tool_form := Query false |}
(** [get_payroll_voucher_for_batch], lines 11359-11423 *)
| get_payroll_voucher_for_batch (client_id batch_id : string)
    (count startpage options : option string) :
    relay_tool
      {| tool_label := "Get payroll voucher for batch";
         tool_path := "/services/rest/payroll/v1/getPayrollVoucherForBatch";
         tool_literal := [("clientId", QStr client_id);
             ("batchId", QStr batch_id)];
         tool_statements := [IfTruthy "count" count;
             IfTruthy "startpage" startpage; IfTruthy "options" options];
         tool_form := Query false |}
(** [get_payroll_vouchers], lines 11426-11493 *)
| get_payroll_vouchers (client_id pay_date_start pay_date_end : string)
    (count startpage options : option string) :
    relay_tool
      {| tool_label := "Get payroll vouchers";
         tool_path := "/services/rest/payroll/v1/getPayrollVouchers";
         tool_literal := [("clientId", QStr client_id);
             ("payDateStart", QStr pay_date_start);
             ("payDateEnd", QStr pay_date_end)];
         tool_statements := [IfTruthy "count" count;
             IfTruthy "startpage" startpage; IfTruthy "options" options];
         tool_form := Query false |}
(** [get_payroll_vouchers_for_employee], lines 11496-11566 *)
| get_payroll_vouchers_for_employee
    (client_id employee_id pay_date_start pay_date_end : string)
    (count startpage options : option string) :
    relay_tool
      {| tool_label := "Get payroll vouchers for employee";
         tool_path := "/services/rest/payroll/v1/getPayrollVouchersForEmployee";
         tool_literal := [("clientId", QStr client_id);
             ("employeeId", QStr employee_id);
             ("payDateStart", QStr pay_date_start);
             ("payDateEnd", QStr pay_date_end)];
         tool_statements := [IfTruthy "count" count;
             IfTruthy "startpage" startpage; IfTruthy "options" options];
         tool_form := Query false |}
(** [get_process_schedule], lines 11569-11617 *)
| get_process_schedule (process_schedule_id : string) :
    relay_tool
      {| tool_label := "Get process schedule";
         tool_path := "/services/rest/payroll/v1/getProcessSchedule";
         tool_literal := [("processScheduleId", QStr process_schedule_id)];
         tool_statements := [];
         tool_form := Query false |}
(** [get_process_schedule_codes], lines 11620-11657 *)
| get_process_schedule_codes :
    relay_tool
      {| tool_label := "Get process schedule codes";
         tool_path := "/services/rest/payroll/v1/getProcessScheduleCodes";
         tool_literal := [];
         tool_statements := [];
         tool_form := NoQuery |}
(** [get_retirement_adj_voucher_list_by_date], lines 11662-11728 *)
| get_retirement_adj_voucher_list_by_date
    (client_id date_type start_date end_date : string)
    (employee_id download_id : option string) :
    relay_tool
      {| tool_label := "Get retirement adj voucher list by date";
         tool_path := "/services/rest/payroll/v1/getRetirementAdjVoucherListByDate";
         tool_literal := [("clientId", QStr client_id);
             ("dateType", QStr date_type); ("startDate", QStr start_date);
             ("endDate", QStr end_date)];
         tool_statements := [IfTruthy "employeeId" employee_id;
             IfTruthy "downloadId" download_id];
         tool_form := Query false |}
(** [get_scheduled_payments], lines 11731-11782 *)
| get_scheduled_payments (client_id employee_id : string) :
    relay_tool
      {| tool_label := "Get scheduled payments";
         tool_path := "/services/rest/payroll/v1/getScheduledPayments";
         tool_literal := [("clientId", QStr client_id);
             ("employeeId", QStr employee_id)];
         tool_statements := [];
         tool_form := Query false |}
(** [get_standard_hours], lines 11785-11833 *)
| get_standard_hours (client_id : string) :
    relay_tool
      {| tool_label := "Get standard hours";
         tool_path := "/services/rest/payroll/v1/getStandardHours";
         tool_literal := [("clientId", QStr client_id)];
         tool_statements := [];
         tool_form := Query false |}
(** [get_year_to_date_values], lines 11836-11892 *)
| get_year_to_date_values (client_id employee_id : string)
    (as_of_date : option string) :
    relay_tool
      {| tool_label := "Get year to date values";
         tool_path := "/services/rest/payroll/v1/getYearToDateValues";
         tool_literal := [("clientId", QStr client_id);
             ("employeeId", QStr employee_id)];
         tool_statements := [IfTruthy "asOfDate" as_of_date];
         tool_form := Query false |}
(** [get_pay_group_schedule_report], lines 11895-11957 *)
| get_pay_group_schedule_report
    (client_id pay_group pay_date_start pay_date_end : string)
    (download_id : option string) :
    relay_tool
      {| tool_label := "Get pay group schedule report";
         tool_path := "/services/rest/payroll/v1/payGroupScheduleReport";
         tool_literal := [("clientId", QStr client_id);
             ("payGroup", QStr pay_group);
             ("payDateStart", QStr pay_date_start);
             ("payDateEnd", QStr pay_date_end)];
         tool_statements := [IfTruthy "downloadId" download_id];
         tool_form := Query false |}
(** [reprint_check_stub], lines 11962-12016 *)
| reprint_check_stub (client_id employee_id voucher_id : string) :
    relay_tool
      {| tool_label := "Reprint check stub";
         tool_path := "/services/rest/payroll/v1/reprintCheckStub";
         tool_literal := [("clientId", QStr client_id);
             ("employeeId", QStr employee_id);
             ("voucherId", QStr voucher_id)];
         tool_statements := [];
         tool_form := Query false |}
(** [get_allowed_employee_list], lines 12019-12095 *)
| get_allowed_employee_list (prism_user_id client_id : string) (employee_id
     last_name first_name employee_status_class startpage count
     : option string) :
    relay_tool
      {| tool_label := "Get allowed employee list";
         tool_path := "/services/rest/prismSecurity/v1/getAllowedEmployeeList";
         tool_literal := [("prismUserId", QStr prism_user_id);
             ("clientId", QStr client_id)];
         tool_statements := [IfTruthy "employeeId" employee_id;
             IfTruthy "lastName" last_name; IfTruthy "firstName" first_name;
             IfTruthy "employeeStatusClass" employee_status_class;
             IfTruthy "startpage" startpage; IfTruthy "count" count];
         tool_form := Query false |}
(** [get_client_list_security], lines 12098-12146 *)
| get_client_list_security (prism_user_id : string) :
    relay_tool
      {| tool_label := "Get client list security";
         tool_path := "/services/rest/prismSecurity/v1/getClientList";
         tool_literal := [("prismUserId", QStr prism_user_id)];
         tool_statements := [];
         tool_form := Query false |}
(** [get_employee_client_list], lines 12149-12202 *)
| get_employee_client_list (prism_user_id employee_id : option string) :
    relay_tool
      {| tool_label := "Get employee client list";
         tool_path := "/services/rest/prismSecurity/v1/getEmployeeClientList";
         tool_literal := [];
         tool_statements := [IfTruthy "prismUserId" prism_user_id;
             IfTruthy "employeeId" employee_id];
         tool_form := Query false |}
(** [get_employee_list_security], lines 12205-12256 *)
| get_employee_list_security (prism_user_id client_id : string) :
    relay_tool
      {| tool_label := "Get employee list security";
         tool_path := "/services/rest/prismSecurity/v1/getEmployeeList";
         tool_literal := [("prismUserId", QStr prism_user_id);
             ("clientId", QStr client_id)];
         tool_statements := [];
         tool_form := Query false |}
(** [get_entity_access], lines 12261-12312 *)
| get_entity_access (prism_user_id client_id : string) :
    relay_tool
      {| tool_label := "Get entity access";
         tool_path := "/services/rest/prismSecurity/v1/getEntityAccess";
         tool_literal := [("prismUserId", QStr prism_user_id);
             ("clientId", QStr client_id)];
         tool_statements := [];
         tool_form := Query false |}
(** [get_manager_list], lines 12315-12366 *)
| get_manager_list (client_id employee_id : string) :
    relay_tool
      {| tool_label := "Get manager list";
         tool_path := "/services/rest/prismSecurity/v1/getManagerList";
         tool_literal := [("clientId", QStr client_id);
             ("employeeId", QStr employee_id)];
         tool_statements := [];
         tool_form := Query false |}
(** [get_user_data_security], lines 12369-12422 *)
| get_user_data_security (client_id : string)
    (prism_user_id : option string) :
    relay_tool
      {| tool_label := "Get user data security";
         tool_path := "/services/rest/prismSecurity/v1/getUserDataSecurity";
         tool_literal := [("clientId", QStr client_id)];
         tool_statements := [IfTruthy "prismUserId" prism_user_id];
         tool_form := Query false |}
(** [get_user_details], lines 12425-12473 *)
| get_user_details (prism_user_id : string) :
    relay_tool
      {| tool_label := "Get user details";
         tool_path := "/services/rest/prismSecurity/v1/getUserDetails";
         tool_literal := [("prismUserId", QStr prism_user_id)];
         tool_statements := [];
         tool_form := Query false |}
(** [get_user_list_security], lines 12476-12529 *)
| get_user_list_security (client_id user_type : option string) :
    relay_tool
      {| tool_label := "Get user list security";
         tool_path := "/services/rest/prismSecurity/v1/getUserList";
         tool_literal := [];
         tool_statements := [IfTruthy "clientId" client_id;
             IfTruthy "userType" user_type];
         tool_form := Query false |}
(** [get_user_role_details], lines 12534-12582 *)
| get_user_role_details (role_id : string) :
    relay_tool
      {| tool_label := "Get user role details";
         tool_path := "/services/rest/prismSecurity/v1/getUserRoleDetails";
         tool_literal := [("roleId", QStr role_id)];
         tool_statements := [];
         tool_form := Query false |}
(** [get_user_roles_list], lines 12585-12622 *)
| get_user_roles_list :
    relay_tool
      {| tool_label := "Get user roles list";
         tool_path := "/services/rest/prismSecurity/v1/getUserRolesList";
         tool_literal := [];
         tool_statements := [];
         tool_form := NoQuery |}
(** [is_client_allowed], lines 12625-12676 *)
| is_client_allowed (prism_user_id client_id : string) :
    relay_tool
      {| tool_label := "Is client allowed";
         tool_path := "/services/rest/prismSecurity/v1/isClientAllowed";
         tool_literal := [("prismUserId", QStr prism_user_id);
             ("clientId", QStr client_id)];
         tool_statements := [];
         tool_form := Query false |}
(** [is_employee_allowed], lines 12679-12733 *)
| is_employee_allowed (prism_user_id client_id employee_id : string) :
    relay_tool
      {| tool_label := "Is employee allowed";
         tool_path := "/services/rest/prismSecurity/v1/isEmployeeAllowed";
         tool_literal := [("prismUserId", QStr prism_user_id);
             ("clientId", QStr client_id); ("employeeId", QStr employee_id)];
         tool_statements := [];
         tool_form := Query false |}
(** [get_user_list_v2], lines 12736-12797 *)
| get_user_list_v2 (client_id user_type count startpage : option string) :
    relay_tool
      {| tool_label := "Get user list v2";
         tool_path := "/services/rest/prismSecurity/v2/getUserList";
         tool_literal := [];
         tool_statements := [IfTruthy "clientId" client_id;
             IfTruthy "userType" user_type; IfTruthy "count" count;
             IfTruthy "startpage" startpage];
         tool_form := Query false |}
(** [get_employee_image], lines 12802-12850 *)
| get_employee_image (user_id : string) :
    relay_tool
      {| tool_label := "Get employee image";
         tool_path := "/services/rest/signOn/v1/getEmployeeImage";
         tool_literal := [("userId", QStr user_id)];
         tool_statements := [];
         tool_form := Query false |}
(** [get_favorites], lines 12853-12901 *)
| get_favorites (user_id : string) :
    relay_tool
      {| tool_label := "Get favorites";
         tool_path := "/services/rest/signOn/v1/getFavorites";
         tool_literal := [("userId", QStr user_id)];
         tool_statements := [];
         tool_form := Query false |}
(** [get_vendor_info], lines 12904-12958 *)
| get_vendor_info (client_id user_id ext_vendor_id : string) :
    relay_tool
      {| tool_label := "Get vendor info";
         tool_path := "/services/rest/signOn/v1/getVendorInfo";
         tool_literal := [("clientId", QStr client_id);
             ("userId", QStr user_id); ("extVendorId", QStr ext_vendor_id)];
         tool_statements := [];
         tool_form := Query false |}
(** [get_all_subscriptions], lines 12961-13010 *)
| get_all_subscriptions (user_string_id : option string) :
    relay_tool
      {| tool_label := "Get all subscriptions";
         tool_path := "/services/rest/subscription/v1/getAllSubscriptions";
         tool_literal := [];
         tool_statements := [IfTruthy "userStringId" user_string_id];
         tool_form := Query false |}
(** [get_events], lines 13013-13069 *)
| get_events (subscription_id replay_id : string)
    (number_of_events : option string) :
    relay_tool
      {| tool_label := "Get events";
         tool_path := "/services/rest/subscription/v1/getEvents";
         tool_literal := [("subscriptionId", QStr subscription_id);
             ("replayId", QStr replay_id)];
         tool_statements := [IfTruthy "numberOfEvents" number_of_events];
         tool_form := Query false |}
(** [get_new_events], lines 13074-13127 *)
| get_new_events (subscription_id : string)
    (number_of_events : option string) :
    relay_tool
      {| tool_label := "Get new events";
         tool_path := "/services/rest/subscription/v1/getNewEvents";
         tool_literal := [("subscriptionId", QStr subscription_id)];
         tool_statements := [IfTruthy "numberOfEvents" number_of_events];
         tool_form := Query false |}
(** [get_subscription], lines 13130-13178 *)
| get_subscription (subscription_id : string) :
    relay_tool
      {| tool_label := "Get subscription";
         tool_path := "/services/rest/subscription/v1/getSubscription";
         tool_literal := [("subscriptionId", QStr subscription_id)];
         tool_statements := [];
         tool_form := Query false |}
(** [get_ach_file_list], lines 13181-13245 *)
| get_ach_file_list (originator_id post_date_start : string)
    (post_date_end count startpage : option string) :
    relay_tool
      {| tool_label := "Get ACH file list";
         tool_path := "/services/rest/system/v1/getACHFileList";
         tool_literal := [("originatorId", QStr originator_id);
             ("postDateStart", QStr post_date_start)];
         tool_statements := [IfTruthy "postDateEnd" post_date_end;
             IfTruthy "count" count; IfTruthy "startpage" startpage];
         tool_form := Query false |}
(** [get_ar_transaction_report], lines 13248-13308 *)
| get_ar_transaction_report (start_date end_date : string)
    (download_id : option string) (client_id : option (list string)) :
    relay_tool
      {| tool_label := "Get AR transaction report";
         tool_path := "/services/rest/system/v1/getARTransactionReport";
         tool_literal := [("startDate", QStr start_date);
             ("endDate", QStr end_date)];
         tool_statements := [IfTruthy "downloadId" download_id;
             IfTruthyList "clientId" client_id];
         tool_form := Query false |}
(** [get_data], lines 13311-13371 *)
| get_data (schema_name class_name : string) (download_id : option string)
    (client_id : option (list string)) :
    relay_tool
      {| tool_label := "Get data";
         tool_path := "/services/rest/system/v1/getData";
         tool_literal := [("schemaName", QStr schema_name);
             ("className", QStr class_name)];
         tool_statements := [IfTruthy "downloadId" download_id;
             IfTruthyList "clientId" client_id];
         tool_form := Query false |}
(** [get_employer_details], lines 13376-13425 *)
| get_employer_details (employer_id : option string) :
    relay_tool
      {| tool_label := "Get employer details";
         tool_path := "/services/rest/system/v1/getEmployerDetails";
         tool_literal := [];
         tool_statements := [IfTruthy "employerId" employer_id];
         tool_form := Query false |}
(** [get_invoice_data], lines 13428-13485 *)
| get_invoice_data (client_id : string)
    (batch_id invoice_id : option string) :
    relay_tool
      {| tool_label := "Get invoice data";
         tool_path := "/services/rest/system/v1/getInvoiceData";
         tool_literal := [("clientId", QStr client_id)];
         tool_statements := [IfTruthy "batchId" batch_id;
             IfTruthy "invoiceId" invoice_id];
         tool_form := Query false |}
(** [get_multi_entity_group_list], lines 13488-13549 *)
| get_multi_entity_group_list
    (count startpage client_id multi_entity_group_id : option string) :
    relay_tool
      {| tool_label := "Get multi entity group list";
         tool_path := "/services/rest/system/v1/getMultiEntityGroupList";
         tool_literal := [];
         tool_statements := [IfTruthy "count" count;
             IfTruthy "startpage" startpage; IfTruthy "clientId" client_id;
             IfTruthy "multiEntityGroupId" multi_entity_group_id];
         tool_form := Query false |}
(** [get_payee], lines 13552-13605 *)
| get_payee (payee_id payee_type : option string) :
    relay_tool
      {| tool_label := "Get payee";
         tool_path := "/services/rest/system/v1/getPayee";
         tool_literal := [];
         tool_statements := [IfTruthy "payeeId" payee_id;
             IfTruthy "payeeType" payee_type];
         tool_form := Query false |}
(** [get_payments_pending], lines 13608-13665 *)
| get_payments_pending (client_id batch_id status : option string) :
    relay_tool
      {| tool_label := "Get payments pending";
         tool_path := "/services/rest/system/v1/getPaymentsPending";
         tool_literal := [];
         tool_statements := [IfTruthy "clientId" client_id;
             IfTruthy "batchId" batch_id; IfTruthy "status" status];
         tool_form := Query false |}
(** [get_positive_pay_check_stub], lines 13670-13707 *)
| get_positive_pay_check_stub :
    relay_tool
      {| tool_label := "Get positive pay check stub";
         tool_path := "/services/rest/system/v1/getPositivePayCheckStub";
         tool_literal := [];
         tool_statements := [];
         tool_form := NoQuery |}
(** [get_positive_pay_file_list], lines 13710-13787 *)
| get_positive_pay_file_list (checking_acct file_stub date_created
     date_created_start date_created_end : option string)
    (most_recent : option bool) (count startpage : option string) :
    relay_tool
      {| tool_label := "Get positive pay file list";
         tool_path := "/services/rest/system/v1/getPositivePayFileList";
         tool_literal := [];
         tool_statements := [IfTruthy "checkingAcct" checking_acct;
             IfTruthy "fileStub" file_stub;
             IfTruthy "dateCreated" date_created;
             IfTruthy "dateCreatedStart" date_created_start;
             IfTruthy "dateCreatedEnd" date_created_end;
             IfNotNoneLower "mostRecent" most_recent; IfTruthy "count" count;
             IfTruthy "startpage" startpage];
         tool_form := Query false |}
(** [get_unbilled_benefit_adjustments], lines 13790-13859 *)
| get_unbilled_benefit_adjustments (download_id : option string)
    (client_id : option (list string))
    (start_date end_date include_term_client status_class : option string) :
    relay_tool
      {| tool_label := "Get unbilled benefit adjustments";
         tool_path := "/services/rest/system/v1/getUnbilledBenefitAdjustments";
         tool_literal := [];
         tool_statements := [IfTruthy "downloadId" download_id;
             IfTruthyList "clientId" client_id;
             IfTruthy "startDate" start_date; IfTruthy "endDate" end_date;
             IfTruthy "includeTermClient" include_term_client;
             IfTruthy "statusClass" status_class];
         tool_form := Query false |}
(** [identify_ach_process_lock], lines 13862-13899 *)
| identify_ach_process_lock :
    relay_tool
      {| tool_label := "Identify ACH process lock";
         tool_path := "/services/rest/system/v1/identifyACHProcessLock";
         tool_literal := [];
         tool_statements := [];
         tool_form := NoQuery |}
(** [positive_pay_download], lines 13902-13971 *)
| positive_pay_download (download_id checking_account file_stub
     start_check_date end_check_date : option string)
    (include_voided_checks : option bool) :
    relay_tool
      {| tool_label := "Positive pay download";
         tool_path := "/services/rest/system/v1/positivePayDownload";
         tool_literal := [];
         tool_statements := [IfTruthy "downloadId" download_id;
             IfTruthy "checkingAccount" checking_account;
             IfTruthy "fileStub" file_stub;
             IfTruthy "startCheckDate" start_check_date;
             IfTruthy "endCheckDate" end_check_date;
             IfNotNoneLower "includeVoidedChecks" include_voided_checks];
         tool_form := Query false |}
(** [recreate_positive_pay], lines 13976-14029 *)
| recreate_positive_pay (download_id file_name : option string) :
    relay_tool
      {| tool_label := "Recreate positive pay";
         tool_path := "/services/rest/system/v1/recreatePositivePay";
         tool_literal := [];
         tool_statements := [IfTruthy "downloadId" download_id;
             IfTruthy "fileName" file_name];
         tool_form := Query false |}
(** [stream_ach_data], lines 14032-14083 *)
| stream_ach_data (ach_batch_id ach_file_name : string) :
    relay_tool
      {| tool_label := "Stream ACH data";
         tool_path := "/services/rest/system/v1/streamACHData";
         tool_literal := [("achBatchId", QStr ach_batch_id);
             ("achFileName", QStr ach_file_name)];
         tool_statements := [];
         tool_form := Query false |}
(** [get_suta_information], lines 14086-14137 *)
| get_suta_information (client_id employee_id : string) :
    relay_tool
      {| tool_label := "Get SUTA information";
         tool_path := "/services/rest/taxRate/v1/getSutaInformation";
         tool_literal := [("clientId", QStr client_id);
             ("employeeId", QStr employee_id)];
         tool_statements := [];
         tool_form := Query false |}
(** [get_tax_authorities], lines 14140-14193 *)
| get_tax_authorities (state_code authority_id : option string) :
    relay_tool
      {| tool_label := "Get tax authorities";
         tool_path := "/services/rest/taxRate/v1/getTaxAuthorities";
         tool_literal := [];
         tool_statements := [IfTruthy "stateCode" state_code;
             IfTruthy "authorityId" authority_id];
         tool_form := Query false |}
(** [get_tax_rate], lines 14196-14258 *)
| get_tax_rate (workers_comp_policy_id workers_comp_class employer_id
     effective_date : string) (client_id : option string) :
    relay_tool
      {| tool_label := "Get tax rate";
         tool_path := "/services/rest/taxRate/v1/getTaxRate";
         tool_literal := [("workersCompPolicyId", QStr workers_comp_policy_id);
             ("workersCompClass", QStr workers_comp_class);
             ("employerId", QStr employer_id);
             ("effectiveDate", QStr effective_date)];
         tool_statements := [IfTruthy "clientId" client_id];
         tool_form := Query false |}
(** [get_state_w4_params], lines 14263-14311 *)
| get_state_w4_params (state_code : string) :
    relay_tool
      {| tool_label := "Get state W4 params";
         tool_path := "/services/rest/taxRate/v1/getStateW4Params";
         tool_literal := [("stateCode", QStr state_code)];
         tool_statements := [];
         tool_form := Query false |}
(** [get_workers_comp_classes], lines 14314-14362 *)
| get_workers_comp_classes (state_code : string) :
    relay_tool
      {| tool_label := "Get workers comp classes";
         tool_path := "/services/rest/taxRate/v1/getWorkersCompClasses";
         tool_literal := [("stateCode", QStr state_code)];
         tool_statements := [];
         tool_form := Query false |}
(** [get_workers_comp_policy_details], lines 14365-14413 *)
| get_workers_comp_policy_details (policy_id : string) :
    relay_tool
      {| tool_label := "Get workers comp policy details";
         tool_path := "/services/rest/taxRate/v1/getWorkersCompPolicyDetails";
         tool_literal := [("policyId", QStr policy_id)];
         tool_statements := [];
         tool_form := Query false |}
(** [get_workers_comp_policy_list], lines 14416-14465 *)
| get_workers_comp_policy_list (effective_date : option string) :
    relay_tool
      {| tool_label := "Get workers comp policy list";
         tool_path := "/services/rest/taxRate/v1/getWorkersCompPolicyList";
         tool_literal := [];
         tool_statements := [IfTruthy "effectiveDate" effective_date];
         tool_form := Query false |}
(** [get_timesheet_batch_status], lines 14468-14519 *)
| get_timesheet_batch_status (client_id batch_id : string) :
    relay_tool
      {| tool_label := "Get timesheet batch status";
         tool_path := "/services/rest/timesheet/v1/getBatchStatus";
         tool_literal := [("clientId", QStr client_id);
             ("batchId", QStr batch_id)];
         tool_statements := [];
         tool_form := Query false |}
(** [get_timesheet_param_data], lines 14524-14577 *)
| get_timesheet_param_data (client_id : string) (user_id : option string) :
    relay_tool
      {| tool_label := "Get timesheet param data";
         tool_path := "/services/rest/timesheet/v1/getParamData";
         tool_literal := [("clientId", QStr client_id)];
         tool_statements := [IfTruthy "userId" user_id];
         tool_form := Query false |}
(** [get_pay_import_definition], lines 14580-14628 *)
| get_pay_import_definition (definition_id : string) :
    relay_tool
      {| tool_label := "Get pay import definition";
         tool_path := "/services/rest/timesheet/v1/getPayImportDefinition";
         tool_literal := [("definitionId", QStr definition_id)];
         tool_statements := [];
         tool_form := Query false |}
(** [get_timesheet_data], lines 14631-14682 *)
| get_timesheet_data (client_id batch_id : string) :
    relay_tool
      {| tool_label := "Get timesheet data";
         tool_path := "/services/rest/timesheet/v1/getTimeSheetData";
         tool_literal := [("clientId", QStr client_id);
             ("batchId", QStr batch_id)];
         tool_statements := [];
         tool_form := Query false |}.

End Table.

(** ** Reading a query string

    The [key=value] pairs of a query string, as the upstream receives
    them (still percent-encoded): the string is cut at every [&] and each
    piece at its first [=]. *)

Fixpoint split_on (sep : ascii) (s : string) : list string :=
  match s with
  | EmptyString => [""]
  | String c s' =>
      if Ascii.eqb c sep then "" :: split_on sep s'
      else match split_on sep s' with
           | [] => [String c ""]
           | x :: xs => String c x :: xs
           end
  end.

Fixpoint split_first (sep : ascii) (s : string) : string * string :=
  match s with
  | EmptyString => ("", "")
  | String c s' =>
      if Ascii.eqb c sep then ("", s')
      else let (k, v) := split_first sep s' in (String c k, v)
  end.

Definition query_pairs (query_string : string) : list (string * string) :=
  if String.eqb query_string "" then []
  else map (split_first "=") (split_on "&" query_string).

(** How often [key] is a key of the query. *)
Definition count_key (key : string) (pairs : list (string * string)) : nat :=
  length (List.filter (fun kv => String.eqb (fst kv) key) pairs).

Fixpoint occurs (c : ascii) (s : string) : bool :=
  match s with
  | EmptyString => false
  | String c' s' => Ascii.eqb c' c || occurs c s'
  end.

(** The text of one pair in a query string. *)
Definition piece (kv : string * string) : string := fst kv +:+ "=" +:+ snd kv.

(** A pair is clean when cutting at [&] and [=] gives it back. *)
Definition clean (kv : string * string) : Prop :=
  occurs "=" (fst kv) = false /\ occurs "&" (fst kv) = false
  /\ occurs "&" (snd kv) = false.

(** The pairs that [urlencode] writes for one item of the query, and for
    the whole query. *)
Definition encoded_item {P : Platform} (doseq : bool) (kv : string * qval)
  : list (string * string) :=
  let k := quote_plus (fst kv) in
  let v := snd kv in
  if doseq then
    match v with
    | QStr s => [(k, quote_plus s)]
    | QList elts => map (fun elt => (k, quote_plus elt)) elts
    | _ => [(k, quote_plus (py_str v))]
    end
  else [(k, quote_plus (py_str v))].

Definition encoded_pairs {P : Platform} (doseq : bool)
    (query : list (string * qval)) : list (string * string) :=
  concat (map (encoded_item doseq) query).

(** The pair of an optional string parameter in the query: none when the
    parameter is omitted or empty. *)
Definition optional_pair (key : string) (v : option string)
  : list (string * string) :=
  match v with
  | None => []
  | Some s => if String.eqb s "" then [] else [(key, quote_plus s)]
  end.

(** The pair of an optional boolean parameter in the query. *)
Definition boolean_pair (key : string) (b : option bool)
  : list (string * string) :=
  match b with
  | None => []
  | Some true => [(key, "true")]
  | Some false => [(key, "false")]
  end.

(** The pairs of a list parameter that [urlencode] repeats under one key. *)
Definition repeated_pairs (key : string) (xs : option (list string))
  : list (string * string) :=
  match xs with
  | Some l => map (fun x => (key, quote_plus x)) l
  | None => []
  end.

(** The pair that is left of a list parameter when every element is stored
    under the same key: the last element, or nothing for no element. *)
Definition last_pair (key : string) (xs : list string)
  : list (string * string) :=
  match xs with
  | [] => []
  | x :: l => [(key, quote_plus (List.last l x))]
  end.

(** The pairs of a list parameter whose keys are numbered. *)
Definition indexed_pairs (key : string) (xs : option (list string))
  : list (string * string) :=
  match xs with
  | Some l =>
      imap (fun n x => (quote_plus (indexed_key key n), quote_plus x)) l
  | None => []
  end.

(** The pair of an optional boolean parameter that is stored as it is:
    [urlencode] writes Python's text of the boolean. *)
Definition python_boolean_pair (key : string) (b : option bool)
  : list (string * string) :=
  match b with
  | None => []
  | Some true => [(key, "True")]
  | Some false => [(key, "False")]
  end.

(** The pair of a list parameter that is handed to [urlencode] without
    [doseq]: Python's text of the whole list. *)
Definition list_text_pair {P : Platform} (key : string)
    (xs : option (list string)) : list (string * string) :=
  match xs with
  | Some (x :: l) =>
      [(key, quote_plus ("[" +:+ join ", " (map py_repr (x :: l)) +:+ "]"))]
  | _ => []
  end.

(** The part of a key before its first bracket. *)
Definition key_stem (k : string) : string := fst (split_first "[" k).

(** The keys of [d] have their stems among [names]. *)
Definition stems_in (names : list string) (d : list (string * qval)) : Prop :=
  List.Forall (fun kv => In (key_stem (fst kv)) names) d.

(** What [if v: params[key] = v] adds to a dictionary without [key]. *)
Definition optional_item (key : string) (v : option string)
  : list (string * qval) :=
  if opt_truthy v then [(key, of_opt v)] else [].

(** ** The keys of a tool

    What the statements of a tool add to [params], read off their keys. *)

Definition statement_key (st : statement) : string :=
  match st with
  | IfTruthy key _ | IfTruthyList key _ | IfNotNoneLower key _
  | IfNotNone key _ | IfTruthyEnumerate key _ | Enumerate key _
  | IfTruthyEach key _ | Each key _ => key
  end.

(** The keys written in the source of the tool. *)
Definition tool_keys (t : tool) : list string :=
  map fst (tool_literal t) ++ map statement_key (tool_statements t).

(** A text that [quote_plus] leaves as it is. *)
Fixpoint unreserved (s : string) : bool :=
  match s with
  | EmptyString => true
  | String c s' => is_unreserved c && unreserved s'
  end.

Fixpoint distinct (l : list string) : bool :=
  match l with
  | [] => true
  | x :: l' => negb (existsb (String.eqb x) l') && distinct l'
  end.

(** The keys of the tool are plain names, no two of them are equal, and a
    tool without a query has no [params]. *)
Definition well_formed (t : tool) : bool :=
  forallb unreserved (tool_keys t) && distinct (tool_keys t)
  && match tool_form t, tool_literal t, tool_statements t with
     | NoQuery, _ :: _, _ | NoQuery, _, _ :: _ => false
     | _, _, _ => true
     end.

(** The caller gave no argument for the parameter of the statement. *)
Definition omitted (st : statement) : bool :=
  match st with
  | IfTruthy _ None | IfTruthyList _ None | IfNotNoneLower _ None
  | IfNotNone _ None | IfTruthyEnumerate _ None | IfTruthyEach _ None => true
  | _ => false
  end.

(** The items that a statement appends to a dictionary that has none of
    its keys. *)
Definition added (st : statement) : list (string * qval) :=
  match st with
  | IfTruthy key v => optional_item key v
  | IfTruthyList key xs =>
      match xs with
      | Some (x :: l) => [(key, QList (x :: l))]
      | _ => []
      end
  | IfNotNoneLower key b =>
      match b with
      | Some b => [(key, QStr (if b then "true" else "false"))]
      | None => []
      end
  | IfNotNone key b =>
      match b with
      | Some b => [(key, QBool b)]
      | None => []
      end
  | IfTruthyEnumerate key xs =>
      imap (fun n x => (indexed_key key n, QStr x)) (default [] xs)
  | Enumerate key xs => imap (fun n x => (indexed_key key n, QStr x)) xs
  | IfTruthyEach key xs =>
      match xs with
      | Some (x :: l) => [(key, QStr (List.last l x))]
      | _ => []
      end
  | Each key xs =>
      match xs with
      | x :: l => [(key, QStr (List.last l x))]
      | [] => []
      end
  end.

(** The pairs of a query, or the items of a dictionary, under [key]. *)
Definition at_key {A : Type} (key : string) (pairs : list (string * A))
  : list (string * A) :=
  List.filter (fun kv => String.eqb (fst kv) key) pairs.

(** The pair of the element [n] of a list parameter whose keys are
    numbered. *)
Definition indexed_pair (key : string) (xs : list string) (n : nat)
  : list (string * string) :=
  match xs !! n with
  | Some x => [(quote_plus (indexed_key key n), quote_plus x)]
  | None => []
  end.

(** The value of a hexadecimal digit. *)
Definition hex_value (c : ascii) : nat :=
  let n := nat_of_ascii c in
  if Nat.leb 48 n && Nat.leb n 57 then n - 48
  else if Nat.leb 65 n && Nat.leb n 70 then n - 55
  else 0.

(** A decoder of what [quote_plus] writes, the way [unquote_plus] reads
    it: with it a reader of the query gets back the encoded text. *)
Fixpoint decoded (s : string) : string :=
  match s with
  | EmptyString => ""
  | String c s' =>
      if Ascii.eqb c "+" then String " " (decoded s')
      else if Ascii.eqb c "%" then
        match s' with
        | String a (String b s'') =>
            String (ascii_of_nat (16 * hex_value a + hex_value b))
              (decoded s'')
        | _ => String c (decoded s')
        end
      else String c (decoded s')
  end.

(** The endpoint requests among the requests sent: the authentication is
    the only request with a body. *)
Definition endpoint_requests (sent : list request) : list request :=
  List.filter (fun r => match data r with None => true | Some _ => false end) sent.

(** ** The names used in the statements *)

Section Names.

Context {P : Platform}.

(** The credentials and the base URL that a tool reads from [environ]. *)
Definition username_of (environ : gmap string string) : option string :=
  environ !! "PRISMHR_USERNAME".
Definition password_of (environ : gmap string string) : option string :=
  environ !! "PRISMHR_PASSWORD".
Definition peo_id_of (environ : gmap string string) : option string :=
  environ !! "PRISMHR_PEO_ID".
Definition base_url_of (environ : gmap string string) : string :=
  default default_base_url (environ !! "PRISMHR_BASE_URL").

(** [all([username, password, peo_id])] *)
Definition credentials_present (environ : gmap string string) : bool :=
  forallb opt_truthy [username_of environ; password_of environ; peo_id_of environ].

(** The authentication call of a tool that runs under [environ]. *)
Definition authenticate (environ : gmap string string) : M pyval :=
  authenticate_prismhr (username_of environ) (password_of environ)
    (peo_id_of environ) (base_url_of environ).

(** The [POST] that [authenticate_prismhr] sends. *)
Definition auth_request (username password peo_id : option string)
    (base_url : string) : request :=
  mkRequest (auth_url base_url) (Some (auth_data username password peo_id))
    auth_headers.

Definition auth_request_of (environ : gmap string string) : request :=
  auth_request (username_of environ) (password_of environ)
    (peo_id_of environ) (base_url_of environ).

(** The [GET] that a relay tool sends to [url] with the token
    [session_id]. *)
Definition endpoint_request (url : string) (session_id : pyval) : request :=
  mkRequest url None
    [("sessionId", session_id); ("Accept", PyStr "application/json")].

(** What the [except] clause of the tool [label] does with [e]. *)
Definition caught (label : string) (e : exn) (s : state) : outcome pyval * state :=
  (Value (error_dict (label +:+ " failed: " +:+ exn_str e)),
   mkState (net s) (trace s)
     (log s ++ [LogError (label +:+ " failed: " +:+ exn_str e)])).

Definition credential_variables : list string :=
  ["PRISMHR_USERNAME"; "PRISMHR_PASSWORD"; "PRISMHR_PEO_ID"].

End Names.

(** ** A scripted upstream

    A platform for running the tools on concrete inputs: the upstream is a
    script of answers, one per call of [urlopen], and [json.loads] knows
    the bodies that the scripts use. *)

Module Stub.

Definition dq : string := String (ascii_of_nat 34) "".

Definition quoted (s : string) : string := dq +:+ s +:+ dq.

(** [{"errorCode": "0", "sessionId": "abc123"}] *)
Definition body_session : string :=
  "{" +:+ quoted "errorCode" +:+ ": " +:+ quoted "0" +:+ ", " +:+
  quoted "sessionId" +:+ ": " +:+ quoted "abc123" +:+ "}".

(** [{"errorCode": "0"}] *)
Definition body_no_session : string :=
  "{" +:+ quoted "errorCode" +:+ ": " +:+ quoted "0" +:+ "}".

(** [{"errorCode": "0", "sessionId": ""}] *)
Definition body_empty_session : string :=
  "{" +:+ quoted "errorCode" +:+ ": " +:+ quoted "0" +:+ ", " +:+
  quoted "sessionId" +:+ ": " +:+ quoted "" +:+ "}".

(** [{"errorCode": "1", "errorMessage": "bad password"}] *)
Definition body_bad_password : string :=
  "{" +:+ quoted "errorCode" +:+ ": " +:+ quoted "1" +:+ ", " +:+
  quoted "errorMessage" +:+ ": " +:+ quoted "bad password" +:+ "}".

(** [{"employees": []}] *)
Definition body_employees : string :=
  "{" +:+ quoted "employees" +:+ ": []}".

(** [{"errorCode": "1", "errorMessage": "Invalid client"}] *)
Definition body_invalid_client : string :=
  "{" +:+ quoted "errorCode" +:+ ": " +:+ quoted "1" +:+ ", " +:+
  quoted "errorMessage" +:+ ": " +:+ quoted "Invalid client" +:+ "}".

Definition table : list (string * pyval) :=
  [(body_session,
    PyDict [("errorCode", PyStr "0"); ("sessionId", PyStr "abc123")]);
   (body_no_session, PyDict [("errorCode", PyStr "0")]);
   (body_empty_session,
    PyDict [("errorCode", PyStr "0"); ("sessionId", PyStr "")]);
   (body_bad_password,
    PyDict [("errorCode", PyStr "1"); ("errorMessage", PyStr "bad password")]);
   (body_employees, PyDict [("employees", PyList [])]);
   (body_invalid_client,
    PyDict [("errorCode", PyStr "1"); ("errorMessage", PyStr "Invalid client")])].

Definition parse (body : string) : string + pyval :=
  match assoc body table with
  | Some v => inr v
  | None => inl "Expecting value: line 1 column 1 (char 0)"
  end.

(** [repr] of a string of plain letters and digits. *)
Definition repr_plain (s : string) : string := "'" +:+ s +:+ "'".

(** A URL has a scheme when a [:] comes before any [/] and not first. *)
Fixpoint has_scheme_from (seen : bool) (url : string) : bool :=
  match url with
  | EmptyString => false
  | String c url' =>
      if Ascii.eqb c ":" then seen
      else if Ascii.eqb c "/" then false
      else has_scheme_from true url'
  end.

Definition rejects (url : string) : option string :=
  if has_scheme_from false url then None
  else Some ("unknown url type: " +:+ repr_plain url).

(** Each call takes the next answer of the script; when the script is
    over the connection is refused. *)
Definition answer (req : request) (script : list (outcome string))
  : outcome string * list (outcome string) :=
  match script with
  | [] => (Raised (Exn URLError "<urlopen error [Errno 111] Connection refused>"), [])
  | answer :: script' => (answer, script')
  end.

Definition platform : Platform := {|
  py_repr := repr_plain;
  Request_rejects := rejects;
  World := list (outcome string);
  urlopen_read := answer;
  json_loads := parse
|}.

(** All three credentials and no [PRISMHR_BASE_URL]. *)
Definition environ : gmap string string :=
  <["PRISMHR_USERNAME" := "apiuser"]>
    (<["PRISMHR_PASSWORD" := "secret"]>
      (<["PRISMHR_PEO_ID" := "624"]> ∅)).

(** The authentication request under [environ]. *)
Definition login : request :=
  mkRequest
    "https://salesdemoapi.prismhr.com/prismhr-api/services/rest/login/v1/createPeoSession"
    (Some "username=apiuser&password=secret&peoId=624")
    [("Content-Type", PyStr "application/x-www-form-urlencoded");
     ("Accept", PyStr "application/json")].

(** The endpoint request to [url] with the token of [body_session]. *)
Definition get (url : string) : request :=
  mkRequest url None
    [("sessionId", PyStr "abc123"); ("Accept", PyStr "application/json")].

End Stub.

(** * Properties *)

(** ** Query strings *)

Lemma occurs_app c a b : occurs c (a +:+ b) = occurs c a || occurs c b.
Proof.
  induction a as [|x a IH]; simpl; [reflexivity|].
  rewrite IH. apply orb_assoc.
Qed.

Lemma quote_plus_byte_amp c : occurs "&" (quote_plus_byte c) = false.
Proof. destruct c as [[] [] [] [] [] [] [] []]; reflexivity. Qed.

Lemma quote_plus_byte_equals c : occurs "=" (quote_plus_byte c) = false.
Proof. destruct c as [[] [] [] [] [] [] [] []]; reflexivity. Qed.

Lemma quote_plus_amp s : occurs "&" (quote_plus s) = false.
Proof.
  induction s as [|c s IH]; simpl; [reflexivity|].
  rewrite occurs_app, IH, quote_plus_byte_amp. reflexivity.
Qed.

Lemma quote_plus_equals s : occurs "=" (quote_plus s) = false.
Proof.
  induction s as [|c s IH]; simpl; [reflexivity|].
  rewrite occurs_app, IH, quote_plus_byte_equals. reflexivity.
Qed.

Lemma split_on_absent sep s : occurs sep s = false -> split_on sep s = [s].
Proof.
  induction s as [|c s IH]; simpl; [reflexivity|].
  intros H. apply orb_false_iff in H as [Hc Hs].
  rewrite Hc, (IH Hs). reflexivity.
Qed.

Lemma split_on_cut sep a b :
  occurs sep a = false ->
  split_on sep (a +:+ String sep b) = a :: split_on sep b.
Proof.
  induction a as [|c a IH]; simpl.
  - intros _. rewrite Ascii.eqb_refl. reflexivity.
  - intros H. apply orb_false_iff in H as [Hc Ha].
    rewrite Hc, (IH Ha). reflexivity.
Qed.

Lemma split_on_join sep x l :
  Forall (fun y => occurs sep y = false) (x :: l) ->
  split_on sep (join (String sep "") (x :: l)) = x :: l.
Proof.
  revert x. induction l as [|y l IH]; intros x H.
  - apply split_on_absent. now inversion H.
  - inversion H as [|? ? Hx Hl]; subst.
    change (join (String sep "") (x :: y :: l))
      with (x +:+ String sep (join (String sep "") (y :: l))).
    rewrite (split_on_cut _ _ _ Hx), (IH _ Hl). reflexivity.
Qed.

Lemma split_first_cut k v :
  occurs "=" k = false -> split_first "=" (k +:+ "=" +:+ v) = (k, v).
Proof.
  induction k as [|c k IH]; simpl; [reflexivity|].
  intros H. apply orb_false_iff in H as [Hc Hk].
  rewrite Hc, (IH Hk). reflexivity.
Qed.

Lemma piece_amp kv : clean kv -> occurs "&" (piece kv) = false.
Proof.
  intros (_ & Hk & Hv). unfold piece.
  rewrite !occurs_app, Hk, Hv. reflexivity.
Qed.

Lemma join_pieces_nonempty sep kv kvs :
  join sep (map piece (kv :: kvs)) <> "".
Proof.
  destruct kv as [k v]. unfold piece.
  destruct kvs as [|kv' kvs]; destruct k; simpl; discriminate.
Qed.

Lemma query_pairs_join kvs :
  Forall clean kvs -> query_pairs (join "&" (map piece kvs)) = kvs.
Proof.
  intros H. destruct kvs as [|kv kvs]; [reflexivity|].
  unfold query_pairs.
  destruct (String.eqb_spec (join "&" (map piece (kv :: kvs))) "") as [E|_].
  { now apply join_pieces_nonempty in E. }
  change (map piece (kv :: kvs)) with (piece kv :: map piece kvs).
  rewrite split_on_join.
  - change (piece kv :: map piece kvs) with (map piece (kv :: kvs)).
    rewrite map_map. rewrite <- (map_id (kv :: kvs)) at 2.
    apply List.map_ext_Forall. eapply List.Forall_impl; [|exact H].
    intros [k v] (Hk & _). unfold piece. simpl. now apply split_first_cut.
  - change (piece kv :: map piece kvs) with (map piece (kv :: kvs)).
    apply List.Forall_map. eapply List.Forall_impl; [|exact H].
    intros a Ha. now apply piece_amp.
Qed.

Section Queries.

Context {P : Platform}.

Lemma encoded_item_clean doseq kv : Forall clean (encoded_item doseq kv).
Proof.
  assert (C : forall k v, clean (quote_plus k, quote_plus v)).
  { intros k v. repeat split; simpl;
      auto using quote_plus_amp, quote_plus_equals. }
  destruct kv as [k v]. unfold encoded_item. simpl.
  destruct doseq; [destruct v|]; repeat constructor; try apply C.
  apply List.Forall_map. apply List.Forall_forall. intros; apply C.
Qed.

Lemma encoded_pairs_clean doseq query : Forall clean (encoded_pairs doseq query).
Proof.
  unfold encoded_pairs. induction query as [|kv q IH]; simpl.
  - constructor.
  - apply List.Forall_app. split; [apply encoded_item_clean | exact IH].
Qed.

Lemma urlencode_item_pieces doseq kv :
  urlencode_item doseq kv = map piece (encoded_item doseq kv).
Proof.
  destruct kv as [k v]. unfold urlencode_item, encoded_item. simpl.
  destruct doseq; [destruct v|]; try reflexivity.
  rewrite map_map. reflexivity.
Qed.

Lemma urlencode_pieces_pairs doseq query :
  urlencode_pieces doseq query = map piece (encoded_pairs doseq query).
Proof.
  unfold urlencode_pieces, encoded_pairs.
  induction query as [|kv q IH]; simpl; [reflexivity|].
  rewrite map_app, IH, urlencode_item_pieces. reflexivity.
Qed.

(** Cutting the output of [urlencode] at [&] and [=] gives back exactly
    the pairs it encoded. *)
Lemma query_pairs_urlencode doseq query :
  query_pairs (urlencode doseq query) = encoded_pairs doseq query.
Proof.
  unfold urlencode. rewrite urlencode_pieces_pairs.
  apply query_pairs_join, encoded_pairs_clean.
Qed.

End Queries.

(** ** The authenticator *)

Section Authenticator.

Context {P : Platform}.

(** A rejected URL: the [ValueError] of [Request] leaves the function,
    and nothing is sent. *)
Lemma authenticate_rejected u p i base s msg :
  Request_rejects (auth_url base) = Some msg ->
  authenticate_prismhr u p i base s = (Raised (Exn ValueError msg), s).
Proof.
  intros H. unfold authenticate_prismhr, bind, Request. rewrite H. reflexivity.
Qed.

(** Every run of the authenticator from an accepted URL. *)
Lemma authenticate_accepted u p i base s :
  Request_rejects (auth_url base) = None ->
  authenticate_prismhr u p i base s =
  let req := auth_request u p i base in
  let sent := trace s ++ [req] in
  match urlopen_read req (net s) with
  | (Raised e, w) =>
      if isinstance_Exception e then
        (Value PyNone,
         mkState w sent
           (log s ++ [LogError ("Authentication failed: " +:+ exn_str e)]))
      else (Raised e, mkState w sent (log s))
  | (Value body, w) =>
      match json_loads body with
      | inl msg =>
          (Value PyNone,
           mkState w sent (log s ++ [LogError ("Authentication failed: " +:+ msg)]))
      | inr (PyDict d) =>
          if eq_str (default PyNone (assoc "errorCode" d)) "0" then
            (Value (default PyNone (assoc "sessionId" d)), mkState w sent (log s))
          else
            (Value PyNone,
             mkState w sent
               (log s ++ [LogErrorValue "Authentication failed: "
                            (default (PyStr "Unknown error")
                               (assoc "errorMessage" d))]))
      | inr v =>
          (Value PyNone,
           mkState w sent
             (log s ++ [LogError ("Authentication failed: '" +:+ type_name v
                                  +:+ "' object has no attribute 'get'")]))
      end
  end.
Proof.
  intros H.
  unfold authenticate_prismhr, bind, Request. rewrite H.
  unfold ret at 1. unfold try_except, bind, urlopen, auth_request. simpl.
  destruct (urlopen_read _ (net s)) as [[e|body] w]; simpl.
  - destruct (isinstance_Exception e); reflexivity.
  - unfold loads. destruct (json_loads body) as [msg|v]; simpl; [reflexivity|].
    destruct v; simpl; try reflexivity.
    destruct (eq_str _ "0"); reflexivity.
Qed.

(** A run that returns has sent exactly the authentication request. *)
Lemma authenticate_value u p i base s tok s1 :
  authenticate_prismhr u p i base s = (Value tok, s1) ->
  trace s1 = trace s ++ [auth_request u p i base].
Proof.
  destruct (Request_rejects (auth_url base)) as [msg|] eqn:R.
  - rewrite (authenticate_rejected _ _ _ _ _ _ R). discriminate.
  - rewrite (authenticate_accepted _ _ _ _ _ R). simpl.
    destruct (urlopen_read _ (net s)) as [[e|body] w].
    + destruct (isinstance_Exception e); intros [= <- <-]; reflexivity.
    + destruct (json_loads body) as [msg|v]; [intros [= <- <-]; reflexivity|].
      destruct v; try (intros [= <- <-]; reflexivity).
      destruct (eq_str _ "0"); intros [= <- <-]; reflexivity.
Qed.

(** Only what [except Exception] does not catch leaves the [try]. *)
Lemma authenticate_raised u p i base s e s1 :
  authenticate_prismhr u p i base s = (Raised e, s1) ->
  (exists msg, Request_rejects (auth_url base) = Some msg
               /\ e = Exn ValueError msg /\ s1 = s)
  \/ (isinstance_Exception e = false
      /\ trace s1 = trace s ++ [auth_request u p i base]).
Proof.
  destruct (Request_rejects (auth_url base)) as [msg|] eqn:R.
  - rewrite (authenticate_rejected _ _ _ _ _ _ R). intros [= <- <-].
    left. exists msg. auto.
  - rewrite (authenticate_accepted _ _ _ _ _ R). simpl.
    destruct (urlopen_read _ (net s)) as [[e'|body] w].
    + destruct (isinstance_Exception e') eqn:E; intros [= <- <-]; auto.
    + destruct (json_loads body) as [msg|v]; [discriminate|].
      destruct v; try discriminate.
      destruct (eq_str _ "0"); discriminate.
Qed.

End Authenticator.

(** ** The relay *)

Section Relay.

Context {P : Platform}.

Variables (label : string) (endpoint : string -> string).

Lemma relay_missing environ s :
  credentials_present environ = false ->
  relay label endpoint environ s =
  (Value (error_dict "Missing PrismHR credentials"), s).
Proof.
  unfold credentials_present, username_of, password_of, peo_id_of.
  intros H. unfold relay, try_except. cbv zeta. rewrite H. reflexivity.
Qed.

(** Every run of a relay tool whose credentials are present. *)
Lemma relay_present environ s :
  credentials_present environ = true ->
  relay label endpoint environ s =
  match authenticate environ s with
  | (Raised e, s1) =>
      if isinstance_Exception e then caught label e s1 else (Raised e, s1)
  | (Value tok, s1) =>
      if truthy tok then
        match Request_rejects (endpoint (base_url_of environ)) with
        | Some msg => caught label (Exn ValueError msg) s1
        | None =>
            let req := endpoint_request (endpoint (base_url_of environ)) tok in
            let sent := trace s1 ++ [req] in
            match urlopen_read req (net s1) with
            | (Raised e, w) =>
                if isinstance_Exception e
                then caught label e (mkState w sent (log s1))
                else (Raised e, mkState w sent (log s1))
            | (Value body, w) =>
                match json_loads body with
                | inl msg =>
                    caught label (Exn ValueError msg) (mkState w sent (log s1))
                | inr v => (Value v, mkState w sent (log s1))
                end
            end
        end
      else (Value (error_dict "Authentication failed"), s1)
  end.
Proof.
  unfold credentials_present, authenticate, username_of, password_of,
    peo_id_of, base_url_of.
  intros H. unfold relay, try_except. cbv zeta. rewrite H. cbn [negb].
  unfold bind at 1.
  destruct (authenticate_prismhr _ _ _ _ s) as [[e|tok] s1]; [reflexivity|].
  destruct (truthy tok); simpl; [|reflexivity].
  unfold bind at 1. unfold Request.
  destruct (Request_rejects _) as [msg|]; [reflexivity|].
  unfold ret at 1. unfold bind at 1. unfold urlopen, endpoint_request. simpl.
  destruct (urlopen_read _ (net s1)) as [[e|body] w]; [reflexivity|].
  unfold bind, loads. destruct (json_loads body) as [msg|v]; reflexivity.
Qed.

End Relay.
(** ** The claims about authentication and credentials *)

Lemma eq_str_true v s : eq_str v s = true <-> v = PyStr s.
Proof.
  destruct v; simpl; try (split; [discriminate | intros [=]]).
  split.
  - intros H. apply String.eqb_eq in H. now subst.
  - intros [= ->]. apply String.eqb_refl.
Qed.

Lemma error_code_0 (d : list (string * pyval)) :
  eq_str (default PyNone (assoc "errorCode" d)) "0" = true
  <-> assoc "errorCode" d = Some (PyStr "0").
Proof.
  rewrite eq_str_true. destruct (assoc "errorCode" d) as [v|]; simpl.
  - split; [intros -> | intros [= ->]]; reflexivity.
  - split; discriminate.
Qed.

Section Claims.

Context {P : Platform}.

(** C1. Every call of the session authenticator that reaches the network:
    when the parsed response has the error code "0" the function returns
    the [sessionId] field of the response; for any other parsed response
    (an error code that is not "0"), for any exception of the network call
    (error or timeout) and for any body that does not parse it returns
    [None] and raises nothing. *)
Theorem authenticate_prismhr_token u p i base s :
  Request_rejects (auth_url base) = None ->
  (forall body w d,
      urlopen_read (auth_request u p i base) (net s) = (Value body, w) ->
      json_loads body = inr (PyDict d) ->
      assoc "errorCode" d = Some (PyStr "0") ->
      fst (authenticate_prismhr u p i base s)
      = Value (default PyNone (assoc "sessionId" d)))
  /\ (forall body w v,
        urlopen_read (auth_request u p i base) (net s) = (Value body, w) ->
        json_loads body = inr v ->
        (forall d, v = PyDict d -> assoc "errorCode" d <> Some (PyStr "0")) ->
        fst (authenticate_prismhr u p i base s) = Value PyNone)
  /\ (forall e w,
        urlopen_read (auth_request u p i base) (net s) = (Raised e, w) ->
        isinstance_Exception e = true ->
        fst (authenticate_prismhr u p i base s) = Value PyNone)
  /\ (forall body w msg,
        urlopen_read (auth_request u p i base) (net s) = (Value body, w) ->
        json_loads body = inl msg ->
        fst (authenticate_prismhr u p i base s) = Value PyNone).
Proof.
  intros R. rewrite (authenticate_accepted _ _ _ _ _ R). cbv zeta.
  repeat split.
  - intros body w d -> -> Hd. apply error_code_0 in Hd. now rewrite Hd.
  - intros body w v -> -> Hv. destruct v; try reflexivity.
    destruct (eq_str _ "0") eqn:E; [|reflexivity].
    apply error_code_0 in E. now destruct (Hv d eq_refl).
  - intros e w -> ->. reflexivity.
  - intros body w msg -> ->. reflexivity.
Qed.

(** C2. For every relay tool and every input: when the authenticator
    yields no token (a falsy value), the tool returns exactly
    [{"error": "Authentication failed"}], and the authentication request is
    the only request that was sent. *)
Theorem relay_authentication_failed label endpoint environ w tok s1 :
  credentials_present environ = true ->
  authenticate environ (mkState w [] []) = (Value tok, s1) ->
  truthy tok = false ->
  run (relay label endpoint environ) w
  = (Value (error_dict "Authentication failed"), s1)
  /\ trace s1 = [auth_request_of environ]
  /\ endpoint_requests (trace s1) = [].
Proof.
  intros C A T. unfold run. rewrite (relay_present _ _ _ _ C), A, T.
  apply authenticate_value in A. simpl in A.
  split; [reflexivity|]. split; [exact A|]. rewrite A. reflexivity.
Qed.

(** C3. For every relay tool: when one of the three credentials is absent
    from the environment, the tool returns
    [{"error": "Missing PrismHR credentials"}]; no request is sent, the
    upstream is untouched and nothing is logged. *)
Theorem relay_missing_credentials label endpoint environ w :
  username_of environ = None \/ password_of environ = None
  \/ peo_id_of environ = None ->
  run (relay label endpoint environ) w
  = (Value (error_dict "Missing PrismHR credentials"), mkState w [] []).
Proof.
  intros H. apply relay_missing. unfold credentials_present. simpl.
  destruct H as [-> | [-> | ->]]; simpl;
    repeat (reflexivity || rewrite andb_false_r).
Qed.

(** C5. For every relay tool: when the authentication yields a token and
    the upstream answers the endpoint request with a body that parses to
    a JSON value of any shape, the tool returns that parsed value as it
    is, after the two requests. *)
Theorem relay_returns_parsed_body label endpoint environ w tok s1 body w2 v :
  credentials_present environ = true ->
  authenticate environ (mkState w [] []) = (Value tok, s1) ->
  truthy tok = true ->
  Request_rejects (endpoint (base_url_of environ)) = None ->
  urlopen_read (endpoint_request (endpoint (base_url_of environ)) tok) (net s1)
  = (Value body, w2) ->
  json_loads body = inr v ->
  run (relay label endpoint environ) w
  = (Value v,
     mkState w2
       [auth_request_of environ;
        endpoint_request (endpoint (base_url_of environ)) tok]
       (log s1)).
Proof.
  intros C A T R U J. unfold run.
  rewrite (relay_present _ _ _ _ C), A, T, R. cbv zeta. rewrite U, J.
  apply authenticate_value in A. rewrite A. reflexivity.
Qed.

(** C9. For every relay tool: an authentication response with the error
    code "0" that has no [sessionId] field, or an empty one, is an
    authentication failure: the authenticator returns [None] or the empty
    string, the tool returns [{"error": "Authentication failed"}], and the
    endpoint request is not sent. *)
Theorem relay_session_absent_or_empty label endpoint environ w body w1 d :
  credentials_present environ = true ->
  Request_rejects (auth_url (base_url_of environ)) = None ->
  urlopen_read (auth_request_of environ) w = (Value body, w1) ->
  json_loads body = inr (PyDict d) ->
  assoc "errorCode" d = Some (PyStr "0") ->
  assoc "sessionId" d = None \/ assoc "sessionId" d = Some (PyStr "") ->
  (fst (run (authenticate environ) w) = Value PyNone
   \/ fst (run (authenticate environ) w) = Value (PyStr ""))
  /\ run (relay label endpoint environ) w
     = (Value (error_dict "Authentication failed"),
        mkState w1 [auth_request_of environ] [])
  /\ endpoint_requests (trace (snd (run (relay label endpoint environ) w))) = [].
Proof.
  intros C R U J E S.
  assert (A : exists tok,
             authenticate environ (mkState w [] [])
             = (Value tok, mkState w1 [auth_request_of environ] [])
             /\ (tok = PyNone \/ tok = PyStr "")).
  { unfold authenticate. rewrite (authenticate_accepted _ _ _ _ _ R).
    cbv zeta. simpl net. unfold auth_request_of in U. rewrite U, J.
    apply error_code_0 in E. rewrite E.
    exists (default PyNone (assoc "sessionId" d)). split; [reflexivity|].
    destruct S as [-> | ->]; simpl; auto. }
  destruct A as (tok & A & T).
  assert (F : truthy tok = false) by (destruct T as [-> | ->]; reflexivity).
  unfold run. rewrite A, (relay_present _ _ _ _ C), A, F. simpl.
  repeat split; try reflexivity.
  destruct T as [-> | ->]; auto.
Qed.

(** C10. For every relay tool: a credential variable set to the empty
    string is treated as an unset one. The tool returns
    [{"error": "Missing PrismHR credentials"}] without any request, which
    is what it does when the variable is deleted; [test_connection] too
    answers the same in both cases. *)
Theorem relay_empty_credential label endpoint environ w k :
  In k credential_variables ->
  run (relay label endpoint (<[k := ""]> environ)) w
  = (Value (error_dict "Missing PrismHR credentials"), mkState w [] [])
  /\ run (relay label endpoint (<[k := ""]> environ)) w
     = run (relay label endpoint (delete k environ)) w
  /\ run (test_connection (<[k := ""]> environ)) w
     = run (test_connection (delete k environ)) w.
Proof.
  intros K.
  assert (E : credentials_present (<[k := ""]> environ) = false).
  { unfold credentials_present, username_of, password_of, peo_id_of.
    simpl in K. destruct K as [<- | [<- | [<- | []]]]; simpl;
      rewrite lookup_insert_eq; simpl;
      repeat (reflexivity || rewrite andb_false_r). }
  assert (D : credentials_present (delete k environ) = false).
  { unfold credentials_present, username_of, password_of, peo_id_of.
    simpl in K. destruct K as [<- | [<- | [<- | []]]]; simpl;
      rewrite lookup_delete_eq; simpl;
      repeat (reflexivity || rewrite andb_false_r). }
  unfold run. rewrite !relay_missing by assumption.
  repeat split.
  unfold test_connection, try_except. cbv zeta.
  unfold credentials_present, username_of, password_of, peo_id_of in E, D.
  rewrite E, D. simpl.
  assert (T : forall x, opt_truthy (<[k := ""]> environ !! x)
                        = opt_truthy (delete k environ !! x)).
  { intros x. destruct (decide (k = x)) as [<- | N].
    - rewrite lookup_insert_eq, lookup_delete_eq. reflexivity.
    - rewrite lookup_insert_ne, lookup_delete_ne by assumption. reflexivity. }
  rewrite !T. reflexivity.
Qed.

End Claims.
(** ** The requests a relay tool sends *)

Section Requests.

Context {P : Platform}.

(** A relay tool sends nothing, or the authentication alone, or the
    authentication and then its endpoint request. *)
Lemma relay_trace label endpoint environ w :
  let sent := trace (snd (run (relay label endpoint environ) w)) in
  sent = [] \/ sent = [auth_request_of environ]
  \/ exists tok,
      sent = [auth_request_of environ;
              endpoint_request (endpoint (base_url_of environ)) tok].
Proof.
  cbv zeta. unfold run.
  destruct (credentials_present environ) eqn:C.
  2:{ rewrite (relay_missing _ _ _ _ C). left. reflexivity. }
  rewrite (relay_present _ _ _ _ C).
  destruct (authenticate environ (mkState w [] [])) as [[e|tok] s1] eqn:A.
  - apply authenticate_raised in A as [(msg & _ & -> & ->) | [E T]].
    + left. reflexivity.
    + rewrite E. right. left. exact T.
  - apply authenticate_value in A. simpl in A.
    destruct (truthy tok); [|right; left; exact A].
    destruct (Request_rejects _); [right; left; exact A|].
    cbv zeta. right. right. exists tok. rewrite A.
    destruct (urlopen_read _ (net s1)) as [[e|body] w2].
    + destruct (isinstance_Exception e); reflexivity.
    + destruct (json_loads body); reflexivity.
Qed.

(** The endpoint request of a relay tool goes to the URL the tool built. *)
Lemma relay_endpoint_request label endpoint environ w r :
  In r (endpoint_requests (trace (snd (run (relay label endpoint environ) w)))) ->
  full_url r = endpoint (base_url_of environ).
Proof.
  destruct (relay_trace label endpoint environ w) as [-> | [-> | [tok ->]]];
    simpl; intros H; try contradiction.
  destruct H as [<- | []]. reflexivity.
Qed.

End Requests.

(** ** The query strings of the tools *)

Lemma assoc_app {A} k (d e : list (string * A)) :
  assoc k (d ++ e) = match assoc k d with Some v => Some v | None => assoc k e end.
Proof.
  induction d as [|[k' v] d IH]; simpl; [reflexivity|].
  destruct (String.eqb k' k); [reflexivity | exact IH].
Qed.

Lemma dict_set_fresh {A} k (v : A) d :
  assoc k d = None -> dict_set k v d = d ++ [(k, v)].
Proof.
  induction d as [|[k' v'] d IH]; simpl; [reflexivity|].
  destruct (String.eqb k' k); [discriminate|].
  intros H. now rewrite (IH H).
Qed.

Lemma append_last_inj a b c : a +:+ String c "" = b +:+ String c "" -> a = b.
Proof.
  revert b. induction a as [|x a IH]; intros [|y b]; simpl; intros H.
  - reflexivity.
  - injection H as _ H. destruct b; discriminate.
  - injection H as _ H. destruct a; discriminate.
  - injection H as -> H. now rewrite (IH _ H).
Qed.

Lemma indexed_key_inj key i j : indexed_key key i = indexed_key key j -> i = j.
Proof.
  unfold indexed_key. intros H.
  apply String.app_inj in H. apply String.app_inj in H.
  apply append_last_inj in H. now apply pretty_nat_inj in H.
Qed.

Lemma set_indexed_fresh key xs : forall i d,
  (forall j, i <= j -> assoc (indexed_key key j) d = None) ->
  set_indexed key i xs d
  = d ++ imap (fun n x => (indexed_key key (i + n), QStr x)) xs.
Proof.
  induction xs as [|x xs IH]; intros i d H; simpl.
  - now rewrite app_nil_r.
  - rewrite (dict_set_fresh _ _ _ (H i (Nat.le_refl i))).
    rewrite IH.
    + rewrite <- app_assoc. simpl. rewrite Nat.add_0_r. do 2 f_equal.
      apply imap_ext. intros n y _. simpl. now rewrite Nat.add_succ_r.
    + intros j Hj. rewrite assoc_app, (H j) by lia. simpl.
      destruct (String.eqb_spec (indexed_key key i) (indexed_key key j)) as [E|_];
        [|reflexivity].
      apply indexed_key_inj in E. lia.
Qed.

Lemma count_key_app key a b :
  count_key key (a ++ b) = count_key key a + count_key key b.
Proof. unfold count_key. now rewrite List.filter_app, length_app. Qed.

Lemma count_key_same key (A : Type) (f : A -> string) (l : list A) :
  count_key key (map (fun x => (key, f x)) l) = length l.
Proof.
  unfold count_key. induction l as [|x l IH]; simpl; [reflexivity|].
  rewrite String.eqb_refl. simpl. now rewrite IH.
Qed.

Section ToolQueries.

Context {P : Platform}.

Lemma encoded_pairs_scalar query :
  encoded_pairs false query
  = map (fun kv => (quote_plus (fst kv), quote_plus (py_str (snd kv)))) query.
Proof.
  unfold encoded_pairs. induction query as [|kv q IH]; simpl; [reflexivity|].
  now rewrite IH.
Qed.

Lemma get_absence_journal_pairs client_id journal_id :
  encoded_pairs true (get_absence_journal_params client_id journal_id)
  = ("clientId", quote_plus client_id)
    :: map (fun j => ("journalId", quote_plus j)) journal_id.
Proof.
  unfold encoded_pairs, get_absence_journal_params. simpl.
  now rewrite app_nil_r.
Qed.

Lemma reprint_1099_params_eq client_id employee_id year :
  reprint_1099_params client_id employee_id year
  = [("clientId", QStr client_id); ("year", QStr year)]
    ++ imap (fun n x => (indexed_key "employeeId" n, QStr x)) employee_id.
Proof.
  unfold reprint_1099_params. rewrite set_indexed_fresh.
  - reflexivity.
  - intros j _. reflexivity.
Qed.

Lemma reprint_1099_pairs client_id employee_id year :
  encoded_pairs false (reprint_1099_params client_id employee_id year)
  = ("clientId", quote_plus client_id) :: ("year", quote_plus year)
    :: imap (fun n x => (quote_plus (indexed_key "employeeId" n), quote_plus x))
         employee_id.
Proof.
  rewrite encoded_pairs_scalar, reprint_1099_params_eq. simpl.
  do 2 f_equal.
  change (map ?f ?l) with (f <$> l). rewrite fmap_imap. reflexivity.
Qed.

Lemma get_employee_list_pairs client_id status_class type_class :
  encoded_pairs false (get_employee_list_params client_id status_class type_class)
  = ("clientId", quote_plus client_id)
    :: optional_pair "statusClass" status_class
    ++ optional_pair "typeClass" type_class.
Proof.
  rewrite encoded_pairs_scalar.
  unfold get_employee_list_params, set_if_truthy, optional_pair.
  destruct status_class as [[|a s]|], type_class as [[|b t]|]; reflexivity.
Qed.

Lemma get_retirement_plan_pairs client_id employee_id effective_date is_active :
  encoded_pairs false
    (get_retirement_plan_params client_id employee_id effective_date is_active)
  = ("clientId", quote_plus client_id) :: ("employeeId", quote_plus employee_id)
    :: optional_pair "effectiveDate" effective_date
    ++ boolean_pair "isActive" is_active.
Proof.
  rewrite encoded_pairs_scalar.
  unfold get_retirement_plan_params, set_if_truthy, set_if_not_None,
    optional_pair, boolean_pair.
  destruct effective_date as [[|a s]|], is_active as [[|]|]; reflexivity.
Qed.

(** The whole query of the four tools that the claims about the query
    string cite. *)
Lemma get_absence_journal_query client_id journal_id base_url :
  exists qs,
    get_absence_journal_url client_id journal_id base_url
    = (base_url +:+ "/services/rest/benefits/v1/getAbsenceJournal")
      +:+ "?" +:+ qs
    /\ query_pairs qs
       = ("clientId", quote_plus client_id)
         :: map (fun j => ("journalId", quote_plus j)) journal_id.
Proof.
  exists (urlencode true (get_absence_journal_params client_id journal_id)).
  split; [reflexivity|].
  now rewrite query_pairs_urlencode, get_absence_journal_pairs.
Qed.

Lemma reprint_1099_query client_id employee_id year base_url :
  exists qs,
    reprint_1099_url client_id employee_id year base_url
    = (base_url +:+ "/services/rest/employee/v1/reprint1099") +:+ "?" +:+ qs
    /\ query_pairs qs
       = ("clientId", quote_plus client_id) :: ("year", quote_plus year)
         :: imap (fun n x => (quote_plus (indexed_key "employeeId" n),
                              quote_plus x)) employee_id.
Proof.
  exists (urlencode false (reprint_1099_params client_id employee_id year)).
  split; [reflexivity|].
  now rewrite query_pairs_urlencode, reprint_1099_pairs.
Qed.

Lemma get_employee_list_query client_id status_class type_class base_url :
  exists qs,
    get_employee_list_url client_id status_class type_class base_url
    = (base_url +:+ "/services/rest/employee/v1/getEmployeeList")
      +:+ "?" +:+ qs
    /\ query_pairs qs
       = ("clientId", quote_plus client_id)
         :: optional_pair "statusClass" status_class
         ++ optional_pair "typeClass" type_class.
Proof.
  exists (urlencode false
            (get_employee_list_params client_id status_class type_class)).
  split; [reflexivity|].
  now rewrite query_pairs_urlencode, get_employee_list_pairs.
Qed.

Lemma get_retirement_plan_query client_id employee_id effective_date is_active
    base_url :
  exists qs,
    get_retirement_plan_url client_id employee_id effective_date is_active
      base_url
    = (base_url +:+ "/services/rest/benefits/v1/getRetirementPlan")
      +:+ "?" +:+ qs
    /\ query_pairs qs
       = ("clientId", quote_plus client_id)
         :: ("employeeId", quote_plus employee_id)
         :: optional_pair "effectiveDate" effective_date
         ++ boolean_pair "isActive" is_active.
Proof.
  exists (urlencode false
            (get_retirement_plan_params client_id employee_id effective_date
               is_active)).
  split; [reflexivity|].
  now rewrite query_pairs_urlencode, get_retirement_plan_pairs.
Qed.

End ToolQueries.

(** ** The claim about failures *)

Section RelayClaims.

Context {P : Platform}.

(** C4, as the code has it. For every relay tool and every input: an
    exception of class [Exception] never leaves the tool. When the
    authenticator raises one, when [Request] rejects the endpoint URL, when
    the endpoint call fails (HTTP error, timeout) or when the body does not
    parse, the tool returns [{"error": "<label> failed: <str(e)>"}]. A body
    that parses is returned as it is, also when it is an error payload of
    the upstream. *)
Theorem relay_converts_exceptions label endpoint environ w :
  (forall e, fst (run (relay label endpoint environ) w) = Raised e ->
             isinstance_Exception e = false)
  /\ (forall e s1,
        credentials_present environ = true ->
        authenticate environ (mkState w [] []) = (Raised e, s1) ->
        isinstance_Exception e = true ->
        fst (run (relay label endpoint environ) w)
        = Value (error_dict (label +:+ " failed: " +:+ exn_str e)))
  /\ (forall tok s1,
        credentials_present environ = true ->
        authenticate environ (mkState w [] []) = (Value tok, s1) ->
        truthy tok = true ->
        let url := endpoint (base_url_of environ) in
        (forall msg,
            Request_rejects url = Some msg ->
            fst (run (relay label endpoint environ) w)
            = Value (error_dict (label +:+ " failed: " +:+ msg)))
        /\ (forall e w2,
              Request_rejects url = None ->
              urlopen_read (endpoint_request url tok) (net s1) = (Raised e, w2) ->
              isinstance_Exception e = true ->
              fst (run (relay label endpoint environ) w)
              = Value (error_dict (label +:+ " failed: " +:+ exn_str e)))
        /\ (forall body w2 msg,
              Request_rejects url = None ->
              urlopen_read (endpoint_request url tok) (net s1) = (Value body, w2) ->
              json_loads body = inl msg ->
              fst (run (relay label endpoint environ) w)
              = Value (error_dict (label +:+ " failed: " +:+ msg)))
        /\ (forall body w2 v,
              Request_rejects url = None ->
              urlopen_read (endpoint_request url tok) (net s1) = (Value body, w2) ->
              json_loads body = inr v ->
              fst (run (relay label endpoint environ) w) = Value v)).
Proof.
  unfold run. split; [|split].
  - intros e. destruct (credentials_present environ) eqn:C.
    2:{ rewrite (relay_missing _ _ _ _ C). discriminate. }
    rewrite (relay_present _ _ _ _ C).
    destruct (authenticate environ _) as [[e'|tok] s1].
    + destruct (isinstance_Exception e') eqn:E; [discriminate|].
      now intros [= <-].
    + destruct (truthy tok); [|discriminate].
      destruct (Request_rejects _); [discriminate|]. cbv zeta.
      destruct (urlopen_read _ (net s1)) as [[e'|body] w2].
      * destruct (isinstance_Exception e') eqn:E; [discriminate|].
        now intros [= <-].
      * destruct (json_loads body); discriminate.
  - intros e s1 C A E. rewrite (relay_present _ _ _ _ C), A, E. reflexivity.
  - intros tok s1 C A T. cbv zeta.
    rewrite (relay_present _ _ _ _ C), A, T.
    repeat split.
    + intros msg ->. reflexivity.
    + intros e w2 -> U E. cbv zeta. rewrite U, E. reflexivity.
    + intros body w2 msg -> U J. cbv zeta. rewrite U, J. reflexivity.
    + intros body w2 v -> U J. cbv zeta. rewrite U, J. reflexivity.
Qed.

End RelayClaims.
(** ** More about the authenticator and the relay *)

Lemma app_one_neq {A} (l : list A) (x : A) : l ++ [x] <> l.
Proof.
  intros H. apply (f_equal (@length A)) in H.
  rewrite length_app in H. simpl in H. lia.
Qed.

Section MoreRelay.

Context {P : Platform}.

(** A relay tool sends at most two requests, and in this order: the
    authentication, and then one request to its endpoint, which carries in
    its [sessionId] header the token that the authenticator returned, a
    truthy one. *)
Theorem relay_sends_at_most_two label endpoint environ w :
  let sent := trace (snd (run (relay label endpoint environ) w)) in
  sent = []
  \/ sent = [auth_request_of environ]
  \/ exists tok s1,
      authenticate environ (mkState w [] []) = (Value tok, s1)
      /\ truthy tok = true
      /\ sent = [auth_request_of environ;
                 endpoint_request (endpoint (base_url_of environ)) tok].
Proof.
  cbv zeta. unfold run.
  destruct (credentials_present environ) eqn:C.
  2:{ rewrite (relay_missing _ _ _ _ C). left. reflexivity. }
  rewrite (relay_present _ _ _ _ C).
  destruct (authenticate environ (mkState w [] [])) as [[e|tok] s1] eqn:A.
  - apply authenticate_raised in A as [(msg & _ & -> & ->) | [E T]].
    + left. reflexivity.
    + rewrite E. right. left. exact T.
  - pose proof (authenticate_value _ _ _ _ _ _ _ A) as T. simpl in T.
    destruct (truthy tok) eqn:Tok; [|right; left; exact T].
    destruct (Request_rejects _); [right; left; exact T|].
    cbv zeta. right. right. exists tok, s1.
    split; [reflexivity|]. split; [exact Tok|]. rewrite T.
    destruct (urlopen_read _ (net s1)) as [[e|body] w2].
    + destruct (isinstance_Exception e); reflexivity.
    + destruct (json_loads body); reflexivity.
Qed.

(** No token is kept between calls: whatever was sent before, a call with
    credentials and an acceptable base URL starts with the authentication
    request. *)
Theorem relay_authenticates_on_every_call label endpoint environ s :
  credentials_present environ = true ->
  Request_rejects (auth_url (base_url_of environ)) = None ->
  exists rest,
    trace (snd (relay label endpoint environ s))
    = trace s ++ auth_request_of environ :: rest.
Proof.
  intros C R. rewrite (relay_present _ _ _ _ C).
  destruct (authenticate environ s) as [[e|tok] s1] eqn:A.
  - apply authenticate_raised in A as [(msg & R' & _) | [E T]].
    + congruence.
    + rewrite E. exists []. exact T.
  - apply authenticate_value in A.
    destruct (truthy tok); [|exists []; exact A].
    destruct (Request_rejects (endpoint _)); [exists []; exact A|].
    cbv zeta.
    exists [endpoint_request (endpoint (base_url_of environ)) tok].
    destruct (urlopen_read _ (net s1)) as [[e|body] w2].
    + destruct (isinstance_Exception e); simpl; rewrite A, <- app_assoc;
        reflexivity.
    + destruct (json_loads body); simpl; rewrite A, <- app_assoc; reflexivity.
Qed.

(** A base URL that [Request] rejects stops every relay tool before any
    request: the tool returns the URL error under its own label and logs
    it once. *)
Theorem relay_base_url_rejected label endpoint environ w msg :
  credentials_present environ = true ->
  Request_rejects (auth_url (base_url_of environ)) = Some msg ->
  run (relay label endpoint environ) w
  = (Value (error_dict (label +:+ " failed: " +:+ msg)),
     mkState w [] [LogError (label +:+ " failed: " +:+ msg)]).
Proof.
  intros C R. unfold run. rewrite (relay_present _ _ _ _ C).
  unfold authenticate. rewrite (authenticate_rejected _ _ _ _ _ _ R).
  reflexivity.
Qed.

(** A network failure of the authentication call is reported as a failed
    authentication, not under the label of the tool; the endpoint is not
    contacted and the cause is in the log. *)
Theorem relay_authentication_unreachable label endpoint environ w e w1 :
  credentials_present environ = true ->
  Request_rejects (auth_url (base_url_of environ)) = None ->
  urlopen_read (auth_request_of environ) w = (Raised e, w1) ->
  isinstance_Exception e = true ->
  run (relay label endpoint environ) w
  = (Value (error_dict "Authentication failed"),
     mkState w1 [auth_request_of environ]
       [LogError ("Authentication failed: " +:+ exn_str e)]).
Proof.
  intros C R U E. unfold run. rewrite (relay_present _ _ _ _ C).
  unfold authenticate. rewrite (authenticate_accepted _ _ _ _ _ R).
  cbv zeta. simpl net. unfold auth_request_of in U. rewrite U, E.
  reflexivity.
Qed.

(** Every run of a relay tool ends in one of five ways: one of the two
    fixed error dictionaries, an error dictionary under the label of the
    tool, the parsed body of an answer to the endpoint request, or an
    exception that is no [Exception]. *)
Theorem relay_outcomes label endpoint environ w :
  match fst (run (relay label endpoint environ) w) with
  | Raised e => isinstance_Exception e = false
  | Value v =>
      v = error_dict "Missing PrismHR credentials"
      \/ v = error_dict "Authentication failed"
      \/ (exists msg, v = error_dict (label +:+ " failed: " +:+ msg))
      \/ (exists tok w1 body w2,
            urlopen_read (endpoint_request (endpoint (base_url_of environ)) tok) w1
            = (Value body, w2)
            /\ json_loads body = inr v)
  end.
Proof.
  unfold run.
  destruct (credentials_present environ) eqn:C.
  2:{ rewrite (relay_missing _ _ _ _ C). left. reflexivity. }
  rewrite (relay_present _ _ _ _ C).
  destruct (authenticate environ _) as [[e|tok] s1].
  - destruct (isinstance_Exception e) eqn:E; simpl; [|exact E].
    right. right. left. eexists. reflexivity.
  - destruct (truthy tok); [|right; left; reflexivity].
    destruct (Request_rejects _) as [msg|].
    { right. right. left. exists msg. reflexivity. }
    cbv zeta.
    destruct (urlopen_read _ (net s1)) as [[e|body] w2] eqn:U.
    + destruct (isinstance_Exception e) eqn:E; simpl; [|exact E].
      right. right. left. eexists. reflexivity.
    + destruct (json_loads body) as [msg|v] eqn:J; simpl.
      * right. right. left. exists msg. reflexivity.
      * right. right. right. exists tok, (net s1), body, w2. auto.
Qed.

(** A truthy token is never made up: when the authenticator returns one,
    the upstream answered with a JSON object whose error code is "0" and
    whose [sessionId] is that token, and nothing was logged. *)
Theorem authenticate_token_origin u p i base s tok s1 :
  authenticate_prismhr u p i base s = (Value tok, s1) ->
  truthy tok = true ->
  exists body d,
    urlopen_read (auth_request u p i base) (net s) = (Value body, net s1)
    /\ json_loads body = inr (PyDict d)
    /\ assoc "errorCode" d = Some (PyStr "0")
    /\ assoc "sessionId" d = Some tok
    /\ log s1 = log s.
Proof.
  destruct (Request_rejects (auth_url base)) as [msg|] eqn:R.
  { rewrite (authenticate_rejected _ _ _ _ _ _ R). discriminate. }
  rewrite (authenticate_accepted _ _ _ _ _ R). cbv zeta.
  destruct (urlopen_read _ (net s)) as [[e|body] w].
  { destruct (isinstance_Exception e); intros [= <- <-]; discriminate. }
  destruct (json_loads body) as [msg|v] eqn:J;
    [intros [= <- <-]; discriminate|].
  destruct v; try (intros [= <- <-]; discriminate).
  destruct (eq_str _ "0") eqn:E; [|intros [= <- <-]; discriminate].
  intros [= <- <-] T. exists body, d. apply error_code_0 in E.
  repeat split; auto.
  destruct (assoc "sessionId" d); [reflexivity | discriminate].
Qed.

(** The authenticator does not retry: from an acceptable URL it sends
    exactly one request whatever happens, and it logs at most one
    record. *)
Theorem authenticate_sends_once u p i base s :
  Request_rejects (auth_url base) = None ->
  trace (snd (authenticate_prismhr u p i base s))
  = trace s ++ [auth_request u p i base]
  /\ (log (snd (authenticate_prismhr u p i base s)) = log s
      \/ exists r, log (snd (authenticate_prismhr u p i base s)) = log s ++ [r]).
Proof.
  intros R. rewrite (authenticate_accepted _ _ _ _ _ R). cbv zeta.
  destruct (urlopen_read _ (net s)) as [[e|body] w].
  { destruct (isinstance_Exception e); simpl; eauto. }
  destruct (json_loads body) as [msg|v]; simpl; [eauto|].
  destruct v; simpl; eauto.
  destruct (eq_str _ "0"); simpl; eauto.
Qed.

(** The form that the authenticator posts has the three fields
    [username], [password] and [peoId], in this order and once each,
    whatever bytes the credentials contain. *)
Theorem auth_data_pairs u p i :
  query_pairs (auth_data (Some u) (Some p) (Some i))
  = [("username", quote_plus u); ("password", quote_plus p);
     ("peoId", quote_plus i)].
Proof. unfold auth_data. now rewrite query_pairs_urlencode. Qed.

Lemma test_connection_missing environ s :
  credentials_present environ = false ->
  test_connection environ s
  = (Value
       (PyDict
          [("success", PyBool false);
           ("error", PyStr "Missing PrismHR credentials. Please set PRISMHR_USERNAME, PRISMHR_PASSWORD, and PRISMHR_PEO_ID environment variables.");
           ("credentials_status",
            PyDict [("username", PyBool (opt_truthy (username_of environ)));
                    ("password", PyBool (opt_truthy (password_of environ)));
                    ("peo_id", PyBool (opt_truthy (peo_id_of environ)))])]),
     s).
Proof.
  unfold credentials_present, username_of, password_of, peo_id_of.
  intros H. unfold test_connection, try_except. cbv zeta. rewrite H.
  reflexivity.
Qed.

Lemma test_connection_present environ s :
  credentials_present environ = true ->
  test_connection environ s
  = match authenticate environ s with
    | (Raised e, s1) =>
        if isinstance_Exception e then
          (Value (PyDict [("success", PyBool false);
                          ("error", PyStr ("Connection test failed: "
                                           +:+ exn_str e))]),
           mkState (net s1) (trace s1)
             (log s1 ++ [LogError ("Connection test failed: " +:+ exn_str e)]))
        else (Raised e, s1)
    | (Value tok, s1) =>
        if truthy tok then
          (Value (PyDict [("success", PyBool true);
                          ("message", PyStr "Connection test successful");
                          ("session_id", tok);
                          ("base_url", PyStr (base_url_of environ))]),
           s1)
        else
          (Value (PyDict [("success", PyBool false);
                          ("error",
                           PyStr "Authentication failed - check credentials");
                          ("base_url", PyStr (base_url_of environ))]),
           s1)
    end.
Proof.
  unfold credentials_present, authenticate, username_of, password_of,
    peo_id_of, base_url_of.
  intros H. unfold test_connection, try_except. cbv zeta. rewrite H.
  cbn [negb]. unfold bind at 1.
  destruct (authenticate_prismhr _ _ _ _ s) as [[e|tok] s1]; [reflexivity|].
  destruct (truthy tok); reflexivity.
Qed.

(** [test_connection] contacts no endpoint and lets no [Exception]
    through. Its result is a dictionary with a boolean [success], which is
    true exactly when the credentials are present and the authenticator
    returned a truthy token; the result then carries that token as
    [session_id], and otherwise an [error] message. *)
Theorem test_connection_outcomes environ w :
  endpoint_requests (trace (snd (run (test_connection environ) w))) = []
  /\ match fst (run (test_connection environ) w) with
     | Raised e => isinstance_Exception e = false
     | Value v =>
         exists d b,
           v = PyDict d
           /\ assoc "success" d = Some (PyBool b)
           /\ (b = true <->
               exists tok s1,
                 credentials_present environ = true
                 /\ authenticate environ (mkState w [] []) = (Value tok, s1)
                 /\ truthy tok = true)
           /\ (b = true ->
               exists tok,
                 assoc "session_id" d = Some tok /\ truthy tok = true
                 /\ fst (authenticate environ (mkState w [] [])) = Value tok)
           /\ (b = false -> exists msg, assoc "error" d = Some (PyStr msg))
     end.
Proof.
  unfold run.
  destruct (credentials_present environ) eqn:C.
  2:{ rewrite (test_connection_missing _ _ C).
      split; [reflexivity|]. simpl. eexists _, false.
      split; [reflexivity|]. split; [reflexivity|].
      repeat split; try discriminate.
      - intros (tok & s1 & F & _). discriminate.
      - intros _. eexists. reflexivity. }
  rewrite (test_connection_present _ _ C).
  destruct (authenticate environ (mkState w [] [])) as [[e|tok] s1] eqn:A.
  - pose proof (authenticate_raised _ _ _ _ _ _ _ A)
      as [(msg & _ & -> & ->) | [E T]].
    + split; [reflexivity|]. simpl. eexists _, false.
      split; [reflexivity|]. split; [reflexivity|].
      repeat split; try discriminate.
      * intros (tok & s1 & _ & F & _). discriminate.
      * intros _. eexists. reflexivity.
    + rewrite E. simpl. split; [rewrite T; reflexivity | exact E].
  - pose proof (authenticate_value _ _ _ _ _ _ _ A) as T. simpl in T.
    destruct (truthy tok) eqn:Tok; simpl.
    + split; [rewrite T; reflexivity|]. eexists _, true.
      split; [reflexivity|]. split; [reflexivity|].
      repeat split; try discriminate.
      * intros _. exists tok, s1. auto.
      * intros _. exists tok. auto.
    + split; [rewrite T; reflexivity|]. eexists _, false.
      split; [reflexivity|]. split; [reflexivity|].
      repeat split; try discriminate.
      * intros (tok' & s1' & _ & [= <- _] & F). congruence.
      * intros _. eexists. reflexivity.
Qed.

End MoreRelay.

(** ** The queries of more tools *)

Lemma dict_set_last {A} k (v v0 : A) d :
  assoc k d = None -> dict_set k v (d ++ [(k, v0)]) = d ++ [(k, v)].
Proof.
  induction d as [|[k' v'] d IH]; simpl.
  - intros _. now rewrite String.eqb_refl.
  - destruct (String.eqb k' k); [discriminate|].
    intros H. now rewrite (IH H).
Qed.

Lemma last_cons {A} (l : list A) : forall y x,
  List.last (y :: l) x = List.last l y.
Proof.
  induction l as [|z l IH]; intros y x; [reflexivity|].
  change (List.last (y :: z :: l) x) with (List.last (z :: l) x).
  now rewrite !IH.
Qed.

Lemma set_each_fresh key x l : forall d,
  assoc key d = None ->
  set_each key (x :: l) d = d ++ [(key, QStr (List.last l x))].
Proof.
  simpl. intros d H. rewrite (dict_set_fresh _ _ _ H).
  revert x. induction l as [|y l IH]; intros x; [reflexivity|].
  cbn [set_each]. rewrite (dict_set_last _ _ _ _ H), IH.
  now rewrite last_cons.
Qed.

Lemma split_first_absent sep s :
  occurs sep s = false -> split_first sep s = (s, "").
Proof.
  induction s as [|c s IH]; simpl; [reflexivity|].
  intros H. apply orb_false_iff in H as [Hc Hs].
  now rewrite Hc, (IH Hs).
Qed.

Lemma split_first_at sep a b :
  occurs sep a = false -> split_first sep (a +:+ String sep b) = (a, b).
Proof.
  induction a as [|c a IH]; simpl.
  - intros _. now rewrite Ascii.eqb_refl.
  - intros H. apply orb_false_iff in H as [Hc Ha].
    now rewrite Hc, (IH Ha).
Qed.

Lemma key_stem_plain k : occurs "[" k = false -> key_stem k = k.
Proof. intros H. unfold key_stem. now rewrite (split_first_absent _ _ H). Qed.

Lemma key_stem_indexed key n :
  occurs "[" key = false -> key_stem (indexed_key key n) = key.
Proof.
  intros H. unfold key_stem, indexed_key.
  change (key +:+ "[" +:+ pretty n +:+ "]")
    with (key +:+ String "[" (pretty n +:+ "]")).
  now rewrite (split_first_at _ _ _ H).
Qed.

Lemma assoc_stem_fresh names d k :
  stems_in names d -> ~ In (key_stem k) names -> assoc k d = None.
Proof.
  intros S N. induction S as [|[k' v] d Hk _ IH]; simpl; [reflexivity|].
  destruct (String.eqb_spec k' k) as [->|_]; [|exact IH].
  now destruct N.
Qed.

Lemma stems_in_weaken key names d :
  stems_in names d -> stems_in (key :: names) d.
Proof.
  intros S. eapply List.Forall_impl; [|exact S]. intros kv H. now right.
Qed.

Lemma Forall_imap {A B} (Q : B -> Prop) (l : list A) : forall f : nat -> A -> B,
  (forall n x, Q (f n x)) -> List.Forall Q (imap f l).
Proof.
  induction l as [|x l IH]; intros f H; simpl; constructor.
  - apply H.
  - apply IH. intros n y. apply H.
Qed.

Lemma set_if_truthy_stem key v names d :
  stems_in names d -> ~ In key names -> occurs "[" key = false ->
  set_if_truthy key v d = d ++ optional_item key v
  /\ stems_in (key :: names) (d ++ optional_item key v).
Proof.
  intros S N B. unfold set_if_truthy, optional_item.
  destruct (opt_truthy v).
  - split.
    + apply dict_set_fresh, (assoc_stem_fresh names); [exact S|].
      now rewrite (key_stem_plain _ B).
    + apply List.Forall_app. split; [now apply stems_in_weaken|].
      constructor; [|constructor]. left. simpl.
      now rewrite (key_stem_plain _ B).
  - rewrite app_nil_r. split; [reflexivity | now apply stems_in_weaken].
Qed.

Lemma set_indexed_if_truthy_stem key xs names d :
  stems_in names d -> ~ In key names -> occurs "[" key = false ->
  set_indexed_if_truthy key xs d
  = d ++ imap (fun n x => (indexed_key key n, QStr x)) (default [] xs)
  /\ stems_in (key :: names)
       (d ++ imap (fun n x => (indexed_key key n, QStr x)) (default [] xs)).
Proof.
  intros S N B. split.
  - unfold set_indexed_if_truthy.
    destruct xs as [[|x l]|]; simpl; try now rewrite app_nil_r.
    change (set_indexed key 1 l (dict_set (indexed_key key 0) (QStr x) d))
      with (set_indexed key 0 (x :: l) d).
    rewrite set_indexed_fresh; [reflexivity|].
    intros j _. apply (assoc_stem_fresh names); [exact S|].
    now rewrite (key_stem_indexed _ _ B).
  - apply List.Forall_app. split; [now apply stems_in_weaken|].
    apply Forall_imap. intros n x. left. simpl.
    now rewrite (key_stem_indexed _ _ B).
Qed.

Ltac fresh_name := simpl; intuition discriminate.

Section MoreQueries.

Context {P : Platform}.

Lemma encoded_optional_item key v :
  quote_plus key = key ->
  encoded_pairs false (optional_item key v) = optional_pair key v.
Proof.
  intros K. unfold optional_item, optional_pair.
  destruct v as [[|a s]|]; try reflexivity.
  unfold encoded_pairs. simpl. now rewrite K.
Qed.

Lemma encoded_indexed_items key xs :
  encoded_pairs false
    (imap (fun n x => (indexed_key key n, QStr x)) (default [] xs))
  = indexed_pairs key xs.
Proof.
  rewrite encoded_pairs_scalar. unfold indexed_pairs.
  destruct xs as [l|]; [|reflexivity]. simpl.
  change (map ?f ?l) with (f <$> l). now rewrite fmap_imap.
Qed.

Lemma encoded_pairs_app doseq a b :
  encoded_pairs doseq (a ++ b) = encoded_pairs doseq a ++ encoded_pairs doseq b.
Proof. unfold encoded_pairs. now rewrite map_app, concat_app. Qed.

(** [get_employee] always sends [clientId] and [employeeId], and [options]
    when it is given and not empty; the values cannot add or change a
    pair, whatever bytes they hold. *)
Theorem get_employee_query client_id employee_id options base_url :
  exists qs,
    get_employee_url client_id employee_id options base_url
    = (base_url +:+ "/services/rest/employee/v1/getEmployee") +:+ "?" +:+ qs
    /\ query_pairs qs
       = ("clientId", quote_plus client_id)
         :: ("employeeId", quote_plus employee_id)
         :: optional_pair "options" options.
Proof.
  exists (urlencode false (get_employee_params client_id employee_id options)).
  split; [reflexivity|]. rewrite query_pairs_urlencode, encoded_pairs_scalar.
  unfold get_employee_params, set_if_truthy, optional_pair.
  destruct options as [[|a s]|]; reflexivity.
Qed.

(** [get_benefit_plans] sends one [planId] pair per element of [plan_id],
    in the order of the list, and none when the list is omitted or
    empty. *)
Theorem get_benefit_plans_query client_id employee_id plan_id base_url :
  exists qs,
    get_benefit_plans_url client_id employee_id plan_id base_url
    = (base_url +:+ "/services/rest/benefits/v1/getBenefitPlans") +:+ "?" +:+ qs
    /\ query_pairs qs
       = ("clientId", quote_plus client_id)
         :: ("employeeId", quote_plus employee_id)
         :: repeated_pairs "planId" plan_id
    /\ count_key "planId" (query_pairs qs) = length (default [] plan_id).
Proof.
  exists (urlencode true (get_benefit_plans_params client_id employee_id plan_id)).
  split; [reflexivity|]. rewrite query_pairs_urlencode.
  assert (E : encoded_pairs true
                (get_benefit_plans_params client_id employee_id plan_id)
              = ("clientId", quote_plus client_id)
                :: ("employeeId", quote_plus employee_id)
                :: repeated_pairs "planId" plan_id).
  { unfold get_benefit_plans_params, set_list_if_truthy, encoded_pairs.
    destruct plan_id as [[|x l]|]; simpl; try reflexivity.
    now rewrite app_nil_r. }
  rewrite E. split; [reflexivity|].
  change (?a :: ?b :: ?l) with ([a; b] ++ l). rewrite count_key_app.
  destruct plan_id as [l|]; [|reflexivity].
  simpl repeated_pairs. now rewrite (count_key_same "planId" _ quote_plus).
Qed.

(** [download_w2] stores every employee id under the same key, so the
    query holds one [employeeId] pair, the last id of the list, however
    many ids the caller gives, and none for an empty list. *)
Theorem download_w2_query client_id employee_id year base_url :
  exists qs,
    download_w2_url client_id employee_id year base_url
    = (base_url +:+ "/services/rest/employee/v1/downloadW2") +:+ "?" +:+ qs
    /\ query_pairs qs
       = ("clientId", quote_plus client_id) :: ("year", quote_plus year)
         :: last_pair "employeeId" employee_id
    /\ count_key "employeeId" (query_pairs qs)
       = match employee_id with [] => 0 | _ :: _ => 1 end.
Proof.
  exists (urlencode false (download_w2_params client_id employee_id year)).
  split; [reflexivity|]. rewrite query_pairs_urlencode, encoded_pairs_scalar.
  unfold download_w2_params.
  destruct employee_id as [|x l]; [split; reflexivity|].
  rewrite set_each_fresh by reflexivity. split; reflexivity.
Qed.

(** [get_history] stores every element of [type] under the same key: the
    query holds the last element only, and no [type] pair when the list is
    omitted or empty. *)
Theorem get_history_query client_id employee_id type base_url :
  exists qs,
    get_history_url client_id employee_id type base_url
    = (base_url +:+ "/services/rest/employee/v1/getHistory") +:+ "?" +:+ qs
    /\ query_pairs qs
       = ("clientId", quote_plus client_id)
         :: ("employeeId", quote_plus employee_id)
         :: last_pair "type" (default [] type).
Proof.
  exists (urlencode false (get_history_params client_id employee_id type)).
  split; [reflexivity|]. rewrite query_pairs_urlencode, encoded_pairs_scalar.
  unfold get_history_params, set_each_if_truthy.
  destruct type as [[|x l]|]; try reflexivity.
  cbn [list_truthy]. rewrite set_each_fresh by reflexivity. reflexivity.
Qed.

(** The URL of a tool whose query is empty. [get_benefit_plan_list], a
    tool without parameters, requests its path. [get_client_list] requests
    its path without a question mark when [in_active] is omitted, and with
    [?inActive=true] or [?inActive=false] when it is given.
    [get_document_types] with no id requests its path followed by a bare
    question mark, and with ids its path and the last id only. *)
Theorem empty_query_urls in_active document_type_id base_url :
  get_benefit_plan_list_url base_url
  = base_url +:+ "/services/rest/benefits/v1/getBenefitPlanList"
  /\ get_client_list_url in_active base_url
     = match in_active with
       | None => base_url +:+ "/services/rest/clientMaster/v1/getClientList"
       | Some b =>
           (base_url +:+ "/services/rest/clientMaster/v1/getClientList")
           +:+ "?inActive=" +:+ (if b then "true" else "false")
       end
  /\ (list_truthy document_type_id = false ->
      get_document_types_url document_type_id base_url
      = (base_url +:+ "/services/rest/documentService/v1/getDocumentTypes")
        +:+ "?")
  /\ exists qs,
       get_document_types_url document_type_id base_url
       = (base_url +:+ "/services/rest/documentService/v1/getDocumentTypes")
         +:+ "?" +:+ qs
       /\ query_pairs qs = last_pair "documentTypeId" (default [] document_type_id).
Proof.
  split; [reflexivity|]. split; [destruct in_active as [[|]|]; reflexivity|].
  split.
  - destruct document_type_id as [[|x l]|]; try discriminate; reflexivity.
  - exists (urlencode false (get_document_types_params document_type_id)).
    split; [reflexivity|]. rewrite query_pairs_urlencode, encoded_pairs_scalar.
    unfold get_document_types_params, set_each_if_truthy.
    destruct document_type_id as [[|x l]|]; try reflexivity.
    cbn [list_truthy]. rewrite set_each_fresh by reflexivity. reflexivity.
Qed.

(** [get_payroll_summary] stores [include_details] as it is, so the query
    holds Python's text of the boolean, [True] or [False] with a capital;
    the optional strings appear when given and not empty. *)
Theorem get_payroll_summary_query client_id year batch_type batch_id
    include_details sort base_url :
  exists qs,
    get_payroll_summary_url client_id year batch_type batch_id include_details
      sort base_url
    = (base_url +:+ "/services/rest/payroll/v1/getPayrollSummary") +:+ "?" +:+ qs
    /\ query_pairs qs
       = ("clientId", quote_plus client_id)
         :: optional_pair "year" year
         ++ optional_pair "batchType" batch_type
         ++ optional_pair "batchId" batch_id
         ++ python_boolean_pair "includeDetails" include_details
         ++ optional_pair "sort" sort.
Proof.
  exists (urlencode false
            (get_payroll_summary_params client_id year batch_type batch_id
               include_details sort)).
  split; [reflexivity|]. rewrite query_pairs_urlencode, encoded_pairs_scalar.
  unfold get_payroll_summary_params, set_if_truthy, set_bool_if_not_None,
    optional_pair, python_boolean_pair.
  destruct year as [[|a1 s1]|], batch_type as [[|a2 s2]|],
    batch_id as [[|a3 s3]|], include_details as [[|]|],
    sort as [[|a5 s5]|]; reflexivity.
Qed.

(** [get_data] hands the list [client_id] to [urlencode] without [doseq]:
    the query holds at most one [clientId] pair, whose value is Python's
    text of the whole list, and none when the list is omitted or empty. *)
Theorem get_data_query schema_name class_name download_id client_id base_url :
  exists qs,
    get_data_url schema_name class_name download_id client_id base_url
    = (base_url +:+ "/services/rest/system/v1/getData") +:+ "?" +:+ qs
    /\ query_pairs qs
       = ("schemaName", quote_plus schema_name)
         :: ("className", quote_plus class_name)
         :: optional_pair "downloadId" download_id
         ++ list_text_pair "clientId" client_id
    /\ count_key "clientId" (query_pairs qs)
       = (if list_truthy client_id then 1 else 0).
Proof.
  exists (urlencode false
            (get_data_params schema_name class_name download_id client_id)).
  split; [reflexivity|]. rewrite query_pairs_urlencode, encoded_pairs_scalar.
  unfold get_data_params, set_if_truthy, set_list_if_truthy, optional_pair,
    list_text_pair.
  destruct download_id as [[|a s]|], client_id as [[|x l]|];
    split; reflexivity.
Qed.

(** [get_gl_detail_download]: the four optional strings appear when given
    and not empty, and each of the nine lists gives one pair per element
    under its own numbered keys [key[0]], [key[1]], ...; a list that is
    omitted or empty gives nothing, and no pair replaces another. *)
Theorem get_gl_detail_download_query download_id batch_id start_date end_date
    client_id employer_id gl_account gl_cost_center gl_detail_code_type
    gl_detail_code voucher_id check_number employee_id base_url :
  exists qs,
    get_gl_detail_download_url download_id batch_id start_date end_date
      client_id employer_id gl_account gl_cost_center gl_detail_code_type
      gl_detail_code voucher_id check_number employee_id base_url
    = (base_url +:+ "/services/rest/generalLedger/v1/getGLDetailDownload")
      +:+ "?" +:+ qs
    /\ query_pairs qs
       = optional_pair "downloadId" download_id
         ++ optional_pair "batchId" batch_id
         ++ optional_pair "startDate" start_date
         ++ optional_pair "endDate" end_date
         ++ indexed_pairs "clientId" client_id
         ++ indexed_pairs "employerId" employer_id
         ++ indexed_pairs "glAccount" gl_account
         ++ indexed_pairs "glCostCenter" gl_cost_center
         ++ indexed_pairs "glDetailCodeType" gl_detail_code_type
         ++ indexed_pairs "glDetailCode" gl_detail_code
         ++ indexed_pairs "voucherId" voucher_id
         ++ indexed_pairs "checkNumber" check_number
         ++ indexed_pairs "employeeId" employee_id.
Proof.
  eexists. split; [reflexivity|]. rewrite query_pairs_urlencode.
  unfold get_gl_detail_download_params. cbv zeta.
  assert (S0 : stems_in [] []) by constructor.
  destruct (set_if_truthy_stem "downloadId" download_id _ _ S0
              ltac:(fresh_name) eq_refl) as [E1 S1]; rewrite E1.
  destruct (set_if_truthy_stem "batchId" batch_id _ _ S1
              ltac:(fresh_name) eq_refl) as [E2 S2]; rewrite E2.
  destruct (set_if_truthy_stem "startDate" start_date _ _ S2
              ltac:(fresh_name) eq_refl) as [E3 S3]; rewrite E3.
  destruct (set_if_truthy_stem "endDate" end_date _ _ S3
              ltac:(fresh_name) eq_refl) as [E4 S4]; rewrite E4.
  destruct (set_indexed_if_truthy_stem "clientId" client_id _ _ S4
              ltac:(fresh_name) eq_refl) as [E5 S5]; rewrite E5.
  destruct (set_indexed_if_truthy_stem "employerId" employer_id _ _ S5
              ltac:(fresh_name) eq_refl) as [E6 S6]; rewrite E6.
  destruct (set_indexed_if_truthy_stem "glAccount" gl_account _ _ S6
              ltac:(fresh_name) eq_refl) as [E7 S7]; rewrite E7.
  destruct (set_indexed_if_truthy_stem "glCostCenter" gl_cost_center _ _ S7
              ltac:(fresh_name) eq_refl) as [E8 S8]; rewrite E8.
  destruct (set_indexed_if_truthy_stem "glDetailCodeType" gl_detail_code_type
              _ _ S8 ltac:(fresh_name) eq_refl) as [E9 S9]; rewrite E9.
  destruct (set_indexed_if_truthy_stem "glDetailCode" gl_detail_code _ _ S9
              ltac:(fresh_name) eq_refl) as [E10 S10]; rewrite E10.
  destruct (set_indexed_if_truthy_stem "voucherId" voucher_id _ _ S10
              ltac:(fresh_name) eq_refl) as [E11 S11]; rewrite E11.
  destruct (set_indexed_if_truthy_stem "checkNumber" check_number _ _ S11
              ltac:(fresh_name) eq_refl) as [E12 S12]; rewrite E12.
  destruct (set_indexed_if_truthy_stem "employeeId" employee_id _ _ S12
              ltac:(fresh_name) eq_refl) as [E13 _]; rewrite E13.
  rewrite !encoded_pairs_app, !encoded_indexed_items,
    !encoded_optional_item by reflexivity.
  simpl. rewrite <- !app_assoc. reflexivity.
Qed.

Lemma urlencode_nonempty doseq query :
  encoded_pairs doseq query <> [] ->
  String.eqb (urlencode doseq query) "" = false.
Proof.
  intros H. unfold urlencode. rewrite urlencode_pieces_pairs.
  destruct (encoded_pairs doseq query) as [|kv kvs]; [now destruct H|].
  apply String.eqb_neq, join_pieces_nonempty.
Qed.

Lemma urlencode_no_pairs doseq query :
  encoded_pairs doseq query = [] -> urlencode doseq query = "".
Proof.
  intros H. unfold urlencode. now rewrite urlencode_pieces_pairs, H.
Qed.

(** [get_benefit_workflow_grid] writes the question mark only before a
    query that is not empty: with no parameter given (or all of them
    empty) it requests its bare path, and otherwise its path, a question
    mark and the pairs of the parameters given. *)
Theorem get_benefit_workflow_grid_query client_id download_id
    workflow_eff_date workflow_level oe_start_date oe_end_date base_url :
  let pairs :=
    optional_pair "clientId" client_id
    ++ optional_pair "downloadId" download_id
    ++ optional_pair "workflowEffDate" workflow_eff_date
    ++ optional_pair "workflowLevel" workflow_level
    ++ optional_pair "oeStartDate" oe_start_date
    ++ optional_pair "oeEndDate" oe_end_date in
  let url :=
    get_benefit_workflow_grid_url client_id download_id workflow_eff_date
      workflow_level oe_start_date oe_end_date base_url in
  (pairs = [] ->
   url = base_url +:+ "/services/rest/benefits/v1/getBenefitWorkflowGrid")
  /\ (pairs <> [] ->
      exists qs,
        url = (base_url +:+ "/services/rest/benefits/v1/getBenefitWorkflowGrid")
              +:+ "?" +:+ qs
        /\ query_pairs qs = pairs).
Proof.
  cbv zeta.
  assert (E : encoded_pairs false
                (get_benefit_workflow_grid_params client_id download_id
                   workflow_eff_date workflow_level oe_start_date oe_end_date)
              = optional_pair "clientId" client_id
                ++ optional_pair "downloadId" download_id
                ++ optional_pair "workflowEffDate" workflow_eff_date
                ++ optional_pair "workflowLevel" workflow_level
                ++ optional_pair "oeStartDate" oe_start_date
                ++ optional_pair "oeEndDate" oe_end_date).
  { unfold get_benefit_workflow_grid_params. cbv zeta.
    assert (S0 : stems_in [] []) by constructor.
    destruct (set_if_truthy_stem "clientId" client_id _ _ S0
                ltac:(fresh_name) eq_refl) as [E1 S1]; rewrite E1.
    destruct (set_if_truthy_stem "downloadId" download_id _ _ S1
                ltac:(fresh_name) eq_refl) as [E2 S2]; rewrite E2.
    destruct (set_if_truthy_stem "workflowEffDate" workflow_eff_date _ _ S2
                ltac:(fresh_name) eq_refl) as [E3 S3]; rewrite E3.
    destruct (set_if_truthy_stem "workflowLevel" workflow_level _ _ S3
                ltac:(fresh_name) eq_refl) as [E4 S4]; rewrite E4.
    destruct (set_if_truthy_stem "oeStartDate" oe_start_date _ _ S4
                ltac:(fresh_name) eq_refl) as [E5 S5]; rewrite E5.
    destruct (set_if_truthy_stem "oeEndDate" oe_end_date _ _ S5
                ltac:(fresh_name) eq_refl) as [E6 _]; rewrite E6.
    rewrite !encoded_pairs_app, !encoded_optional_item by reflexivity.
    simpl. rewrite <- !app_assoc. reflexivity. }
  unfold get_benefit_workflow_grid_url. cbv zeta. split; intros H.
  - rewrite <- E in H. now rewrite (urlencode_no_pairs _ _ H).
  - rewrite <- E in H. rewrite (urlencode_nonempty _ _ H). cbn [negb].
    eexists. split; [reflexivity|]. now rewrite query_pairs_urlencode.
Qed.

End MoreQueries.

(** ** The queries of all the relay tools *)

(** *** [quote_plus] loses nothing *)

Lemma decoded_byte c s :
  decoded (quote_plus_byte c +:+ s) = String c (decoded s).
Proof. destruct c as [[] [] [] [] [] [] [] []]; reflexivity. Qed.

Lemma decoded_quote_plus s : decoded (quote_plus s) = s.
Proof.
  induction s as [|c s IH]; [reflexivity|].
  cbn [quote_plus]. now rewrite decoded_byte, IH.
Qed.

Lemma quote_plus_inj a b : quote_plus a = quote_plus b -> a = b.
Proof.
  intros H. rewrite <- (decoded_quote_plus a), <- (decoded_quote_plus b).
  now rewrite H.
Qed.

Lemma quote_plus_eqb a b :
  String.eqb (quote_plus a) (quote_plus b) = String.eqb a b.
Proof.
  destruct (String.eqb_spec a b) as [->|N].
  - apply String.eqb_refl.
  - apply String.eqb_neq. intros H. now apply quote_plus_inj in H.
Qed.

Lemma unreserved_byte c :
  is_unreserved c = true ->
  quote_plus_byte c = String c "" /\ Ascii.eqb c "[" = false.
Proof.
  destruct c as [[] [] [] [] [] [] [] []]; intros H;
    first [discriminate H | split; reflexivity].
Qed.

Lemma unreserved_quote_plus k : unreserved k = true -> quote_plus k = k.
Proof.
  induction k as [|c k IH]; [reflexivity|].
  cbn [unreserved quote_plus]. intros H.
  apply andb_true_iff in H as [Hc Hk].
  now rewrite (proj1 (unreserved_byte c Hc)), (IH Hk).
Qed.

Lemma unreserved_bracket k : unreserved k = true -> occurs "[" k = false.
Proof.
  induction k as [|c k IH]; [reflexivity|].
  cbn [unreserved occurs]. intros H.
  apply andb_true_iff in H as [Hc Hk].
  now rewrite (proj2 (unreserved_byte c Hc)), (IH Hk).
Qed.

(** *** The pairs under a key *)

Lemma at_key_app {A} key (a b : list (string * A)) :
  at_key key (a ++ b) = at_key key a ++ at_key key b.
Proof. apply List.filter_app. Qed.

Lemma at_key_cons {A} key (kv : string * A) l :
  at_key key (kv :: l)
  = (if String.eqb (fst kv) key then [kv] else []) ++ at_key key l.
Proof. unfold at_key. simpl. now destruct (String.eqb (fst kv) key). Qed.

Lemma at_key_none {A} key (l : list (string * A)) :
  List.Forall (fun kv => fst kv <> key) l -> at_key key l = [].
Proof.
  induction 1 as [|kv l H _ IH]; [reflexivity|].
  unfold at_key. simpl.
  destruct (String.eqb_spec (fst kv) key) as [E|_]; [contradiction | exact IH].
Qed.

Lemma at_key_all {A} key (l : list (string * A)) :
  List.Forall (fun kv => fst kv = key) l -> at_key key l = l.
Proof.
  induction 1 as [|kv l H _ IH]; [reflexivity|].
  unfold at_key. simpl. rewrite H, String.eqb_refl. f_equal. exact IH.
Qed.

Lemma at_key_other_stem {A} key (l : list (string * A)) :
  List.Forall (fun kv => key_stem (fst kv) <> key_stem key) l ->
  at_key key l = [].
Proof.
  intros H. apply at_key_none. eapply List.Forall_impl; [|exact H].
  intros kv N E. apply N. now rewrite E.
Qed.

Lemma at_key_unique {A} key (v : A) l :
  List.NoDup (map fst l) -> In (key, v) l -> at_key key l = [(key, v)].
Proof.
  induction l as [|[k' v'] l IH]; simpl; [contradiction|].
  intros D H. apply List.NoDup_cons_iff in D as [N D].
  unfold at_key. simpl. destruct H as [[= -> ->]|H].
  - rewrite String.eqb_refl. f_equal. apply at_key_none.
    apply List.Forall_forall. intros [k w] Hk E. simpl in E. subst k.
    apply N. apply in_map_iff. now exists (key, w).
  - destruct (String.eqb_spec k' key) as [->|_]; [|now apply IH].
    destruct N. apply in_map_iff. now exists (key, v).
Qed.

Lemma assoc_at_key {A} key (d : list (string * A)) :
  at_key key d = [] -> assoc key d = None.
Proof.
  induction d as [|[k v] d IH]; [reflexivity|].
  unfold at_key. simpl. destruct (String.eqb k key); [discriminate | exact IH].
Qed.

Lemma at_key_indexed key xs : forall i n,
  at_key (indexed_key key n)
    (imap (fun m x => (indexed_key key (i + m), QStr x)) xs)
  = if Nat.ltb n i then []
    else match xs !! (n - i) with
         | Some x => [(indexed_key key n, QStr x)]
         | None => []
         end.
Proof.
  induction xs as [|x xs IH]; intros i n.
  - simpl. now destruct (Nat.ltb n i).
  - cbn [imap]. rewrite at_key_cons. cbn [fst].
    rewrite (imap_ext _ (fun m y => (indexed_key key (S i + m), QStr y)))
      by (intros m y _; simpl; now rewrite Nat.add_succ_r).
    rewrite IH, Nat.add_0_r.
    destruct (String.eqb_spec (indexed_key key i) (indexed_key key n)) as [E|N].
    + apply indexed_key_inj in E. subst n.
      rewrite Nat.ltb_irrefl, Nat.sub_diag.
      destruct (Nat.ltb_spec i (S i)); [reflexivity | lia].
    + assert (n <> i) by (intros ->; now apply N).
      destruct (Nat.ltb_spec n (S i)), (Nat.ltb_spec n i);
        try reflexivity; try lia.
      replace (n - i) with (S (n - S i)) by lia. reflexivity.
Qed.

(** *** What the statements append *)

Lemma added_stems st :
  occurs "[" (statement_key st) = false ->
  List.Forall (fun kv => key_stem (fst kv) = statement_key st) (added st).
Proof.
  intros B.
  assert (S1 : forall v : qval,
             List.Forall (fun kv => key_stem (fst kv) = statement_key st)
               [(statement_key st, v)]).
  { intros v. constructor; [|constructor]. now apply key_stem_plain. }
  assert (SI : forall xs,
             List.Forall (fun kv => key_stem (fst kv) = statement_key st)
               (imap (fun n x => (indexed_key (statement_key st) n, QStr x)) xs)).
  { intros xs. apply Forall_imap. intros n x. now apply key_stem_indexed. }
  destruct st as [key v|key xs|key b|key b|key xs|key xs|key xs|key xs];
    simpl in *.
  - unfold optional_item. destruct (opt_truthy v); [apply S1 | constructor].
  - destruct xs as [[|x l]|]; first [apply S1 | constructor].
  - destruct b; [apply S1 | constructor].
  - destruct b; [apply S1 | constructor].
  - apply SI.
  - apply SI.
  - destruct xs as [[|x l]|]; first [apply S1 | constructor].
  - destruct xs as [|x l]; [constructor | apply S1].
Qed.

Section Statements.

Context {P : Platform}.

Lemma exec_added st d :
  (forall k, key_stem k = statement_key st -> assoc k d = None) ->
  occurs "[" (statement_key st) = false ->
  exec st d = d ++ added st.
Proof.
  intros F B.
  assert (F0 : assoc (statement_key st) d = None).
  { apply F. now apply key_stem_plain. }
  assert (FI : forall j, assoc (indexed_key (statement_key st) j) d = None).
  { intros j. apply F. now apply key_stem_indexed. }
  destruct st as [key v|key xs|key b|key b|key xs|key xs|key xs|key xs];
    simpl in *.
  - unfold set_if_truthy, optional_item.
    destruct (opt_truthy v); [now apply dict_set_fresh | now rewrite app_nil_r].
  - destruct xs as [[|x l]|]; simpl; try now rewrite app_nil_r.
    now apply dict_set_fresh.
  - destruct b as [[|]|]; simpl; try now rewrite app_nil_r.
    + now rewrite (dict_set_fresh _ _ _ F0).
    + now rewrite (dict_set_fresh _ _ _ F0).
  - destruct b as [b|]; simpl; [now apply dict_set_fresh | now rewrite app_nil_r].
  - unfold set_indexed_if_truthy.
    destruct xs as [[|x l]|]; try (simpl; now rewrite app_nil_r).
    cbn [list_truthy default]. now rewrite set_indexed_fresh.
  - now rewrite set_indexed_fresh.
  - unfold set_each_if_truthy.
    destruct xs as [[|x l]|]; try (simpl; now rewrite app_nil_r).
    cbn [list_truthy]. now apply set_each_fresh.
  - destruct xs as [|x l]; [simpl; now rewrite app_nil_r|].
    now apply set_each_fresh.
Qed.

Lemma fold_exec_added sts : forall d,
  List.NoDup (map statement_key sts) ->
  (forall st, In st sts -> occurs "[" (statement_key st) = false) ->
  (forall st, In st sts ->
     List.Forall (fun kv => key_stem (fst kv) <> statement_key st) d) ->
  fold_left (fun params st => exec st params) sts d
  = d ++ concat (map added sts).
Proof.
  induction sts as [|st sts IH]; intros d D B F.
  - simpl. now rewrite app_nil_r.
  - cbn [fold_left map concat]. cbn [map] in D.
    apply List.NoDup_cons_iff in D as [N D].
    rewrite exec_added.
    + rewrite IH, <- app_assoc; [reflexivity | exact D | |].
      * intros st' H. apply B. now right.
      * intros st' H. apply List.Forall_app. split; [apply F; now right|].
        eapply List.Forall_impl; [|apply added_stems, B; now left].
        intros kv -> E. apply N. rewrite E.
        apply in_map. exact H.
    + intros k E. apply assoc_at_key, at_key_other_stem.
      rewrite E. apply F. now left.
    + apply B. now left.
Qed.

End Statements.

(** *** The keys of a well-formed tool *)

Lemma distinct_NoDup l : distinct l = true -> List.NoDup l.
Proof.
  induction l as [|x l IH]; simpl; intros H; constructor;
    apply andb_true_iff in H as [N D]; [|now apply IH].
  intros I. apply negb_true_iff in N.
  assert (E : existsb (String.eqb x) l = true).
  { apply existsb_exists. exists x. split; [exact I | apply String.eqb_refl]. }
  congruence.
Qed.

Lemma NoDup_app_apart {A} (l k : list A) x :
  List.NoDup (l ++ k) -> In x l -> In x k -> False.
Proof.
  induction l as [|a l IH]; simpl; [contradiction|].
  intros D Hl Hk. apply List.NoDup_cons_iff in D as [N D].
  destruct Hl as [->|Hl]; [|now apply IH].
  apply N, in_or_app. now right.
Qed.

Lemma well_formed_keys t :
  well_formed t = true ->
  List.NoDup (map fst (tool_literal t))
  /\ List.NoDup (map statement_key (tool_statements t))
  /\ (forall kv st, In kv (tool_literal t) -> In st (tool_statements t) ->
        fst kv <> statement_key st)
  /\ (forall kv, In kv (tool_literal t) -> unreserved (fst kv) = true)
  /\ (forall st, In st (tool_statements t) ->
        unreserved (statement_key st) = true)
  /\ (tool_form t = NoQuery ->
        tool_literal t = [] /\ tool_statements t = []).
Proof.
  unfold well_formed, tool_keys. intros H.
  apply andb_true_iff in H as [H Q]. apply andb_true_iff in H as [U D].
  apply distinct_NoDup in D.
  assert (U' : forall k,
             In k (map fst (tool_literal t)
                   ++ map statement_key (tool_statements t)) ->
             unreserved k = true).
  { now apply forallb_forall. }
  repeat split.
  - now apply List.NoDup_app_remove_r in D.
  - now apply List.NoDup_app_remove_l in D.
  - intros kv st Hk Hs E.
    apply (NoDup_app_apart _ _ (fst kv) D); [now apply in_map|].
    rewrite E. now apply in_map.
  - intros kv Hk. apply U', in_or_app. left. now apply in_map.
  - intros st Hs. apply U', in_or_app. right. now apply in_map.
  - destruct (tool_form t); try discriminate.
    destruct (tool_literal t); [reflexivity | discriminate].
  - destruct (tool_form t); try discriminate.
    destruct (tool_literal t); [|discriminate].
    destruct (tool_statements t); [reflexivity | discriminate].
Qed.

Section Params.

Context {P : Platform}.

Variable t : tool.

Hypothesis W : well_formed t = true.

Lemma tool_params_added :
  tool_params t = tool_literal t ++ concat (map added (tool_statements t)).
Proof.
  destruct (well_formed_keys t W) as (_ & D & N & UL & US & _).
  apply fold_exec_added.
  - exact D.
  - intros st H. now apply unreserved_bracket, US.
  - intros st H. apply List.Forall_forall. intros kv Hk.
    rewrite key_stem_plain by now apply unreserved_bracket, UL.
    now apply N.
Qed.

(** The items of [params] under a key of the statement [st] are the items
    that [st] added. *)
Lemma at_key_statement st k :
  In st (tool_statements t) -> key_stem k = statement_key st ->
  at_key k (tool_params t) = at_key k (added st).
Proof.
  destruct (well_formed_keys t W) as (_ & D & N & UL & US & _).
  intros H E. rewrite tool_params_added, at_key_app.
  rewrite (at_key_other_stem k (tool_literal t)).
  2:{ apply List.Forall_forall. intros kv Hk.
      rewrite E, key_stem_plain by now apply unreserved_bracket, UL.
      now apply N. }
  simpl. revert D US H. generalize (tool_statements t) as sts.
  induction sts as [|s sts IH]; [contradiction|].
  cbn [map concat]. intros D US H. apply List.NoDup_cons_iff in D as [Ns D].
  rewrite at_key_app. destruct H as [->|H].
  - rewrite (at_key_other_stem k (concat _)); [apply app_nil_r|].
    apply List.Forall_concat, List.Forall_map, List.Forall_forall.
    intros s' H'. eapply List.Forall_impl;
      [|apply added_stems, unreserved_bracket, US; now right].
    intros kv -> E'. apply Ns. rewrite <- E, <- E'. now apply in_map.
  - rewrite (at_key_other_stem k (added s)).
    + apply IH; [exact D | | exact H]. intros s' H'. apply US. now right.
    + eapply List.Forall_impl;
        [|apply added_stems, unreserved_bracket, US; now left].
      intros kv -> E'. apply Ns. rewrite E', E. now apply in_map.
Qed.

(** The item of a key of the dictionary literal stays as it is. *)
Lemma at_key_literal key v :
  In (key, v) (tool_literal t) -> at_key key (tool_params t) = [(key, v)].
Proof.
  destruct (well_formed_keys t W) as (DL & _ & N & UL & US & _).
  intros H. rewrite tool_params_added, at_key_app.
  rewrite (at_key_unique key v) by assumption.
  rewrite (at_key_other_stem key (concat _)); [reflexivity|].
  apply List.Forall_concat, List.Forall_map, List.Forall_forall.
  intros s Hs. eapply List.Forall_impl;
    [|apply added_stems, unreserved_bracket, US; exact Hs].
  intros kv -> E.
  rewrite key_stem_plain in E by now apply unreserved_bracket, (UL (key, v)).
  now apply (N (key, v) s).
Qed.

End Params.

(** *** From the dictionary to the query *)

Section Encoded.

Context {P : Platform}.

Lemma encoded_item_keys doseq kv :
  List.Forall (fun p => fst p = quote_plus (fst kv)) (encoded_item doseq kv).
Proof.
  destruct kv as [k v]. unfold encoded_item. simpl.
  destruct doseq; [destruct v|]; repeat constructor.
  apply List.Forall_map, List.Forall_forall. reflexivity.
Qed.

(** The pairs of the query under the key [key] encode the items of
    [params] under [key]. *)
Lemma at_key_encoded doseq key q :
  at_key (quote_plus key) (encoded_pairs doseq q)
  = encoded_pairs doseq (at_key key q).
Proof.
  induction q as [|kv q IH]; [reflexivity|].
  change (encoded_pairs doseq (kv :: q))
    with (encoded_item doseq kv ++ encoded_pairs doseq q).
  rewrite at_key_app, IH, at_key_cons.
  destruct (String.eqb_spec (fst kv) key) as [E|N].
  - rewrite at_key_all; [reflexivity|].
    rewrite <- E. apply encoded_item_keys.
  - rewrite at_key_none; [reflexivity|].
    eapply List.Forall_impl; [|apply encoded_item_keys].
    intros p -> E. now apply quote_plus_inj in E.
Qed.

(** The URL of a tool ends with its query string, or has none. *)
Lemma tool_url_query t base_url :
  exists qs,
    (tool_url t base_url = (base_url +:+ tool_path t) +:+ "?" +:+ qs
     \/ tool_url t base_url = base_url +:+ tool_path t /\ qs = "")
    /\ forall doseq,
         tool_form t = Query doseq \/ tool_form t = QueryIfAny doseq ->
         query_pairs qs = encoded_pairs doseq (tool_params t).
Proof.
  unfold tool_url. destruct (tool_form t) as [|doseq|doseq].
  - exists "". split; [right; now split|]. intros doseq [E|E]; discriminate.
  - exists (urlencode doseq (tool_params t)). split; [now left|].
    intros d [[= <-]|E]; [apply query_pairs_urlencode | discriminate].
  - exists (urlencode doseq (tool_params t)). cbv zeta. split.
    + destruct (String.eqb_spec (urlencode doseq (tool_params t)) "") as [E|_];
        [right; now split | now left].
    + intros d [E|[= <-]]; [discriminate | apply query_pairs_urlencode].
Qed.

(** The pairs of the query of a well-formed tool, key by key. *)
Lemma tool_query_pairs t base_url :
  well_formed t = true ->
  exists qs,
    (tool_url t base_url = (base_url +:+ tool_path t) +:+ "?" +:+ qs
     \/ tool_url t base_url = base_url +:+ tool_path t /\ qs = "")
    /\ exists doseq,
         (tool_form t = NoQuery \/ tool_form t = Query doseq
          \/ tool_form t = QueryIfAny doseq)
         /\ (forall st k,
               In st (tool_statements t) -> key_stem k = statement_key st ->
               at_key (quote_plus k) (query_pairs qs)
               = encoded_pairs doseq (at_key k (added st)))
         /\ (forall key v,
               In (key, v) (tool_literal t) ->
               at_key (quote_plus key) (query_pairs qs)
               = encoded_pairs doseq [(key, v)]).
Proof.
  intros W. destruct (tool_url_query t base_url) as (qs & L & Q).
  exists qs. split; [exact L|].
  destruct (well_formed_keys t W) as (_ & _ & _ & _ & _ & E).
  destruct (tool_form t) as [|doseq|doseq] eqn:F.
  - destruct (E eq_refl) as [EL ES]. exists false. rewrite EL, ES.
    split; [now left|]. split; intros; contradiction.
  - exists doseq. split; [right; now left|].
    rewrite (Q doseq (or_introl eq_refl)). split.
    + intros st k H K. now rewrite at_key_encoded, (at_key_statement t W st).
    + intros key v H. now rewrite at_key_encoded, (at_key_literal t W key v).
  - exists doseq. split; [right; now right|].
    rewrite (Q doseq (or_intror eq_refl)). split.
    + intros st k H K. now rewrite at_key_encoded, (at_key_statement t W st).
    + intros key v H. now rewrite at_key_encoded, (at_key_literal t W key v).
Qed.

End Encoded.

(** *** The rows of the table *)

Lemma relay_tool_well_formed t : Table.relay_tool t -> well_formed t = true.
Proof. intros H. destruct H; reflexivity. Qed.

(** [get_payroll_summary] is the one tool that stores a boolean without
    converting it. *)
Lemma unconverted_boolean t key b :
  Table.relay_tool t -> In (IfNotNone key b) (tool_statements t) ->
  tool_path t = "/services/rest/payroll/v1/getPayrollSummary".
Proof.
  intros H. destruct H; simpl; intros I;
    first [reflexivity
          | repeat (destruct I as [I|I]; [discriminate I|]); contradiction].
Qed.

(** The tools that hand [params] to [urlencode] with [doseq=True]:
    [get_absence_journal], [get_active_benefit_plans], [get_benefit_plans],
    [get_monthly_aca_info], [get_pto_requests_list], [get_benefit_group],
    [get_messages], [get_billing_vouchers] and
    [get_billing_vouchers_by_batch]. *)
Lemma doseq_tools t :
  Table.relay_tool t ->
  tool_form t = Query true
  <-> In (tool_path t)
    ["/services/rest/benefits/v1/getAbsenceJournal";
     "/services/rest/benefits/v1/getActiveBenefitPlans";
     "/services/rest/benefits/v1/getBenefitPlans";
     "/services/rest/benefits/v1/getMonthlyACAInfo";
     "/services/rest/benefits/v1/getPTORequestsList";
     "/services/rest/clientMaster/v1/getBenefitGroup";
     "/services/rest/clientMaster/v1/getMessages";
     "/services/rest/payroll/v1/getBillingVouchers";
     "/services/rest/payroll/v1/getBillingVouchersByBatch"].
Proof.
  intros H. destruct H; cbn [tool_form tool_path]; split; intros I;
    first [discriminate I
          | simpl; tauto
          | exfalso; simpl in I;
            repeat (destruct I as [I|I]; [discriminate I|]); exact I].
Qed.

(** The tools that number the keys of a list parameter: [reprint_1099]
    and [get_gl_detail_download]. *)
Lemma numbering_tools t st :
  Table.relay_tool t -> In st (tool_statements t) ->
  match st with
  | Enumerate _ _ | IfTruthyEnumerate _ _ =>
      In (tool_path t)
        ["/services/rest/employee/v1/reprint1099";
         "/services/rest/generalLedger/v1/getGLDetailDownload"]
  | _ => True
  end.
Proof.
  intros H. destruct H; cbn [tool_statements tool_path]; intros I;
    simpl in I;
    repeat (destruct I as [<-|I]; [first [exact Logic.I | simpl; tauto]|]);
    contradiction.
Qed.

Section Rows.

Context {P : Platform}.

(** *** The table and the tools written out

    The row of a tool in the table is the tool as it is written out
    above, for the tools that are. *)

Lemma get_employee_list_row client_id status_class type_class :
  exists t, Table.relay_tool t /\ relay_call t = get_employee_list client_id
      status_class type_class.
Proof.
  eexists. split; [apply (Table.get_employee_list client_id status_class
    type_class) | reflexivity].
Qed.

Lemma get_absence_journal_row client_id journal_id :
  exists t, Table.relay_tool t /\ relay_call t = get_absence_journal client_id
      journal_id.
Proof.
  eexists. split; [apply (Table.get_absence_journal client_id journal_id) |
    reflexivity].
Qed.

Lemma get_retirement_plan_row client_id employee_id effective_date is_active :
  exists t, Table.relay_tool t /\ relay_call t = get_retirement_plan client_id
      employee_id effective_date is_active.
Proof.
  eexists. split; [apply (Table.get_retirement_plan client_id employee_id
    effective_date is_active) | reflexivity].
Qed.

Lemma reprint_1099_row client_id employee_id year :
  exists t, Table.relay_tool t /\ relay_call t = reprint_1099 client_id
      employee_id year.
Proof.
  eexists. split; [apply (Table.reprint_1099 client_id employee_id year) |
    reflexivity].
Qed.

Lemma get_employee_row client_id employee_id options :
  exists t, Table.relay_tool t /\ relay_call t = get_employee client_id
      employee_id options.
Proof.
  eexists. split; [apply (Table.get_employee client_id employee_id options) |
    reflexivity].
Qed.

Lemma get_benefit_plan_list_row :
  exists t, Table.relay_tool t /\ relay_call t = get_benefit_plan_list.
Proof.
  eexists. split; [apply (Table.get_benefit_plan_list) | reflexivity].
Qed.

Lemma get_benefit_plans_row client_id employee_id plan_id :
  exists t, Table.relay_tool t /\ relay_call t = get_benefit_plans client_id
      employee_id plan_id.
Proof.
  eexists. split; [apply (Table.get_benefit_plans client_id employee_id
    plan_id) | reflexivity].
Qed.

Lemma get_client_list_row in_active :
  exists t, Table.relay_tool t /\ relay_call t = get_client_list in_active.
Proof.
  eexists. split; [apply (Table.get_client_list in_active) | reflexivity].
Qed.

Lemma get_document_types_row document_type_id :
  exists t, Table.relay_tool t /\ relay_call t = get_document_types
      document_type_id.
Proof.
  eexists. split; [apply (Table.get_document_types document_type_id) |
    reflexivity].
Qed.

Lemma download_w2_row client_id employee_id year :
  exists t, Table.relay_tool t /\ relay_call t = download_w2 client_id
      employee_id year.
Proof.
  eexists. split; [apply (Table.download_w2 client_id employee_id year) |
    reflexivity].
Qed.

Lemma get_history_row client_id employee_id type :
  exists t, Table.relay_tool t /\ relay_call t = get_history client_id
      employee_id type.
Proof.
  eexists. split; [apply (Table.get_history client_id employee_id type) |
    reflexivity].
Qed.

Lemma get_gl_detail_download_row download_id batch_id start_date end_date
    client_id employer_id gl_account gl_cost_center gl_detail_code_type
    gl_detail_code voucher_id check_number employee_id :
  exists t, Table.relay_tool t /\ relay_call t = get_gl_detail_download
      download_id batch_id start_date end_date client_id employer_id
      gl_account gl_cost_center gl_detail_code_type gl_detail_code voucher_id
      check_number employee_id.
Proof.
  eexists. split; [apply (Table.get_gl_detail_download download_id batch_id
    start_date end_date client_id employer_id gl_account gl_cost_center
    gl_detail_code_type gl_detail_code voucher_id check_number employee_id) |
    reflexivity].
Qed.

Lemma get_payroll_summary_row client_id year batch_type batch_id
    include_details sort :
  exists t, Table.relay_tool t /\ relay_call t = get_payroll_summary client_id
      year batch_type batch_id include_details sort.
Proof.
  eexists. split; [apply (Table.get_payroll_summary client_id year batch_type
    batch_id include_details sort) | reflexivity].
Qed.

Lemma get_data_row schema_name class_name download_id client_id :
  exists t, Table.relay_tool t /\ relay_call t = get_data schema_name
      class_name download_id client_id.
Proof.
  eexists. split; [apply (Table.get_data schema_name class_name download_id
    client_id) | reflexivity].
Qed.

Lemma get_benefit_workflow_grid_row client_id download_id workflow_eff_date
    workflow_level oe_start_date oe_end_date :
  exists t, Table.relay_tool t /\ relay_call t = get_benefit_workflow_grid
      client_id download_id workflow_eff_date workflow_level oe_start_date
      oe_end_date.
Proof.
  eexists. split; [apply (Table.get_benefit_workflow_grid client_id
    download_id workflow_eff_date workflow_level oe_start_date oe_end_date) |
    reflexivity].
Qed.

End Rows.

(** *** The numbered keys in the query *)

Lemma unreserved_app a b :
  unreserved a = true -> unreserved b = true -> unreserved (a +:+ b) = true.
Proof.
  intros Ha Hb. induction a as [|c a IH]; [exact Hb|].
  cbn [unreserved] in Ha. apply andb_true_iff in Ha as [Hc Ha].
  simpl. now rewrite Hc, (IH Ha).
Qed.

Lemma pretty_N_go_unreserved x : forall s,
  unreserved s = true -> unreserved (pretty_N_go x s) = true.
Proof.
  induction (N.lt_wf_0 x) as [x _ IH]. intros s H.
  destruct (decide (0 < x)%N) as [Hx|Hx].
  - rewrite pretty_N_go_step by exact Hx. apply IH.
    + now apply N.div_lt.
    + cbn [unreserved]. rewrite H, andb_true_r.
      unfold pretty_N_char. now repeat case_match.
  - replace x with 0%N by lia. now rewrite pretty_N_go_0.
Qed.

Lemma pretty_nat_unreserved (n : nat) : unreserved (pretty n) = true.
Proof.
  unfold pretty, pretty_nat, pretty, pretty_N.
  destruct (decide (N.of_nat n = 0%N)); [reflexivity|].
  now apply pretty_N_go_unreserved.
Qed.

Lemma append_assoc a b c : a +:+ b +:+ c = (a +:+ b) +:+ c.
Proof.
  induction a as [|x a IH]; [reflexivity|].
  change (String x (a +:+ b +:+ c) = String x ((a +:+ b) +:+ c)).
  now rewrite IH.
Qed.

Lemma quote_plus_app a b : quote_plus (a +:+ b) = quote_plus a +:+ quote_plus b.
Proof.
  induction a as [|c a IH]; [reflexivity|].
  change (String c a +:+ b) with (String c (a +:+ b)).
  cbn [quote_plus]. rewrite IH. apply append_assoc.
Qed.

(** The key [key[n]] as [quote_plus] writes it. *)
Lemma quote_plus_indexed_key key n :
  unreserved key = true ->
  quote_plus (indexed_key key n) = key +:+ "%5B" +:+ pretty n +:+ "%5D".
Proof.
  intros K. unfold indexed_key. rewrite !quote_plus_app.
  rewrite (unreserved_quote_plus key K).
  now rewrite (unreserved_quote_plus _ (pretty_nat_unreserved n)).
Qed.

(** *** The pairs that the statements leave in the query *)

Section Kinds.

Context {P : Platform}.

Lemma at_key_single key (v : qval) : at_key key [(key, v)] = [(key, v)].
Proof. unfold at_key. simpl. now rewrite String.eqb_refl. Qed.

Lemma omitted_added st : omitted st = true -> added st = [].
Proof.
  destruct st as [key [v|]|key [xs|]|key [b|]|key [b|]|key [xs|]|key xs
                 |key [xs|]|key xs]; try discriminate; reflexivity.
Qed.

Lemma pairs_if_truthy doseq key v :
  quote_plus key = key ->
  encoded_pairs doseq (at_key key (added (IfTruthy key v)))
  = optional_pair key v.
Proof.
  intros K. unfold added, optional_item, optional_pair.
  destruct v as [[|a s]|]; try reflexivity.
  unfold at_key, encoded_pairs, encoded_item. simpl.
  rewrite String.eqb_refl. simpl. rewrite K.
  now destruct doseq.
Qed.

Lemma pairs_if_not_None_lower doseq key b :
  quote_plus key = key ->
  encoded_pairs doseq (at_key key (added (IfNotNoneLower key b)))
  = boolean_pair key b.
Proof.
  intros K. unfold added, boolean_pair.
  destruct b as [b|]; [|reflexivity]. rewrite at_key_single.
  unfold encoded_pairs, encoded_item. simpl. rewrite K.
  now destruct doseq, b.
Qed.

Lemma pairs_if_not_None doseq key b :
  length (encoded_pairs doseq (at_key key (added (IfNotNone key b))))
  = match b with Some _ => 1 | None => 0 end.
Proof.
  unfold added. destruct b as [b|]; [|reflexivity]. rewrite at_key_single.
  now destruct doseq.
Qed.

Lemma pairs_if_truthy_list key xs :
  quote_plus key = key ->
  encoded_pairs true (at_key key (added (IfTruthyList key xs)))
  = repeated_pairs key xs.
Proof.
  intros K. unfold added, repeated_pairs.
  destruct xs as [[|x l]|]; try reflexivity. rewrite at_key_single.
  unfold encoded_pairs, encoded_item. cbn [map concat fst snd].
  now rewrite K, app_nil_r.
Qed.

Lemma pairs_list_literal key xs :
  quote_plus key = key ->
  encoded_pairs true [(key, QList xs)] = map (fun x => (key, quote_plus x)) xs.
Proof.
  intros K. unfold encoded_pairs, encoded_item. cbn [map concat fst snd].
  now rewrite K, app_nil_r.
Qed.

Lemma pairs_enumerate doseq key xs n :
  encoded_pairs doseq
    (at_key (indexed_key key n)
       (imap (fun m x => (indexed_key key m, QStr x)) xs))
  = indexed_pair key xs n.
Proof.
  change (imap (fun m x => (indexed_key key m, QStr x)) xs)
    with (imap (fun m x => (indexed_key key (0 + m), QStr x)) xs).
  rewrite (at_key_indexed key xs 0 n). unfold indexed_pair.
  cbn [Nat.ltb Nat.leb]. rewrite Nat.sub_0_r.
  destruct (xs !! n); [|reflexivity]. now destruct doseq.
Qed.

End Kinds.

(** ** The claims about the query string *)

Section QueryClaims.

Context {P : Platform}.

(** C6, as the code has it. For every relay tool and every call of it:
    where the tool hands [params] to [urlencode] with [doseq=True], a
    list parameter gives one pair per element of the list, all under the
    key of the parameter and in the order of the list (none for a list
    that is omitted or empty); where the tool numbers the keys of a list
    parameter, the element [n] of the list is the one pair under the key
    [key[n]], which the query writes [key%5Bn%5D], and there is no pair
    under a number that the list does not reach. *)
Theorem array_parameter_pairs t environ w r :
  Table.relay_tool t ->
  In r (endpoint_requests (trace (snd (run (relay_call t environ) w)))) ->
  exists qs,
    (full_url r = (base_url_of environ +:+ tool_path t) +:+ "?" +:+ qs
     \/ full_url r = base_url_of environ +:+ tool_path t /\ qs = "")
    /\ (tool_form t = Query true ->
        (forall key xs,
            In (key, QList xs) (tool_literal t) ->
            at_key key (query_pairs qs)
            = map (fun x => (key, quote_plus x)) xs)
        /\ (forall key xs,
              In (IfTruthyList key xs) (tool_statements t) ->
              at_key key (query_pairs qs) = repeated_pairs key xs))
    /\ (forall key xs n,
          In (Enumerate key xs) (tool_statements t) ->
          quote_plus (indexed_key key n) = key +:+ "%5B" +:+ pretty n +:+ "%5D"
          /\ at_key (quote_plus (indexed_key key n)) (query_pairs qs)
             = indexed_pair key xs n)
    /\ (forall key xs n,
          In (IfTruthyEnumerate key xs) (tool_statements t) ->
          quote_plus (indexed_key key n) = key +:+ "%5B" +:+ pretty n +:+ "%5D"
          /\ at_key (quote_plus (indexed_key key n)) (query_pairs qs)
             = indexed_pair key (default [] xs) n).
Proof.
  intros T H. apply relay_endpoint_request in H. rewrite H.
  pose proof (relay_tool_well_formed t T) as W.
  destruct (tool_query_pairs t (base_url_of environ) W)
    as (qs & L & doseq & F & S & Lit).
  destruct (well_formed_keys t W) as (_ & _ & _ & UL & US & _).
  exists qs. split; [exact L|]. split; [|split].
  - intros E. rewrite E in F.
    destruct F as [F|[[= <-]|F]]; try discriminate F. split.
    + intros key xs I.
      pose proof (unreserved_quote_plus key (UL _ I)) as K. simpl in K.
      rewrite <- K at 1. rewrite (Lit key _ I).
      now apply pairs_list_literal.
    + intros key xs I.
      pose proof (unreserved_quote_plus key (US _ I)) as K. simpl in K.
      rewrite <- K at 1.
      rewrite (S _ key I)
        by (apply key_stem_plain, unreserved_bracket, (US _ I)).
      now apply pairs_if_truthy_list.
  - intros key xs n I. split; [apply quote_plus_indexed_key, (US _ I)|].
    rewrite (S _ (indexed_key key n) I)
      by (apply key_stem_indexed, unreserved_bracket, (US _ I)).
    apply pairs_enumerate.
  - intros key xs n I. split; [apply quote_plus_indexed_key, (US _ I)|].
    rewrite (S _ (indexed_key key n) I)
      by (apply key_stem_indexed, unreserved_bracket, (US _ I)).
    apply pairs_enumerate.
Qed.

(** C7, as the code has it. For every relay tool and every call of it: an
    optional parameter that the caller omits leaves no pair in the query,
    neither under its key nor under a numbered form of it; an optional
    string parameter given with a non-empty value is there once, with
    that value, and given as the empty string it is not there; an
    optional boolean parameter that the caller gives, [False] included,
    is there once, as [true] or [false] wherever the tool converts it
    with [str(...).lower()], which every tool does but
    [get_payroll_summary]. *)
Theorem optional_parameter_pairs t environ w r :
  Table.relay_tool t ->
  In r (endpoint_requests (trace (snd (run (relay_call t environ) w)))) ->
  exists qs,
    (full_url r = (base_url_of environ +:+ tool_path t) +:+ "?" +:+ qs
     \/ full_url r = base_url_of environ +:+ tool_path t /\ qs = "")
    /\ (forall st k,
          In st (tool_statements t) -> omitted st = true ->
          key_stem k = statement_key st ->
          at_key (quote_plus k) (query_pairs qs) = [])
    /\ (forall key v,
          In (IfTruthy key v) (tool_statements t) ->
          at_key key (query_pairs qs) = optional_pair key v)
    /\ (forall key b,
          In (IfNotNoneLower key b) (tool_statements t) ->
          at_key key (query_pairs qs) = boolean_pair key b)
    /\ (forall key b,
          In (IfNotNone key b) (tool_statements t) ->
          tool_path t = "/services/rest/payroll/v1/getPayrollSummary"
          /\ count_key key (query_pairs qs)
             = match b with Some _ => 1 | None => 0 end).
Proof.
  intros T H. apply relay_endpoint_request in H. rewrite H.
  pose proof (relay_tool_well_formed t T) as W.
  destruct (tool_query_pairs t (base_url_of environ) W)
    as (qs & L & doseq & _ & S & _).
  destruct (well_formed_keys t W) as (_ & _ & _ & _ & US & _).
  exists qs. split; [exact L|]. split; [|split; [|split]].
  - intros st k I O K. now rewrite (S st k I K), (omitted_added st O).
  - intros key v I.
    pose proof (unreserved_quote_plus key (US _ I)) as K. simpl in K.
    rewrite <- K at 1.
    rewrite (S _ key I) by (apply key_stem_plain, unreserved_bracket, (US _ I)).
    now apply pairs_if_truthy.
  - intros key b I.
    pose proof (unreserved_quote_plus key (US _ I)) as K. simpl in K.
    rewrite <- K at 1.
    rewrite (S _ key I) by (apply key_stem_plain, unreserved_bracket, (US _ I)).
    now apply pairs_if_not_None_lower.
  - intros key b I. split; [exact (unconverted_boolean t key b T I)|].
    pose proof (unreserved_quote_plus key (US _ I)) as K. simpl in K.
    change (count_key key (query_pairs qs))
      with (length (at_key key (query_pairs qs))).
    rewrite <- K at 1.
    rewrite (S _ key I) by (apply key_stem_plain, unreserved_bracket, (US _ I)).
    apply pairs_if_not_None.
Qed.

End QueryClaims.

(** ** The claims on concrete runs *)

Import Stub.

#[local] Existing Instance platform.

Lemma authenticate_prismhr_token_witness :
  fst (run (authenticate environ) [Value body_session]) = Value (PyStr "abc123").
Proof.
  exact (proj1 (authenticate_prismhr_token (username_of environ)
                  (password_of environ) (peo_id_of environ)
                  (base_url_of environ) (mkState [Value body_session] [] [])
                  eq_refl)
           body_session []
           [("errorCode", PyStr "0"); ("sessionId", PyStr "abc123")]
           eq_refl eq_refl eq_refl).
Defined.

Lemma relay_authentication_failed_witness :
  run (get_employee_list "132" None None environ) [Value body_bad_password]
  = (Value (PyDict [("error", PyStr "Authentication failed")]),
     mkState [] [login]
       [LogErrorValue "Authentication failed: " (PyStr "bad password")]).
Proof.
  exact (proj1 (relay_authentication_failed "Get employee list"
                  (get_employee_list_url "132" None None) environ
                  [Value body_bad_password] PyNone
                  (mkState [] [login]
                     [LogErrorValue "Authentication failed: "
                        (PyStr "bad password")])
                  eq_refl eq_refl eq_refl)).
Defined.

Lemma relay_missing_credentials_witness :
  peo_id_of (delete "PRISMHR_PEO_ID" environ) = None
  /\ run (get_employee_list "132" None None (delete "PRISMHR_PEO_ID" environ))
       [Value body_session; Value body_employees]
     = (Value (PyDict [("error", PyStr "Missing PrismHR credentials")]),
        mkState [Value body_session; Value body_employees] [] []).
Proof.
  split; [reflexivity|].
  apply (relay_missing_credentials "Get employee list"
           (get_employee_list_url "132" None None)
           (delete "PRISMHR_PEO_ID" environ)).
  right. right. reflexivity.
Defined.

Lemma relay_returns_parsed_body_witness :
  run (get_employee_list "132" None None environ)
    [Value body_session; Value body_employees]
  = (Value (PyDict [("employees", PyList [])]),
     mkState []
       [login;
        get "https://salesdemoapi.prismhr.com/prismhr-api/services/rest/employee/v1/getEmployeeList?clientId=132"]
       []).
Proof.
  exact (relay_returns_parsed_body "Get employee list"
           (get_employee_list_url "132" None None) environ
           [Value body_session; Value body_employees] (PyStr "abc123")
           (mkState [Value body_employees] [login] [])
           body_employees [] (PyDict [("employees", PyList [])])
           eq_refl eq_refl eq_refl eq_refl eq_refl eq_refl).
Defined.

Lemma relay_session_absent_or_empty_witness :
  run (get_absence_journal "132" ["J1"] environ) [Value body_no_session]
  = (Value (PyDict [("error", PyStr "Authentication failed")]),
     mkState [] [login] []).
Proof.
  exact (proj1 (proj2 (relay_session_absent_or_empty "Get absence journal"
                         (get_absence_journal_url "132" ["J1"]) environ
                         [Value body_no_session] body_no_session []
                         [("errorCode", PyStr "0")]
                         eq_refl eq_refl eq_refl eq_refl eq_refl
                         (or_introl eq_refl)))).
Defined.

Lemma relay_empty_credential_witness :
  run (get_employee_list "132" None None (<["PRISMHR_PEO_ID" := ""]> environ))
    [Value body_session; Value body_employees]
  = (Value (PyDict [("error", PyStr "Missing PrismHR credentials")]),
     mkState [Value body_session; Value body_employees] [] []).
Proof.
  exact (proj1 (relay_empty_credential "Get employee list"
                  (get_employee_list_url "132" None None) environ
                  [Value body_session; Value body_employees] "PRISMHR_PEO_ID"
                  (or_intror (or_intror (or_introl eq_refl))))).
Defined.

Lemma relay_converts_exceptions_witness :
  fst (run (get_employee_list "132" None None environ)
         [Value body_session; Raised (Exn TimeoutError "timed out")])
  = Value (PyDict [("error", PyStr "Get employee list failed: timed out")]).
Proof.
  exact (proj1 (proj2 (proj2 (proj2 (relay_converts_exceptions
                  "Get employee list" (get_employee_list_url "132" None None)
                  environ
                  [Value body_session; Raised (Exn TimeoutError "timed out")]))
                  (PyStr "abc123")
                  (mkState [Raised (Exn TimeoutError "timed out")] [login] [])
                  eq_refl eq_refl eq_refl))
           (Exn TimeoutError "timed out") [] eq_refl eq_refl eq_refl).
Defined.

(** C4, the claim as it is written, fails: an error payload of the
    upstream that arrives in a body that parses is returned as it is, and
    it is no dictionary [{"error": ...}]. *)
Lemma relay_returns_error_payload :
  fst (run (get_employee_list "132" None None environ)
         [Value body_session; Value body_invalid_client])
  = Value (PyDict [("errorCode", PyStr "1");
                   ("errorMessage", PyStr "Invalid client")])
  /\ forall msg,
       fst (run (get_employee_list "132" None None environ)
              [Value body_session; Value body_invalid_client])
       <> Value (error_dict msg).
Proof.
  split; [reflexivity|]. intros msg. vm_compute. discriminate.
Qed.

Lemma array_parameter_pairs_witness :
  exists qs,
    "https://salesdemoapi.prismhr.com/prismhr-api/services/rest/benefits/v1/getAbsenceJournal?clientId=132&journalId=J1&journalId=J+2"
    = "https://salesdemoapi.prismhr.com/prismhr-api/services/rest/benefits/v1/getAbsenceJournal?"
      +:+ qs
    /\ at_key "journalId" (query_pairs qs)
       = [("journalId", "J1"); ("journalId", "J+2")].
Proof.
  destruct (array_parameter_pairs (P := platform) _ environ
              [Value body_session; Value body_employees]
              (get "https://salesdemoapi.prismhr.com/prismhr-api/services/rest/benefits/v1/getAbsenceJournal?clientId=132&journalId=J1&journalId=J+2")
              (Table.get_absence_journal "132" ["J1"; "J 2"])
              (or_introl eq_refl))
    as (qs & L & D & _).
  exists qs. split.
  - destruct L as [L|[L _]]; [exact L | discriminate L].
  - exact (proj1 (D eq_refl) "journalId" ["J1"; "J 2"]
             (or_intror (or_introl eq_refl))).
Defined.

(** C6, the claim as it is written, fails: [reprint_1099] with two
    employee ids sends the two values under two different keys, and no key
    of its query occurs twice. *)
Lemma reprint_1099_keys_differ :
  endpoint_requests
    (trace (snd (run (reprint_1099 "132" ["E1"; "E2"] "2023" environ)
                   [Value body_session; Value body_employees])))
  = [get "https://salesdemoapi.prismhr.com/prismhr-api/services/rest/employee/v1/reprint1099?clientId=132&year=2023&employeeId%5B0%5D=E1&employeeId%5B1%5D=E2"]
  /\ query_pairs "clientId=132&year=2023&employeeId%5B0%5D=E1&employeeId%5B1%5D=E2"
     = [("clientId", "132"); ("year", "2023");
        ("employeeId%5B0%5D", "E1"); ("employeeId%5B1%5D", "E2")]
  /\ forall key,
       count_key key
         (query_pairs
            "clientId=132&year=2023&employeeId%5B0%5D=E1&employeeId%5B1%5D=E2")
       <> 2.
Proof.
  split; [reflexivity|]. split; [reflexivity|].
  intros key. unfold count_key.
  change (query_pairs _) with
    [("clientId", "132"); ("year", "2023");
     ("employeeId%5B0%5D", "E1"); ("employeeId%5B1%5D", "E2")].
  cbn [List.filter fst].
  destruct (String.eqb_spec "clientId" key) as [<-|_];
    [vm_compute; discriminate|].
  destruct (String.eqb_spec "year" key) as [<-|_];
    [vm_compute; discriminate|].
  destruct (String.eqb_spec "employeeId%5B0%5D" key) as [<-|_];
    [vm_compute; discriminate|].
  destruct (String.eqb "employeeId%5B1%5D" key); cbn; discriminate.
Qed.

Lemma optional_parameter_pairs_witness :
  exists qs,
    "https://salesdemoapi.prismhr.com/prismhr-api/services/rest/benefits/v1/getRetirementPlan?clientId=132&employeeId=J00809&isActive=false"
    = "https://salesdemoapi.prismhr.com/prismhr-api/services/rest/benefits/v1/getRetirementPlan?"
      +:+ qs
    /\ at_key "effectiveDate" (query_pairs qs) = []
    /\ at_key "isActive" (query_pairs qs) = [("isActive", "false")].
Proof.
  destruct (optional_parameter_pairs (P := platform) _ environ
              [Value body_session; Value body_employees]
              (get "https://salesdemoapi.prismhr.com/prismhr-api/services/rest/benefits/v1/getRetirementPlan?clientId=132&employeeId=J00809&isActive=false")
              (Table.get_retirement_plan "132" "J00809" None (Some false))
              (or_introl eq_refl))
    as (qs & L & _ & S & B & _).
  exists qs. split; [|split].
  - destruct L as [L|[L _]]; [exact L | discriminate L].
  - exact (S "effectiveDate" None (or_introl eq_refl)).
  - exact (B "isActive" (Some false) (or_intror (or_introl eq_refl))).
Defined.

(** C7, the claim as it is written, fails: [status_class] given as the
    empty string is a parameter that the caller supplied, and it does not
    appear in the query. *)
Lemma empty_optional_is_dropped :
  endpoint_requests
    (trace (snd (run (get_employee_list "132" (Some "") None environ)
                   [Value body_session; Value body_employees])))
  = [get "https://salesdemoapi.prismhr.com/prismhr-api/services/rest/employee/v1/getEmployeeList?clientId=132"]
  /\ count_key "statusClass" (query_pairs "clientId=132") <> 1.
Proof.
  split; [reflexivity|]. vm_compute. discriminate.
Qed.

(** The body of a tool does not test its required parameters: an empty
    [client_id] goes to the upstream. *)
Example empty_client_id_is_sent :
  run (get_employee_list "" None None environ)
    [Value body_session; Value body_employees]
  = (Value (PyDict [("employees", PyList [])]),
     mkState []
       [login;
        get "https://salesdemoapi.prismhr.com/prismhr-api/services/rest/employee/v1/getEmployeeList?clientId="]
       []).
Proof. reflexivity. Qed.

(** The request of [authenticate_prismhr] is built outside its [try]: with
    a base URL that [Request] rejects, the authenticator raises, and the
    relay tool around it turns the exception into an error dictionary. *)
Example rejected_base_url :
  run (authenticate (<["PRISMHR_BASE_URL" := ""]> environ)) []
  = (Raised (Exn ValueError
               "unknown url type: '/services/rest/login/v1/createPeoSession'"),
     mkState [] [] [])
  /\ fst (run (get_employee_list "132" None None
                 (<["PRISMHR_BASE_URL" := ""]> environ)) [])
     = Value (PyDict [("error",
                       PyStr "Get employee list failed: unknown url type: '/services/rest/login/v1/createPeoSession'")]).
Proof. split; reflexivity. Qed.

(** [except Exception] lets a [KeyboardInterrupt] through. *)
Example keyboard_interrupt_escapes :
  fst (run (get_employee_list "132" None None environ)
         [Value body_session; Raised (Exn KeyboardInterrupt "")])
  = Raised (Exn KeyboardInterrupt "").
Proof. reflexivity. Qed.

(** ** More concrete runs *)

Lemma relay_authenticates_on_every_call_witness :
  exists rest,
    trace (snd (get_employee_list "132" None None environ
                  (mkState [Value body_session; Value body_employees]
                     [login] [])))
    = [login] ++ login :: rest.
Proof.
  exact (relay_authenticates_on_every_call (P := platform) "Get employee list"
           (get_employee_list_url "132" None None) environ
           (mkState [Value body_session; Value body_employees] [login] [])
           eq_refl eq_refl).
Defined.

Lemma relay_base_url_rejected_witness :
  run (get_employee_list "132" None None
         (<["PRISMHR_BASE_URL" := ""]> environ))
    [Value body_session; Value body_employees]
  = (Value (PyDict [("error",
                     PyStr "Get employee list failed: unknown url type: '/services/rest/login/v1/createPeoSession'")]),
     mkState [Value body_session; Value body_employees] []
       [LogError "Get employee list failed: unknown url type: '/services/rest/login/v1/createPeoSession'"]).
Proof.
  exact (relay_base_url_rejected (P := platform) "Get employee list"
           (get_employee_list_url "132" None None)
           (<["PRISMHR_BASE_URL" := ""]> environ)
           [Value body_session; Value body_employees]
           "unknown url type: '/services/rest/login/v1/createPeoSession'"
           eq_refl eq_refl).
Defined.

Lemma relay_authentication_unreachable_witness :
  run (get_employee_list "132" None None environ) []
  = (Value (PyDict [("error", PyStr "Authentication failed")]),
     mkState [] [login]
       [LogError "Authentication failed: <urlopen error [Errno 111] Connection refused>"]).
Proof.
  exact (relay_authentication_unreachable (P := platform) "Get employee list"
           (get_employee_list_url "132" None None) environ []
           (Exn URLError "<urlopen error [Errno 111] Connection refused>") []
           eq_refl eq_refl eq_refl eq_refl).
Defined.

Lemma authenticate_token_origin_witness :
  exists body d,
    answer login [Value body_session] = (Value body, [])
    /\ parse body = inr (PyDict d)
    /\ assoc "errorCode" d = Some (PyStr "0")
    /\ assoc "sessionId" d = Some (PyStr "abc123")
    /\ @nil log_record = [].
Proof.
  exact (authenticate_token_origin (P := platform) (Some "apiuser")
           (Some "secret") (Some "624") default_base_url
           (mkState [Value body_session] [] []) (PyStr "abc123")
           (mkState [] [login] []) eq_refl eq_refl).
Defined.

Lemma authenticate_sends_once_witness :
  trace (snd (run (authenticate environ) [Value "<html>"; Value body_session]))
  = [login].
Proof.
  exact (proj1 (authenticate_sends_once (P := platform) (Some "apiuser")
                  (Some "secret") (Some "624") default_base_url
                  (mkState [Value "<html>"; Value body_session] [] [])
                  eq_refl)).
Defined.

Lemma empty_query_urls_witness :
  get_document_types_url (Some []) "https://api.example"
  = "https://api.example/services/rest/documentService/v1/getDocumentTypes?".
Proof.
  exact (proj1 (proj2 (proj2 (empty_query_urls (P := platform) None (Some [])
                                "https://api.example"))) eq_refl).
Defined.

Lemma get_benefit_workflow_grid_query_witness :
  get_benefit_workflow_grid_url None (Some "") None None None None
    "https://api.example"
  = "https://api.example/services/rest/benefits/v1/getBenefitWorkflowGrid".
Proof.
  exact (proj1 (get_benefit_workflow_grid_query (P := platform) None (Some "")
                  None None None None "https://api.example") eq_refl).
Defined.

(** Three employee ids go in, one comes out. *)
Example download_w2_last_only :
  endpoint_requests
    (trace (snd (run (download_w2 "132" ["E1"; "E2"; "E3"] "2023" environ)
                   [Value body_session; Value body_employees])))
  = [get "https://salesdemoapi.prismhr.com/prismhr-api/services/rest/employee/v1/downloadW2?clientId=132&year=2023&employeeId=E3"].
Proof. reflexivity. Qed.

Example get_payroll_summary_capital :
  get_payroll_summary_url "132" None None None (Some false) None "B"
  = "B/services/rest/payroll/v1/getPayrollSummary?clientId=132&includeDetails=False".
Proof. reflexivity. Qed.

Example get_data_list_text :
  get_data_url "Benefit" "Plan" None (Some ["132"; "140"]) "B"
  = "B/services/rest/system/v1/getData?schemaName=Benefit&className=Plan&clientId=%5B%27132%27%2C+%27140%27%5D".
Proof. reflexivity. Qed.
